(** * NAS100 breakout backtester: a shallow embedding and its properties

    The development embeds the two replay engines of the repository,
    [backtester.py] (class [Backtester]) and [ultra_backtester.py] (class
    [UltraBacktester]), and proves properties of the replay loop, the
    stop/target calculator, the filters and the results aggregator.

    Modelling conventions.
    - A pandas DataFrame of bars is a [list Bar]; positional access
      [df.iloc[i]] and slicing [df.iloc[a:b]] follow Python: a negative
      position counts from the end, an out-of-range position raises
      [IndexError], slice bounds are clamped.
    - Python floats are idealised as exact rationals ([Q]): rounding is not
      modelled. The non-finite values numpy produces (division by zero, the
      mean, max or min of an empty Series) are modelled by the type [fl].
      The one place where the last digits matter, the box-based stop and
      target calculator, is embedded a second time in [Binary64], on IEEE 754
      binary64 numbers with every operation rounded as Python rounds it.
    - The prices of a frame are finite in [Backtester] and
      [UltraBacktester]. [RawBacktester] repeats the replay of the basic
      engine for frames whose prices may be NaN or infinite.
    - A bar time is the number of seconds since the epoch; the key
      [strftime('%Y-%m-%d')] of the daily counter is the day number and
      [.hour] the hour of the day.
    - Exceptions are values of [exn]; code that can raise lives in the error
      monad [result]. Printing is not modelled, except that the header line
      of [run_backtest] evaluates [df.iloc[start_idx]] and
      [df.iloc[end_idx-1]], which can raise.
    - [run_backtest] is split into [run_state], the replay proper, and
      [get_results]. The aggregator is embedded for the basic engine; the
      ultra engine repeats it and adds its rejection counters. *)

From Stdlib Require Import ZArith QArith Qminmax Qabs List Bool Lia Lqa.
From stdpp Require Import gmap sorting.
From Corelib Require Import PrimFloat.
Import ListNotations.

Set Warnings "-inexact-float".

Open Scope Z_scope.

(** ** Python values and errors *)

Inductive exn : Set := IndexError | KeyError | TypeError.

Inductive result (A : Type) : Type :=
| Ok (a : A)
| Raise (e : exn).
Arguments Ok {A} a.
Arguments Raise {A} e.

Definition bind {A B : Type} (m : result A) (k : A -> result B) : result B :=
  match m with
  | Ok a => k a
  | Raise e => Raise e
  end.

Notation "'let!' x ':=' m 'in' k" := (bind m (fun x => k))
  (at level 10, x name, m at level 100, k at level 200).

(** Comparisons of finite floats, as booleans. *)
Definition Qleb (a b : Q) : bool := Qle_bool a b.
Definition Qltb (a b : Q) : bool := negb (Qle_bool b a).
Definition Qgeb (a b : Q) : bool := Qle_bool b a.
Definition Qgtb (a b : Q) : bool := negb (Qle_bool a b).

(** Floats with the non-finite values of numpy. *)
Inductive fl : Set :=
| Fin (q : Q)
| PInf
| NInf
| NaN.

(** [a / b] on numpy floats: division by zero gives an infinity or NaN (with a
    warning), it does not raise. *)
Definition np_div (a b : Q) : fl :=
  if Qeq_bool b 0 then
    if Qltb 0 a then PInf else if Qltb a 0 then NInf else NaN
  else Fin (a / b).

Definition fl_sub (x y : fl) : fl :=
  match x, y with
  | NaN, _ | _, NaN => NaN
  | Fin a, Fin b => Fin (a - b)
  | PInf, PInf | NInf, NInf => NaN
  | PInf, _ | _, NInf => PInf
  | NInf, _ | _, PInf => NInf
  end.

Definition fl_div (x y : fl) : fl :=
  match x, y with
  | NaN, _ | _, NaN => NaN
  | Fin a, Fin b => np_div a b
  | Fin _, _ => Fin 0
  | _, PInf | _, NInf => NaN
  | PInf, Fin b => if Qltb b 0 then NInf else PInf
  | NInf, Fin b => if Qltb b 0 then PInf else NInf
  end.

(** [x * c] for a finite [c]. *)
Definition fl_scale (x : fl) (c : Q) : fl :=
  match x with
  | Fin a => Fin (a * c)
  | NaN => NaN
  | PInf => if Qltb 0 c then PInf else if Qltb c 0 then NInf else NaN
  | NInf => if Qltb 0 c then NInf else if Qltb c 0 then PInf else NaN
  end.

(** [x < y]: false as soon as one side is NaN. *)
Definition fl_ltb (x y : fl) : bool :=
  match x, y with
  | NaN, _ | _, NaN => false
  | Fin a, Fin b => Qltb a b
  | NInf, NInf | PInf, _ => false
  | NInf, _ => true
  | Fin _, PInf => true
  | Fin _, NInf => false
  end.

Definition fl_leb (x y : fl) : bool :=
  match x, y with
  | NaN, _ | _, NaN => false
  | Fin a, Fin b => Qleb a b
  | NInf, _ | _, PInf => true
  | _, _ => false
  end.

Definition fl_add (x y : fl) : fl :=
  match x, y with
  | NaN, _ | _, NaN => NaN
  | Fin a, Fin b => Fin (a + b)
  | PInf, NInf | NInf, PInf => NaN
  | PInf, _ | _, PInf => PInf
  | NInf, _ | _, NInf => NInf
  end.

Definition fl_neg (x : fl) : fl :=
  match x with
  | Fin a => Fin (- a)
  | PInf => NInf
  | NInf => PInf
  | NaN => NaN
  end.

Definition fl_abs (x : fl) : fl :=
  match x with
  | Fin a => Fin (Qabs a)
  | NaN => NaN
  | _ => PInf
  end.

(** [x == y] *)
Definition fl_eqb (x y : fl) : bool :=
  match x, y with
  | Fin a, Fin b => Qeq_bool a b
  | PInf, PInf | NInf, NInf => true
  | _, _ => false
  end.

(** ** Series and data frames *)

Definition len {A : Type} (l : list A) : Z := Z.of_nat (length l).

(** [l.iloc[i]] *)
Definition iloc {A : Type} (l : list A) (i : Z) : result A :=
  let j := if i <? 0 then i + len l else i in
  if (0 <=? j) && (j <? len l) then
    match nth_error l (Z.to_nat j) with
    | Some a => Ok a
    | None => Raise IndexError
    end
  else Raise IndexError.

(** A slice bound, as Python normalises it against a length [n]. *)
Definition slice_bound (n i : Z) : Z :=
  if i <? 0 then Z.max 0 (i + n) else Z.min i n.

(** [l.iloc[a:b]] *)
Definition iloc_slice {A : Type} (l : list A) (a b : Z) : list A :=
  let a' := slice_bound (len l) a in
  let b' := slice_bound (len l) b in
  firstn (Z.to_nat (b' - a')) (skipn (Z.to_nat a') l).

(** [range(a, b)] *)
Definition range (a b : Z) : list Z :=
  map (fun k => a + Z.of_nat k) (seq 0 (Z.to_nat (b - a))).

Definition Qsum (l : list Q) : Q := fold_right Qplus 0%Q l.

(** [s.sum()], [s.mean()], [s.max()], [s.min()] of a Series of finite floats;
    the last three are NaN on an empty Series. *)
Definition series_mean (l : list Q) : fl :=
  match l with
  | [] => NaN
  | _ => Fin (Qsum l / inject_Z (len l))
  end.

Definition series_max (l : list Q) : fl :=
  match l with
  | [] => NaN
  | x :: l' => Fin (fold_left Qmax l' x)
  end.

Definition series_min (l : list Q) : fl :=
  match l with
  | [] => NaN
  | x :: l' => Fin (fold_left Qmin l' x)
  end.

Record Bar : Type := mkBar {
  time : Z;
  open : Q;
  high : Q;
  low : Q;
  close : Q;
  tick_volume : Q
}.

(** [t.strftime('%Y-%m-%d')], as a day number, and [t.hour]. *)
Definition date_str (t : Z) : Z := t / 86400.
Definition hour (t : Z) : Z := (t mod 86400) / 3600.

Inductive Side : Set := BUY | SELL.

Inductive ExitReason : Set := TP | SL | TSL | END_OF_DATA.

Record EquitySample : Type := mkEquity {
  eq_time : Z;
  eq_balance : Q;
  eq_in_position : bool
}.

(** Largest and smallest element of a non-empty Series [x :: l]. *)
Definition list_max (x : Q) (l : list Q) : Q := fold_left Qmax l x.
Definition list_min (x : Q) (l : list Q) : Q := fold_left Qmin l x.

(** [s.cummax()] *)
Fixpoint cummax_from (m : Q) (l : list Q) : list Q :=
  match l with
  | [] => []
  | x :: l' => let m' := Qmax m x in m' :: cummax_from m' l'
  end.

Definition cummax (l : list Q) : list Q :=
  match l with
  | [] => []
  | x :: l' => x :: cummax_from x l'
  end.

(** Element-wise operation on two Series of the same index. *)
Fixpoint zip_with {A B C : Type} (f : A -> B -> C) (l1 : list A) (l2 : list B)
  : list C :=
  match l1, l2 with
  | a :: l1', b :: l2' => f a b :: zip_with f l1' l2'
  | _, _ => []
  end.

(** [s.max()] of a Series that may hold non-finite values: NaN is skipped,
    and the result is NaN when nothing else is left. *)
Definition fl_max2 (a b : fl) : fl :=
  match a, b with
  | NaN, y => y
  | x, NaN => x
  | x, y => if fl_leb x y then y else x
  end.

Definition fl_series_max (l : list fl) : fl := fold_right fl_max2 NaN l.

(** [s.mean()] of a Series that may hold non-finite values: NaN is skipped. *)
Definition fl_is_nan (x : fl) : bool :=
  match x with
  | NaN => true
  | _ => false
  end.

Definition fl_series_mean (l : list fl) : fl :=
  let xs := List.filter (fun x => negb (fl_is_nan x)) l in
  match xs with
  | [] => NaN
  | _ => fl_div (fold_right fl_add (Fin 0) xs) (Fin (inject_Z (len xs)))
  end.

(** [s.shift(1)]: the first entry is missing (NaN). *)
Definition shift1 (l : list Q) : list fl :=
  firstn (length l) (NaN :: map Fin l).

(** [s.diff()] *)
Definition diff (l : list Q) : list fl :=
  zip_with (fun x p => fl_sub (Fin x) p) l (shift1 l).

(** [s.where(cond, 0)], for a condition computed from the entry itself. *)
Definition where_or_zero (cond : fl -> bool) (l : list fl) : list fl :=
  map (fun d => if cond d then d else Fin 0) l.

(** ** The basic engine: [backtester.py], class [Backtester] *)

Module Backtester.

(** The constructor's parameters. *)
Record Config : Type := mkConfig {
  initial_balance : Q;
  lot_size : Q;
  risk_reward_ratio : Q;
  consolidation_periods : Z;
  breakout_threshold : Q;
  max_daily_trades : Z
}.

(** The dict [self.current_trade]. *)
Record OpenTrade : Type := mkOpen {
  ot_type : Side;
  ot_entry_price : Q;
  ot_entry_time : Z;
  ot_take_profit : Q;
  ot_stop_loss : Q;
  ot_lot_size : Q
}.

(** A record of [self.trades]. *)
Record TradeRecord : Type := mkTrade {
  tr_entry_time : Z;
  tr_exit_time : Z;
  tr_type : Side;
  tr_entry_price : Q;
  tr_exit_price : Q;
  tr_take_profit : Q;
  tr_stop_loss : Q;
  tr_points : Q;
  tr_profit : Q;
  tr_balance : Q;
  tr_exit_reason : ExitReason;
  tr_win : bool
}.

(** The mutable attributes of the engine. *)
Record State : Type := mkState {
  balance : Q;
  in_position : bool;
  current_trade : option OpenTrade;
  trades : list TradeRecord;
  equity_curve : list EquitySample;
  daily_trades_count : gmap Z Z
}.

(** The state [run_backtest] resets to before the loop. *)
Definition init_state (cfg : Config) : State :=
  {| balance := initial_balance cfg;
     in_position := false;
     current_trade := None;
     trades := [];
     equity_curve := [];
     daily_trades_count := ∅ |}.

(** Returns [(is_consolidating, high_level, low_level, box_range)]. *)
Definition identify_consolidation (cfg : Config) (df : list Bar)
    (current_idx : Z) : bool * option fl * option fl * option fl :=
  if current_idx <? consolidation_periods cfg then (false, None, None, None)
  else
    let start_idx := current_idx - consolidation_periods cfg in
    let recent_data := iloc_slice df start_idx current_idx in
    let high_level := series_max (map high recent_data) in
    let low_level := series_min (map low recent_data) in
    let box_range := fl_sub high_level low_level in
    let avg_price := series_mean (map close recent_data) in
    let price_range_ratio := fl_div box_range avg_price in
    let is_consolidating :=
      fl_ltb price_range_ratio (Fin (breakout_threshold cfg)) in
    (is_consolidating, Some high_level, Some low_level, Some box_range).

(** Returns ['BUY'], ['SELL'] or [None]. *)
Definition detect_breakout (df : list Bar) (current_idx : Z)
    (high_level low_level : Q) : result (option Side) :=
  if current_idx <? 1 then Ok None
  else
    let! current_bar := iloc df current_idx in
    let! previous_bar := iloc df (current_idx - 1) in
    let current_price := close current_bar in
    let previous_price := close previous_bar in
    let volume_confirmed := true in
    if Qleb previous_price high_level && Qgtb current_price high_level then
      Ok (if volume_confirmed then Some BUY else None)
    else if Qgeb previous_price low_level && Qltb current_price low_level then
      Ok (if volume_confirmed then Some SELL else None)
    else Ok None.

(** Returns [(take_profit, stop_loss)]. *)
Definition calculate_tp_sl (cfg : Config) (entry_price : Q)
    (signal_type : Side) (box_range : Q) : Q * Q :=
  let sl_multiplier := 1.2%Q in
  match signal_type with
  | BUY =>
      let stop_loss := (entry_price - box_range * sl_multiplier)%Q in
      let risk := (entry_price - stop_loss)%Q in
      let take_profit := (entry_price + risk * risk_reward_ratio cfg)%Q in
      (take_profit, stop_loss)
  | SELL =>
      let stop_loss := (entry_price + box_range * sl_multiplier)%Q in
      let risk := (stop_loss - entry_price)%Q in
      let take_profit := (entry_price - risk * risk_reward_ratio cfg)%Q in
      (take_profit, stop_loss)
  end.

Definition open_trade (cfg : Config) (st : State) (signal_type : Side)
    (entry_price : Q) (entry_time : Z) (take_profit stop_loss : Q) : State :=
  {| balance := balance st;
     in_position := true;
     current_trade :=
       Some {| ot_type := signal_type;
               ot_entry_price := entry_price;
               ot_entry_time := entry_time;
               ot_take_profit := take_profit;
               ot_stop_loss := stop_loss;
               ot_lot_size := lot_size cfg |};
     trades := trades st;
     equity_curve := equity_curve st;
     daily_trades_count := daily_trades_count st |}.

(** Returns [Some (exit_price, exit_reason)] for [(True, exit_price,
    exit_reason)] and [None] for [(False, None, None)]. *)
Definition check_trade_exit (st : State) (current_bar : Bar)
    : option (Q * ExitReason) :=
  match in_position st, current_trade st with
  | true, Some trade =>
      let tp := ot_take_profit trade in
      let sl := ot_stop_loss trade in
      match ot_type trade with
      | BUY =>
          if Qgeb (high current_bar) tp then Some (tp, TP)
          else if Qleb (low current_bar) sl then Some (sl, SL)
          else None
      | SELL =>
          if Qleb (low current_bar) tp then Some (tp, TP)
          else if Qgeb (high current_bar) sl then Some (sl, SL)
          else None
      end
  | _, _ => None
  end.

(** Subscripting [self.current_trade] when it is [None] raises [TypeError]. *)
Definition close_trade (cfg : Config) (st : State) (exit_price : Q)
    (exit_time : Z) (exit_reason : ExitReason) : result State :=
  if negb (in_position st) then Ok st
  else
    match current_trade st with
    | None => Raise TypeError
    | Some trade =>
        let points :=
          match ot_type trade with
          | BUY => (exit_price - ot_entry_price trade)%Q
          | SELL => (ot_entry_price trade - exit_price)%Q
          end in
        let profit := (points * lot_size cfg * 100)%Q in
        let balance' := (balance st + profit)%Q in
        let trade_record :=
          {| tr_entry_time := ot_entry_time trade;
             tr_exit_time := exit_time;
             tr_type := ot_type trade;
             tr_entry_price := ot_entry_price trade;
             tr_exit_price := exit_price;
             tr_take_profit := ot_take_profit trade;
             tr_stop_loss := ot_stop_loss trade;
             tr_points := points;
             tr_profit := profit;
             tr_balance := balance';
             tr_exit_reason := exit_reason;
             tr_win := Qgtb profit 0 |} in
        Ok {| balance := balance';
              in_position := false;
              current_trade := None;
              trades := trades st ++ [trade_record];
              equity_curve := equity_curve st;
              daily_trades_count := daily_trades_count st |}
    end.

Definition can_trade_today (cfg : Config) (st : State) (current_time : Z)
    : bool :=
  let trades_today := default 0 (daily_trades_count st !! date_str current_time) in
  trades_today <? max_daily_trades cfg.

Definition increment_daily_trades (st : State) (current_time : Z) : State :=
  let d := date_str current_time in
  {| balance := balance st;
     in_position := in_position st;
     current_trade := current_trade st;
     trades := trades st;
     equity_curve := equity_curve st;
     daily_trades_count :=
       <[ d := default 0 (daily_trades_count st !! d) + 1 ]>
         (daily_trades_count st) |}.

Definition record_equity (st : State) (current_time : Z) : State :=
  {| balance := balance st;
     in_position := in_position st;
     current_trade := current_trade st;
     trades := trades st;
     equity_curve :=
       equity_curve st ++
       [ {| eq_time := current_time;
            eq_balance := balance st;
            eq_in_position := in_position st |} ];
     daily_trades_count := daily_trades_count st |}.

(** The exit check at the top of the loop body. *)
Definition exit_phase (cfg : Config) (st : State) (current_bar : Bar)
    : result State :=
  if in_position st then
    match check_trade_exit st current_bar with
    | Some (exit_price, exit_reason) =>
        close_trade cfg st exit_price (time current_bar) exit_reason
    | None => Ok st
    end
  else Ok st.

(** The rest of the loop body, after the equity sample. A box that is
    reported as consolidating has finite levels and range, so the last
    branch of the match is the one for [is_consolidating] being false. *)
Definition entry_phase (cfg : Config) (df : list Bar) (i : Z) (st : State)
    (current_bar : Bar) : result State :=
  let current_time := time current_bar in
  let current_price := close current_bar in
  if in_position st then Ok st
  else if negb (can_trade_today cfg st current_time) then Ok st
  else
    match identify_consolidation cfg df i with
    | (true, Some (Fin high_level), Some (Fin low_level), Some (Fin box_range)) =>
        let! signal := detect_breakout df i high_level low_level in
        match signal with
        | Some s =>
            let '(tp, sl) := calculate_tp_sl cfg current_price s box_range in
            let st1 := open_trade cfg st s current_price current_time tp sl in
            Ok (increment_daily_trades st1 current_time)
        | None => Ok st
        end
    | _ => Ok st
    end.

(** One iteration of the main loop, for the index [i]. *)
Definition loop_body (cfg : Config) (df : list Bar) (st : State) (i : Z)
    : result State :=
  let! current_bar := iloc df i in
  let! st1 := exit_phase cfg st current_bar in
  let st2 := record_equity st1 (time current_bar) in
  entry_phase cfg df i st2 current_bar.

(** [for i in idxs: body] *)
Fixpoint for_loop (cfg : Config) (df : list Bar) (idxs : list Z) (st : State)
    : result State :=
  match idxs with
  | [] => Ok st
  | i :: idxs' =>
      let! st' := loop_body cfg df st i in
      for_loop cfg df idxs' st'
  end.

(** The forced close after the loop. *)
Definition close_remaining (cfg : Config) (df : list Bar) (end_idx : Z)
    (st : State) : result State :=
  if in_position st then
    let! last_bar := iloc df (end_idx - 1) in
    close_trade cfg st (close last_bar) (time last_bar) END_OF_DATA
  else Ok st.

(** The dict [get_results] returns. *)
Record Results : Type := mkResults {
  total_trades : Z;
  winning_trades : Z;
  losing_trades : Z;
  win_rate : Q;
  total_profit : Q;
  total_loss : Q;
  net_profit : Q;
  return_pct : fl;
  max_drawdown : fl;
  max_drawdown_pct : fl;
  avg_win : Q;
  avg_loss : Q;
  profit_factor : fl;
  largest_win : Q;
  largest_loss : Q;
  final_balance : Q;
  res_initial_balance : Q
}.

(** Selecting the column ['balance'] of the frame built from an empty
    equity curve raises [KeyError]. *)
Definition get_results (cfg : Config) (st : State) : result Results :=
  if len (trades st) =? 0 then
    Ok {| total_trades := 0; winning_trades := 0; losing_trades := 0;
          win_rate := 0; total_profit := 0; total_loss := 0;
          net_profit := 0; return_pct := Fin 0; max_drawdown := Fin 0;
          max_drawdown_pct := Fin 0; avg_win := 0; avg_loss := 0;
          profit_factor := Fin 0; largest_win := 0; largest_loss := 0;
          final_balance := balance st;
          res_initial_balance := initial_balance cfg |}
  else
    let winning := List.filter (fun t => tr_win t) (trades st) in
    let losing := List.filter (fun t => negb (tr_win t)) (trades st) in
    let wprofits := map tr_profit winning in
    let lprofits := map tr_profit losing in
    let total_profit := if 0 <? len winning then Qsum wprofits else 0%Q in
    let total_loss := if 0 <? len losing then Qabs (Qsum lprofits) else 0%Q in
    match equity_curve st with
    | [] => Raise KeyError
    | _ :: _ =>
        let balances := map eq_balance (equity_curve st) in
        let peak := cummax balances in
        let drawdown := zip_with Qminus peak balances in
        let drawdown_pct :=
          zip_with (fun d p => fl_scale (np_div d p) 100) drawdown peak in
        Ok {| total_trades := len (trades st);
              winning_trades := len winning;
              losing_trades := len losing;
              win_rate :=
                if 0 <? len (trades st)
                then (inject_Z (len winning) / inject_Z (len (trades st)) * 100)%Q
                else 0%Q;
              total_profit := total_profit;
              total_loss := total_loss;
              net_profit := (total_profit - total_loss)%Q;
              return_pct :=
                fl_scale
                  (np_div (balance st - initial_balance cfg) (initial_balance cfg))
                  100;
              max_drawdown := series_max drawdown;
              max_drawdown_pct := fl_series_max drawdown_pct;
              avg_win :=
                if 0 <? len winning
                then (Qsum wprofits / inject_Z (len winning))%Q else 0%Q;
              avg_loss :=
                if 0 <? len losing
                then (Qsum lprofits / inject_Z (len losing))%Q else 0%Q;
              profit_factor :=
                if Qgtb total_loss 0 then Fin (total_profit / total_loss)
                else PInf;
              largest_win :=
                match wprofits with
                | [] => 0%Q
                | x :: l => list_max x l
                end;
              largest_loss :=
                match lprofits with
                | [] => 0%Q
                | x :: l => list_min x l
                end;
              final_balance := balance st;
              res_initial_balance := initial_balance cfg |}
    end.

(** The replay up to, and without, the final [get_results]: the header line,
    the reset, the loop and the forced close. *)
Definition run_state (cfg : Config) (df : list Bar)
    (start_idx end_idx : option Z) : result State :=
  let start_idx := default (consolidation_periods cfg) start_idx in
  let end_idx := default (len df) end_idx in
  let! _first := iloc df start_idx in
  let! _last := iloc df (end_idx - 1) in
  let! st := for_loop cfg df (range start_idx end_idx) (init_state cfg) in
  close_remaining cfg df end_idx st.

(** Returns the results and leaves the engine in its final state. *)
Definition run_backtest (cfg : Config) (df : list Bar)
    (start_idx end_idx : option Z) : result (State * Results) :=
  let! st := run_state cfg df start_idx end_idx in
  let! r := get_results cfg st in
  Ok (st, r).

End Backtester.

(** ** The ultra engine: [ultra_backtester.py], class [UltraBacktester] *)

Module UltraBacktester.

Record Config : Type := mkConfig {
  initial_balance : Q;
  lot_size : Q;
  risk_reward_ratio : Q;
  consolidation_periods : Z;
  breakout_threshold : Q;
  max_daily_trades : Z;
  use_trend_filter : bool;
  trend_period : Z;
  use_breakout_strength : bool;
  min_breakout_strength : Q;
  use_atr_stops : bool;
  atr_period : Z;
  atr_multiplier : Q;
  volume_multiplier : Q;
  use_rsi_filter : bool;
  rsi_period : Z;
  rsi_overbought : Q;
  rsi_oversold : Q;
  use_consolidation_quality : bool;
  min_touches : Z;
  use_time_filter : bool;
  trading_start_hour : Z;
  trading_end_hour : Z;
  use_trailing_stop : bool;
  trailing_stop_pct : Q;
  use_false_breakout_filter : bool;
  confirmation_bars : Z;
  use_mtf_confirmation : bool;
  higher_tf_period : Z
}.

(** The constructor's defaults. *)
Definition default_config : Config :=
  {| initial_balance := 10000; lot_size := 0.01; risk_reward_ratio := 2;
     consolidation_periods := 20; breakout_threshold := 0.0015;
     max_daily_trades := 5;
     use_trend_filter := true; trend_period := 50;
     use_breakout_strength := true; min_breakout_strength := 0.15;
     use_atr_stops := true; atr_period := 14; atr_multiplier := 2;
     volume_multiplier := 1.1;
     use_rsi_filter := true; rsi_period := 14;
     rsi_overbought := 70; rsi_oversold := 30;
     use_consolidation_quality := true; min_touches := 3;
     use_time_filter := true; trading_start_hour := 2;
     trading_end_hour := 20;
     use_trailing_stop := false; trailing_stop_pct := 0.5;
     use_false_breakout_filter := true; confirmation_bars := 1;
     use_mtf_confirmation := true; higher_tf_period := 200 |}.

(** The keys of the dict [self.rejected_trades]. *)
Inductive FilterName : Set :=
| f_trend | f_strength | f_volume | f_rsi
| f_quality | f_time | f_false_breakout | f_mtf.

Definition FilterName_eqb (a b : FilterName) : bool :=
  match a, b with
  | f_trend, f_trend | f_strength, f_strength | f_volume, f_volume
  | f_rsi, f_rsi | f_quality, f_quality | f_time, f_time
  | f_false_breakout, f_false_breakout | f_mtf, f_mtf => true
  | _, _ => false
  end.

(** The dict [self.current_trade]; [ot_trailing_stop] is [None] when
    trailing stops are off. *)
Record OpenTrade : Type := mkOpen {
  ot_type : Side;
  ot_entry_price : Q;
  ot_entry_time : Z;
  ot_take_profit : fl;
  ot_stop_loss : fl;
  ot_lot_size : Q;
  ot_trailing_stop : option fl
}.

Record TradeRecord : Type := mkTrade {
  tr_entry_time : Z;
  tr_exit_time : Z;
  tr_type : Side;
  tr_entry_price : Q;
  tr_exit_price : fl;
  tr_take_profit : fl;
  tr_stop_loss : fl;
  tr_points : fl;
  tr_profit : fl;
  tr_balance : fl;
  tr_exit_reason : ExitReason;
  tr_win : bool
}.

Record Equity : Type := mkEquity {
  eq_time : Z;
  eq_balance : fl;
  eq_in_position : bool
}.

Record State : Type := mkState {
  balance : fl;
  in_position : bool;
  current_trade : option OpenTrade;
  highest_price_in_trade : option Q;
  lowest_price_in_trade : option Q;
  trades : list TradeRecord;
  equity_curve : list Equity;
  daily_trades_count : gmap Z Z;
  rejected_trades : FilterName -> Z
}.

Definition init_state (cfg : Config) : State :=
  {| balance := Fin (initial_balance cfg);
     in_position := false;
     current_trade := None;
     highest_price_in_trade := None;
     lowest_price_in_trade := None;
     trades := [];
     equity_curve := [];
     daily_trades_count := ∅;
     rejected_trades := fun _ => 0 |}.

(** [self.rejected_trades[k] += 1] *)
Definition reject (k : FilterName) (st : State) : State :=
  {| balance := balance st;
     in_position := in_position st;
     current_trade := current_trade st;
     highest_price_in_trade := highest_price_in_trade st;
     lowest_price_in_trade := lowest_price_in_trade st;
     trades := trades st;
     equity_curve := equity_curve st;
     daily_trades_count := daily_trades_count st;
     rejected_trades :=
       fun k' => if FilterName_eqb k k' then rejected_trades st k' + 1
                 else rejected_trades st k' |}.

(** Returns [None] below [period + 1] bars of history. *)
Definition calculate_rsi (df : list Bar) (period idx : Z) : option fl :=
  if idx <? period + 1 then None
  else
    let prices := map close (iloc_slice df (idx - period) idx) in
    let deltas := diff prices in
    let gain := fl_series_mean (where_or_zero (fun d => fl_ltb (Fin 0) d) deltas) in
    let loss :=
      fl_neg (fl_series_mean (where_or_zero (fun d => fl_ltb d (Fin 0)) deltas)) in
    if fl_eqb loss (Fin 0) then Some (Fin 100)
    else
      let rs := fl_div gain loss in
      Some (fl_sub (Fin 100) (fl_div (Fin 100) (fl_add (Fin 1) rs))).

(** Returns [None] below [period] bars of history. *)
Definition calculate_sma (df : list Bar) (period idx : Z) : option fl :=
  if idx <? period then None
  else Some (series_mean (map close (iloc_slice df (idx - period) idx))).

(** Returns [None] below [period + 1] bars of history. The row-wise maximum
    skips the NaN of the shifted close in the first row. *)
Definition calculate_atr (df : list Bar) (period idx : Z) : option fl :=
  if idx <? period + 1 then None
  else
    let recent_data := iloc_slice df (idx - period) idx in
    let prev_close := shift1 (map close recent_data) in
    let high_low := map (fun b => Fin (high b - low b)) recent_data in
    let high_close :=
      zip_with (fun b c => fl_abs (fl_sub (Fin (high b)) c)) recent_data prev_close in
    let low_close :=
      zip_with (fun b c => fl_abs (fl_sub (Fin (low b)) c)) recent_data prev_close in
    let true_range :=
      zip_with (fun hl hc_lc => fl_max2 hl (fl_max2 (fst hc_lc) (snd hc_lc)))
        high_low (zip_with pair high_close low_close) in
    Some (fl_series_mean true_range).

Definition check_rsi_filter (cfg : Config) (df : list Bar) (idx : Z)
    (signal : Side) : bool :=
  if negb (use_rsi_filter cfg) then true
  else
    match calculate_rsi df (rsi_period cfg) idx with
    | None => true
    | Some rsi =>
        match signal with
        | BUY => negb (fl_ltb (Fin (rsi_overbought cfg)) rsi)
        | SELL => negb (fl_ltb rsi (Fin (rsi_oversold cfg)))
        end
    end.

Definition check_consolidation_quality (cfg : Config) (df : list Bar)
    (high_level low_level : Q) (current_idx : Z) : bool :=
  if negb (use_consolidation_quality cfg) then true
  else
    let start_idx := Z.max 0 (current_idx - consolidation_periods cfg) in
    let recent_data := iloc_slice df start_idx current_idx in
    let box_range := (high_level - low_level)%Q in
    let touch_threshold := (box_range * 0.1)%Q in
    let upper_touches :=
      len (List.filter
             (fun b => Qltb (Qabs (high b - high_level)) touch_threshold)
             recent_data) in
    let lower_touches :=
      len (List.filter
             (fun b => Qltb (Qabs (low b - low_level)) touch_threshold)
             recent_data) in
    let total_touches := upper_touches + lower_touches in
    min_touches cfg <=? total_touches.

Definition check_time_filter (cfg : Config) (current_time : Z) : bool :=
  if negb (use_time_filter cfg) then true
  else
    let h := hour current_time in
    if trading_end_hour cfg <? trading_start_hour cfg then
      (trading_start_hour cfg <=? h) || (h <=? trading_end_hour cfg)
    else (trading_start_hour cfg <=? h) && (h <=? trading_end_hour cfg).

(** The confirmation scan [for i in range(1, confirmation_bars + 1)], over
    the offsets [offs]. Besides its outcome it returns the positions it
    passed to [df.iloc], in order. *)
Fixpoint confirm_scan (df : list Bar) (idx : Z) (high_level low_level : Q)
    (signal : Side) (offs : list Z) : list Z * result bool :=
  match offs with
  | [] => ([], Ok true)
  | i :: offs' =>
      match iloc df (idx + i) with
      | Raise e => ([idx + i], Raise e)
      | Ok confirm_bar =>
          let fails :=
            match signal with
            | BUY => Qltb (close confirm_bar) high_level
            | SELL => Qgtb (close confirm_bar) low_level
            end in
          if fails then ([idx + i], Ok false)
          else
            let '(reads, r) :=
              confirm_scan df idx high_level low_level signal offs' in
            (idx + i :: reads, r)
      end
  end.

(** Returns the positions read through [df.iloc] and the outcome. *)
Definition check_false_breakout (cfg : Config) (df : list Bar) (idx : Z)
    (high_level low_level : Q) (signal : Side) : list Z * result bool :=
  if negb (use_false_breakout_filter cfg) then ([], Ok true)
  else if len df <=? idx + confirmation_bars cfg then ([], Ok false)
  else
    confirm_scan df idx high_level low_level signal
      (range 1 (confirmation_bars cfg + 1)).

Definition check_mtf_confirmation (cfg : Config) (df : list Bar) (idx : Z)
    (signal : Side) : result bool :=
  if negb (use_mtf_confirmation cfg) then Ok true
  else
    match calculate_sma df (higher_tf_period cfg) idx with
    | None => Ok true
    | Some htf_ma =>
        let! bar := iloc df idx in
        let current_price := close bar in
        match signal with
        | BUY => Ok (fl_ltb htf_ma (Fin current_price))
        | SELL => Ok (fl_ltb (Fin current_price) htf_ma)
        end
    end.

Definition check_trend (cfg : Config) (df : list Bar) (idx : Z)
    (signal : Side) : result bool :=
  if negb (use_trend_filter cfg) then Ok true
  else
    match calculate_sma df 20 idx, calculate_sma df (trend_period cfg) idx with
    | Some fast_ma, Some slow_ma =>
        let! bar := iloc df idx in
        let current_price := close bar in
        match signal with
        | BUY => Ok (fl_ltb slow_ma (Fin current_price) && fl_ltb slow_ma fast_ma)
        | SELL => Ok (fl_ltb (Fin current_price) slow_ma && fl_ltb fast_ma slow_ma)
        end
    | _, _ => Ok false
    end.

Definition check_breakout_strength (cfg : Config)
    (current_price high_level low_level : Q) (signal : Side) : bool :=
  if negb (use_breakout_strength cfg) then true
  else
    let box_range := (high_level - low_level)%Q in
    let min_breakout := (box_range * min_breakout_strength cfg)%Q in
    match signal with
    | BUY => Qgeb (current_price - high_level) min_breakout
    | SELL => Qgeb (low_level - current_price) min_breakout
    end.

Definition check_volume (cfg : Config) (df : list Bar) (idx : Z)
    : result bool :=
  if idx <? 20 then Ok true
  else
    let! bar := iloc df idx in
    let current_volume := tick_volume bar in
    let avg_volume := series_mean (map tick_volume (iloc_slice df (idx - 20) idx)) in
    Ok (fl_ltb (fl_scale avg_volume (volume_multiplier cfg)) (Fin current_volume)).

Definition identify_consolidation (cfg : Config) (df : list Bar)
    (current_idx : Z) : bool * option fl * option fl * option fl :=
  if current_idx <? consolidation_periods cfg then (false, None, None, None)
  else
    let start_idx := current_idx - consolidation_periods cfg in
    let recent_data := iloc_slice df start_idx current_idx in
    let high_level := series_max (map high recent_data) in
    let low_level := series_min (map low recent_data) in
    let box_range := fl_sub high_level low_level in
    let avg_price := series_mean (map close recent_data) in
    let price_range_ratio := fl_div box_range avg_price in
    let is_consolidating :=
      fl_ltb price_range_ratio (Fin (breakout_threshold cfg)) in
    (is_consolidating, Some high_level, Some low_level, Some box_range).

(** The eight filters in the order of the source; a veto counts one
    rejection for its filter and ends the evaluation. *)
Definition detect_breakout (cfg : Config) (df : list Bar) (st : State)
    (current_idx : Z) (high_level low_level : Q)
    : result (State * option Side) :=
  if current_idx <? 1 then Ok (st, None)
  else
    let! current_bar := iloc df current_idx in
    let! previous_bar := iloc df (current_idx - 1) in
    let current_price := close current_bar in
    let previous_price := close previous_bar in
    let current_time := time current_bar in
    let signal :=
      if Qleb previous_price high_level && Qgtb current_price high_level
      then Some BUY
      else if Qgeb previous_price low_level && Qltb current_price low_level
      then Some SELL
      else None in
    match signal with
    | None => Ok (st, None)
    | Some s =>
        let! ok_volume := check_volume cfg df current_idx in
        if negb ok_volume then Ok (reject f_volume st, None) else
        let! ok_trend := check_trend cfg df current_idx s in
        if negb ok_trend then Ok (reject f_trend st, None) else
        if negb (check_breakout_strength cfg current_price high_level low_level s)
        then Ok (reject f_strength st, None) else
        if negb (check_rsi_filter cfg df current_idx s)
        then Ok (reject f_rsi st, None) else
        if negb (check_consolidation_quality cfg df high_level low_level current_idx)
        then Ok (reject f_quality st, None) else
        if negb (check_time_filter cfg current_time)
        then Ok (reject f_time st, None) else
        let! ok_confirm :=
          snd (check_false_breakout cfg df current_idx high_level low_level s) in
        if negb ok_confirm then Ok (reject f_false_breakout st, None) else
        let! ok_mtf := check_mtf_confirmation cfg df current_idx s in
        if negb ok_mtf then Ok (reject f_mtf st, None) else
        Ok (st, Some s)
    end.

(** The box-based fallback; returns [(take_profit, stop_loss)]. *)
Definition calculate_tp_sl_box (cfg : Config) (entry_price : Q)
    (signal_type : Side) (box_range : Q) : Q * Q :=
  let sl_multiplier := 1.2%Q in
  match signal_type with
  | BUY =>
      let stop_loss := (entry_price - box_range * sl_multiplier)%Q in
      let risk := (entry_price - stop_loss)%Q in
      let take_profit := (entry_price + risk * risk_reward_ratio cfg)%Q in
      (take_profit, stop_loss)
  | SELL =>
      let stop_loss := (entry_price + box_range * sl_multiplier)%Q in
      let risk := (stop_loss - entry_price)%Q in
      let take_profit := (entry_price - risk * risk_reward_ratio cfg)%Q in
      (take_profit, stop_loss)
  end.

Definition calculate_tp_sl (cfg : Config) (df : list Bar) (idx : Z)
    (entry_price : Q) (signal_type : Side) (box_range : Q) : fl * fl :=
  let box :=
    let '(tp, sl) := calculate_tp_sl_box cfg entry_price signal_type box_range in
    (Fin tp, Fin sl) in
  if use_atr_stops cfg then
    match calculate_atr df (atr_period cfg) idx with
    | None => box
    | Some atr =>
        let stop_distance := fl_scale atr (atr_multiplier cfg) in
        match signal_type with
        | BUY =>
            (fl_add (Fin entry_price)
               (fl_scale stop_distance (risk_reward_ratio cfg)),
             fl_sub (Fin entry_price) stop_distance)
        | SELL =>
            (fl_sub (Fin entry_price)
               (fl_scale stop_distance (risk_reward_ratio cfg)),
             fl_add (Fin entry_price) stop_distance)
        end
    end
  else box.

Definition open_trade (cfg : Config) (st : State) (signal_type : Side)
    (entry_price : Q) (entry_time : Z) (take_profit stop_loss : fl) : State :=
  {| balance := balance st;
     in_position := true;
     current_trade :=
       Some {| ot_type := signal_type;
               ot_entry_price := entry_price;
               ot_entry_time := entry_time;
               ot_take_profit := take_profit;
               ot_stop_loss := stop_loss;
               ot_lot_size := lot_size cfg;
               ot_trailing_stop :=
                 if use_trailing_stop cfg then Some stop_loss else None |};
     highest_price_in_trade := Some entry_price;
     lowest_price_in_trade := Some entry_price;
     trades := trades st;
     equity_curve := equity_curve st;
     daily_trades_count := daily_trades_count st;
     rejected_trades := rejected_trades st |}.

Definition set_trade (st : State) (t : OpenTrade) (hi lo : option Q) : State :=
  {| balance := balance st;
     in_position := in_position st;
     current_trade := Some t;
     highest_price_in_trade := hi;
     lowest_price_in_trade := lo;
     trades := trades st;
     equity_curve := equity_curve st;
     daily_trades_count := daily_trades_count st;
     rejected_trades := rejected_trades st |}.

Definition with_trailing_stop (t : OpenTrade) (s : fl) : OpenTrade :=
  {| ot_type := ot_type t;
     ot_entry_price := ot_entry_price t;
     ot_entry_time := ot_entry_time t;
     ot_take_profit := ot_take_profit t;
     ot_stop_loss := ot_stop_loss t;
     ot_lot_size := ot_lot_size t;
     ot_trailing_stop := Some s |}.

(** Comparing with, or subscripting, [None] raises [TypeError]. *)
Definition update_trailing_stop (cfg : Config) (st : State)
    (current_high current_low : Q) : result State :=
  if negb (use_trailing_stop cfg) || negb (in_position st) then Ok st
  else
    match current_trade st with
    | None => Raise TypeError
    | Some trade =>
        let entry := ot_entry_price trade in
        let trail_distance := (entry * (trailing_stop_pct cfg / 100))%Q in
        match ot_type trade with
        | BUY =>
            match highest_price_in_trade st with
            | None => Raise TypeError
            | Some highest =>
                if Qgtb current_high highest then
                  let new_stop := (current_high - trail_distance)%Q in
                  match ot_trailing_stop trade with
                  | None => Raise TypeError
                  | Some ts =>
                      let trade' :=
                        if fl_ltb ts (Fin new_stop)
                        then with_trailing_stop trade (Fin new_stop)
                        else trade in
                      Ok (set_trade st trade' (Some current_high)
                            (lowest_price_in_trade st))
                  end
                else Ok st
            end
        | SELL =>
            match lowest_price_in_trade st with
            | None => Raise TypeError
            | Some lowest =>
                if Qltb current_low lowest then
                  let new_stop := (current_low + trail_distance)%Q in
                  match ot_trailing_stop trade with
                  | None => Raise TypeError
                  | Some ts =>
                      let trade' :=
                        if fl_ltb (Fin new_stop) ts
                        then with_trailing_stop trade (Fin new_stop)
                        else trade in
                      Ok (set_trade st trade' (highest_price_in_trade st)
                            (Some current_low))
                  end
                else Ok st
            end
        end
    end.

(** Returns the state after the trailing-stop update and the exit, if any. *)
Definition check_trade_exit (cfg : Config) (st : State) (current_bar : Bar)
    : result (State * option (fl * ExitReason)) :=
  match in_position st, current_trade st with
  | true, Some _ =>
      let! st1 := update_trailing_stop cfg st (high current_bar) (low current_bar) in
      match current_trade st1 with
      | None => Raise TypeError
      | Some trade =>
          let tp := ot_take_profit trade in
          let sl :=
            if use_trailing_stop cfg then ot_trailing_stop trade
            else Some (ot_stop_loss trade) in
          let stop_reason := if use_trailing_stop cfg then TSL else SL in
          match ot_type trade with
          | BUY =>
              if fl_leb tp (Fin (high current_bar)) then Ok (st1, Some (tp, TP))
              else
                match sl with
                | None => Raise TypeError
                | Some s =>
                    if fl_leb (Fin (low current_bar)) s
                    then Ok (st1, Some (s, stop_reason))
                    else Ok (st1, None)
                end
          | SELL =>
              if fl_leb (Fin (low current_bar)) tp then Ok (st1, Some (tp, TP))
              else
                match sl with
                | None => Raise TypeError
                | Some s =>
                    if fl_leb s (Fin (high current_bar))
                    then Ok (st1, Some (s, stop_reason))
                    else Ok (st1, None)
                end
          end
      end
  | _, _ => Ok (st, None)
  end.

Definition close_trade (cfg : Config) (st : State) (exit_price : fl)
    (exit_time : Z) (exit_reason : ExitReason) : result State :=
  if negb (in_position st) then Ok st
  else
    match current_trade st with
    | None => Raise TypeError
    | Some trade =>
        let points :=
          match ot_type trade with
          | BUY => fl_sub exit_price (Fin (ot_entry_price trade))
          | SELL => fl_sub (Fin (ot_entry_price trade)) exit_price
          end in
        let profit := fl_scale (fl_scale points (lot_size cfg)) 100 in
        let balance' := fl_add (balance st) profit in
        let trade_record :=
          {| tr_entry_time := ot_entry_time trade;
             tr_exit_time := exit_time;
             tr_type := ot_type trade;
             tr_entry_price := ot_entry_price trade;
             tr_exit_price := exit_price;
             tr_take_profit := ot_take_profit trade;
             tr_stop_loss := ot_stop_loss trade;
             tr_points := points;
             tr_profit := profit;
             tr_balance := balance';
             tr_exit_reason := exit_reason;
             tr_win := fl_ltb (Fin 0) profit |} in
        Ok {| balance := balance';
              in_position := false;
              current_trade := None;
              highest_price_in_trade := None;
              lowest_price_in_trade := None;
              trades := trades st ++ [trade_record];
              equity_curve := equity_curve st;
              daily_trades_count := daily_trades_count st;
              rejected_trades := rejected_trades st |}
    end.

Definition can_trade_today (cfg : Config) (st : State) (current_time : Z)
    : bool :=
  let trades_today := default 0 (daily_trades_count st !! date_str current_time) in
  trades_today <? max_daily_trades cfg.

Definition increment_daily_trades (st : State) (current_time : Z) : State :=
  let d := date_str current_time in
  {| balance := balance st;
     in_position := in_position st;
     current_trade := current_trade st;
     highest_price_in_trade := highest_price_in_trade st;
     lowest_price_in_trade := lowest_price_in_trade st;
     trades := trades st;
     equity_curve := equity_curve st;
     daily_trades_count :=
       <[ d := default 0 (daily_trades_count st !! d) + 1 ]>
         (daily_trades_count st);
     rejected_trades := rejected_trades st |}.

Definition record_equity (st : State) (current_time : Z) : State :=
  {| balance := balance st;
     in_position := in_position st;
     current_trade := current_trade st;
     highest_price_in_trade := highest_price_in_trade st;
     lowest_price_in_trade := lowest_price_in_trade st;
     trades := trades st;
     equity_curve :=
       equity_curve st ++
       [ {| eq_time := current_time;
            eq_balance := balance st;
            eq_in_position := in_position st |} ];
     daily_trades_count := daily_trades_count st;
     rejected_trades := rejected_trades st |}.

Definition exit_phase (cfg : Config) (st : State) (current_bar : Bar)
    : result State :=
  if in_position st then
    let! r := check_trade_exit cfg st current_bar in
    match snd r with
    | Some (exit_price, exit_reason) =>
        close_trade cfg (fst r) exit_price (time current_bar) exit_reason
    | None => Ok (fst r)
    end
  else Ok st.

(** As in the basic engine, the last branch of the match is the one for
    [is_consolidating] being false. *)
Definition entry_phase (cfg : Config) (df : list Bar) (i : Z) (st : State)
    (current_bar : Bar) : result State :=
  let current_time := time current_bar in
  let current_price := close current_bar in
  if in_position st then Ok st
  else if negb (can_trade_today cfg st current_time) then Ok st
  else
    match identify_consolidation cfg df i with
    | (true, Some (Fin high_level), Some (Fin low_level), Some (Fin box_range)) =>
        let! r := detect_breakout cfg df st i high_level low_level in
        match snd r with
        | Some s =>
            let '(tp, sl) :=
              calculate_tp_sl cfg df i current_price s box_range in
            let st1 := open_trade cfg (fst r) s current_price current_time tp sl in
            Ok (increment_daily_trades st1 current_time)
        | None => Ok (fst r)
        end
    | _ => Ok st
    end.

Definition loop_body (cfg : Config) (df : list Bar) (st : State) (i : Z)
    : result State :=
  let! current_bar := iloc df i in
  let! st1 := exit_phase cfg st current_bar in
  let st2 := record_equity st1 (time current_bar) in
  entry_phase cfg df i st2 current_bar.

Fixpoint for_loop (cfg : Config) (df : list Bar) (idxs : list Z) (st : State)
    : result State :=
  match idxs with
  | [] => Ok st
  | i :: idxs' =>
      let! st' := loop_body cfg df st i in
      for_loop cfg df idxs' st'
  end.

Definition close_remaining (cfg : Config) (df : list Bar) (end_idx : Z)
    (st : State) : result State :=
  if in_position st then
    let! last_bar := iloc df (end_idx - 1) in
    close_trade cfg st (Fin (close last_bar)) (time last_bar) END_OF_DATA
  else Ok st.

(** The bounds of the replay when the caller gives none. *)
Definition default_start_idx (cfg : Config) : Z :=
  Z.max (Z.max (consolidation_periods cfg) (trend_period cfg))
        (higher_tf_period cfg).

Definition default_end_idx (cfg : Config) (df : list Bar) : Z :=
  if use_false_breakout_filter cfg then len df - confirmation_bars cfg
  else len df.

(** The indices the main loop visits. *)
Definition loop_indices (cfg : Config) (df : list Bar)
    (start_idx end_idx : option Z) : list Z :=
  range (default (default_start_idx cfg) start_idx)
        (default (default_end_idx cfg df) end_idx).

(** The replay up to, and without, the final [get_results]. The header line
    is printed, and its two [df.iloc] evaluated, only when [verbose]. *)
Definition run_state (cfg : Config) (df : list Bar)
    (start_idx end_idx : option Z) (verbose : bool) : result State :=
  let s := default (default_start_idx cfg) start_idx in
  let e := default (default_end_idx cfg df) end_idx in
  let! _header :=
    if verbose then
      let! _first := iloc df s in
      let! _last := iloc df (e - 1) in
      Ok tt
    else Ok tt in
  let! st := for_loop cfg df (loop_indices cfg df start_idx end_idx) (init_state cfg) in
  close_remaining cfg df e st.

End UltraBacktester.

(** ** The basic engine on unvalidated prices

    [Backtester] above takes the prices of a frame to be finite numbers.
    The frames [run_backtest] is handed need not be: a price column can
    hold NaN or an infinity. [RawBacktester] is the replay of the same
    class, [run_backtest] up to its final [get_results], for such frames.
    The prices, and with them the levels, the profits and the balance, are
    values of [fl]. pandas skips NaN in [max], [min] and [mean], a
    comparison with NaN is false, and numpy arithmetic on NaN or an
    infinity gives NaN or an infinity without raising. *)

Record RawBar : Type := mkRawBar {
  raw_time : Z;
  raw_open : fl;
  raw_high : fl;
  raw_low : fl;
  raw_close : fl;
  raw_tick_volume : fl
}.

(** [s.min()] of a Series that may hold non-finite values: NaN is skipped,
    and the result is NaN when nothing else is left. *)
Definition fl_min2 (a b : fl) : fl :=
  match a, b with
  | NaN, y => y
  | x, NaN => x
  | x, y => if fl_leb x y then x else y
  end.

Definition fl_series_min (l : list fl) : fl := fold_right fl_min2 NaN l.

Module RawBacktester.

Import Backtester.

Record OpenTrade : Type := mkOpen {
  ot_type : Side;
  ot_entry_price : fl;
  ot_entry_time : Z;
  ot_take_profit : fl;
  ot_stop_loss : fl;
  ot_lot_size : Q
}.

Record TradeRecord : Type := mkTrade {
  tr_entry_time : Z;
  tr_exit_time : Z;
  tr_type : Side;
  tr_entry_price : fl;
  tr_exit_price : fl;
  tr_take_profit : fl;
  tr_stop_loss : fl;
  tr_points : fl;
  tr_profit : fl;
  tr_balance : fl;
  tr_exit_reason : ExitReason;
  tr_win : bool
}.

Record Equity : Type := mkEquity {
  eq_time : Z;
  eq_balance : fl;
  eq_in_position : bool
}.

Record State : Type := mkState {
  balance : fl;
  in_position : bool;
  current_trade : option OpenTrade;
  trades : list TradeRecord;
  equity_curve : list Equity;
  daily_trades_count : gmap Z Z
}.

Definition init_state (cfg : Config) : State :=
  {| balance := Fin (initial_balance cfg);
     in_position := false;
     current_trade := None;
     trades := [];
     equity_curve := [];
     daily_trades_count := ∅ |}.

Definition identify_consolidation (cfg : Config) (df : list RawBar)
    (current_idx : Z) : bool * option fl * option fl * option fl :=
  if current_idx <? consolidation_periods cfg then (false, None, None, None)
  else
    let start_idx := current_idx - consolidation_periods cfg in
    let recent_data := iloc_slice df start_idx current_idx in
    let high_level := fl_series_max (map raw_high recent_data) in
    let low_level := fl_series_min (map raw_low recent_data) in
    let box_range := fl_sub high_level low_level in
    let avg_price := fl_series_mean (map raw_close recent_data) in
    let price_range_ratio := fl_div box_range avg_price in
    let is_consolidating :=
      fl_ltb price_range_ratio (Fin (breakout_threshold cfg)) in
    (is_consolidating, Some high_level, Some low_level, Some box_range).

Definition detect_breakout (df : list RawBar) (current_idx : Z)
    (high_level low_level : fl) : result (option Side) :=
  if current_idx <? 1 then Ok None
  else
    let! current_bar := iloc df current_idx in
    let! previous_bar := iloc df (current_idx - 1) in
    let current_price := raw_close current_bar in
    let previous_price := raw_close previous_bar in
    let volume_confirmed := true in
    if fl_leb previous_price high_level && fl_ltb high_level current_price then
      Ok (if volume_confirmed then Some BUY else None)
    else if fl_leb low_level previous_price && fl_ltb current_price low_level
    then Ok (if volume_confirmed then Some SELL else None)
    else Ok None.

Definition calculate_tp_sl (cfg : Config) (entry_price : fl)
    (signal_type : Side) (box_range : fl) : fl * fl :=
  let sl_multiplier := 1.2%Q in
  match signal_type with
  | BUY =>
      let stop_loss := fl_sub entry_price (fl_scale box_range sl_multiplier) in
      let risk := fl_sub entry_price stop_loss in
      let take_profit :=
        fl_add entry_price (fl_scale risk (risk_reward_ratio cfg)) in
      (take_profit, stop_loss)
  | SELL =>
      let stop_loss := fl_add entry_price (fl_scale box_range sl_multiplier) in
      let risk := fl_sub stop_loss entry_price in
      let take_profit :=
        fl_sub entry_price (fl_scale risk (risk_reward_ratio cfg)) in
      (take_profit, stop_loss)
  end.

Definition open_trade (cfg : Config) (st : State) (signal_type : Side)
    (entry_price : fl) (entry_time : Z) (take_profit stop_loss : fl) : State :=
  {| balance := balance st;
     in_position := true;
     current_trade :=
       Some {| ot_type := signal_type;
               ot_entry_price := entry_price;
               ot_entry_time := entry_time;
               ot_take_profit := take_profit;
               ot_stop_loss := stop_loss;
               ot_lot_size := lot_size cfg |};
     trades := trades st;
     equity_curve := equity_curve st;
     daily_trades_count := daily_trades_count st |}.

Definition check_trade_exit (st : State) (current_bar : RawBar)
    : option (fl * ExitReason) :=
  match in_position st, current_trade st with
  | true, Some trade =>
      let tp := ot_take_profit trade in
      let sl := ot_stop_loss trade in
      match ot_type trade with
      | BUY =>
          if fl_leb tp (raw_high current_bar) then Some (tp, TP)
          else if fl_leb (raw_low current_bar) sl then Some (sl, SL)
          else None
      | SELL =>
          if fl_leb (raw_low current_bar) tp then Some (tp, TP)
          else if fl_leb sl (raw_high current_bar) then Some (sl, SL)
          else None
      end
  | _, _ => None
  end.

(** Subscripting [self.current_trade] when it is [None] raises [TypeError]. *)
Definition close_trade (cfg : Config) (st : State) (exit_price : fl)
    (exit_time : Z) (exit_reason : ExitReason) : result State :=
  if negb (in_position st) then Ok st
  else
    match current_trade st with
    | None => Raise TypeError
    | Some trade =>
        let points :=
          match ot_type trade with
          | BUY => fl_sub exit_price (ot_entry_price trade)
          | SELL => fl_sub (ot_entry_price trade) exit_price
          end in
        let profit := fl_scale (fl_scale points (lot_size cfg)) 100 in
        let balance' := fl_add (balance st) profit in
        let trade_record :=
          {| tr_entry_time := ot_entry_time trade;
             tr_exit_time := exit_time;
             tr_type := ot_type trade;
             tr_entry_price := ot_entry_price trade;
             tr_exit_price := exit_price;
             tr_take_profit := ot_take_profit trade;
             tr_stop_loss := ot_stop_loss trade;
             tr_points := points;
             tr_profit := profit;
             tr_balance := balance';
             tr_exit_reason := exit_reason;
             tr_win := fl_ltb (Fin 0) profit |} in
        Ok {| balance := balance';
              in_position := false;
              current_trade := None;
              trades := trades st ++ [trade_record];
              equity_curve := equity_curve st;
              daily_trades_count := daily_trades_count st |}
    end.

Definition can_trade_today (cfg : Config) (st : State) (current_time : Z)
    : bool :=
  let trades_today := default 0 (daily_trades_count st !! date_str current_time) in
  trades_today <? max_daily_trades cfg.

Definition increment_daily_trades (st : State) (current_time : Z) : State :=
  let d := date_str current_time in
  {| balance := balance st;
     in_position := in_position st;
     current_trade := current_trade st;
     trades := trades st;
     equity_curve := equity_curve st;
     daily_trades_count :=
       <[ d := default 0 (daily_trades_count st !! d) + 1 ]>
         (daily_trades_count st) |}.

Definition record_equity (st : State) (current_time : Z) : State :=
  {| balance := balance st;
     in_position := in_position st;
     current_trade := current_trade st;
     trades := trades st;
     equity_curve :=
       equity_curve st ++
       [ {| eq_time := current_time;
            eq_balance := balance st;
            eq_in_position := in_position st |} ];
     daily_trades_count := daily_trades_count st |}.

Definition exit_phase (cfg : Config) (st : State) (current_bar : RawBar)
    : result State :=
  if in_position st then
    match check_trade_exit st current_bar with
    | Some (exit_price, exit_reason) =>
        close_trade cfg st exit_price (raw_time current_bar) exit_reason
    | None => Ok st
    end
  else Ok st.

(** The levels are [None] only when there is too little history, and then
    [is_consolidating] is [False]: the last branch of the match is the one
    for [is_consolidating] being false. *)
Definition entry_phase (cfg : Config) (df : list RawBar) (i : Z) (st : State)
    (current_bar : RawBar) : result State :=
  let current_time := raw_time current_bar in
  let current_price := raw_close current_bar in
  if in_position st then Ok st
  else if negb (can_trade_today cfg st current_time) then Ok st
  else
    match identify_consolidation cfg df i with
    | (true, Some high_level, Some low_level, Some box_range) =>
        let! signal := detect_breakout df i high_level low_level in
        match signal with
        | Some s =>
            let '(tp, sl) := calculate_tp_sl cfg current_price s box_range in
            let st1 := open_trade cfg st s current_price current_time tp sl in
            Ok (increment_daily_trades st1 current_time)
        | None => Ok st
        end
    | _ => Ok st
    end.

Definition loop_body (cfg : Config) (df : list RawBar) (st : State) (i : Z)
    : result State :=
  let! current_bar := iloc df i in
  let! st1 := exit_phase cfg st current_bar in
  let st2 := record_equity st1 (raw_time current_bar) in
  entry_phase cfg df i st2 current_bar.

Fixpoint for_loop (cfg : Config) (df : list RawBar) (idxs : list Z)
    (st : State) : result State :=
  match idxs with
  | [] => Ok st
  | i :: idxs' =>
      let! st' := loop_body cfg df st i in
      for_loop cfg df idxs' st'
  end.

Definition close_remaining (cfg : Config) (df : list RawBar) (end_idx : Z)
    (st : State) : result State :=
  if in_position st then
    let! last_bar := iloc df (end_idx - 1) in
    close_trade cfg st (raw_close last_bar) (raw_time last_bar) END_OF_DATA
  else Ok st.

(** The header line, the reset, the loop and the forced close. *)
Definition run_state (cfg : Config) (df : list RawBar)
    (start_idx end_idx : option Z) : result State :=
  let start_idx := default (consolidation_periods cfg) start_idx in
  let end_idx := default (len df) end_idx in
  let! _first := iloc df start_idx in
  let! _last := iloc df (end_idx - 1) in
  let! st := for_loop cfg df (range start_idx end_idx) (init_state cfg) in
  close_remaining cfg df end_idx st.


End RawBacktester.

(** ** The box calculator in binary64

    The floats of the source are IEEE 754 binary64 numbers, and each
    operation rounds to the nearest of them. Here the box calculator is
    embedded on these numbers, operation by operation; the literal [1.2] is
    the binary64 number nearest to 1.2, as in Python. [risk_reward_ratio]
    is the attribute of the engine. *)

Module Binary64.

(** [Backtester.calculate_tp_sl] *)
Definition calculate_tp_sl (risk_reward_ratio entry_price : float)
    (signal_type : Side) (box_range : float) : float * float :=
  let sl_multiplier := 1.2%float in
  match signal_type with
  | BUY =>
      let stop_loss := (entry_price - box_range * sl_multiplier)%float in
      let risk := (entry_price - stop_loss)%float in
      let take_profit := (entry_price + risk * risk_reward_ratio)%float in
      (take_profit, stop_loss)
  | SELL =>
      let stop_loss := (entry_price + box_range * sl_multiplier)%float in
      let risk := (stop_loss - entry_price)%float in
      let take_profit := (entry_price - risk * risk_reward_ratio)%float in
      (take_profit, stop_loss)
  end.

(** [UltraBacktester.calculate_tp_sl_box] *)
Definition calculate_tp_sl_box (risk_reward_ratio entry_price : float)
    (signal_type : Side) (box_range : float) : float * float :=
  let sl_multiplier := 1.2%float in
  match signal_type with
  | BUY =>
      let stop_loss := (entry_price - box_range * sl_multiplier)%float in
      let risk := (entry_price - stop_loss)%float in
      let take_profit := (entry_price + risk * risk_reward_ratio)%float in
      (take_profit, stop_loss)
  | SELL =>
      let stop_loss := (entry_price + box_range * sl_multiplier)%float in
      let risk := (stop_loss - entry_price)%float in
      let take_profit := (entry_price - risk * risk_reward_ratio)%float in
      (take_profit, stop_loss)
  end.

End Binary64.

(** ** Definitions used to state the properties *)

(** The bars at the positions [a], ..., [b - 1] of the frame. *)
Definition bars_between (df : list Bar) (a b : Z) : list Bar :=
  flat_map (fun j => match iloc df j with Ok x => [x] | Raise _ => [] end)
           (range a b).

(** The mean of the closes of a window, in the words of the specification. *)
Definition mean_close (w : list Bar) : Q :=
  (Qsum (map close w) / inject_Z (len w))%Q.

(** The engine parameters of the constructor's defaults. *)
Definition basic_defaults : Backtester.Config :=
  Backtester.mkConfig 10000 0.01 2 20 0.0015 5.

(** The bar reaches the take-profit level of the open trade. *)
Definition tp_touched (t : Backtester.OpenTrade) (b : Bar) : Prop :=
  match Backtester.ot_type t with
  | BUY => (Backtester.ot_take_profit t <= high b)%Q
  | SELL => (low b <= Backtester.ot_take_profit t)%Q
  end.

(** The bar reaches neither level of the open trade. *)
Definition untouched (t : Backtester.OpenTrade) (b : Bar) : Prop :=
  match Backtester.ot_type t with
  | BUY =>
      (high b < Backtester.ot_take_profit t)%Q /\
      (Backtester.ot_stop_loss t < low b)%Q
  | SELL =>
      (Backtester.ot_take_profit t < low b)%Q /\
      (high b < Backtester.ot_stop_loss t)%Q
  end.

(** The points a trade earns when it leaves at its take-profit level. *)
Definition tp_points (t : Backtester.OpenTrade) : Q :=
  match Backtester.ot_type t with
  | BUY => (Backtester.ot_take_profit t - Backtester.ot_entry_price t)%Q
  | SELL => (Backtester.ot_entry_price t - Backtester.ot_take_profit t)%Q
  end.

(** ** Quantities of a run of the basic engine *)

(** The time of the bar at position [i] (0 when there is none). *)
Definition time_at (df : list Bar) (i : Z) : Z :=
  match iloc df i with
  | Ok b => time b
  | Raise _ => 0
  end.

(** The number of recorded trades entered on the day [d]. *)
Definition opened_on (d : Z) (l : list Backtester.TradeRecord) : Z :=
  len (List.filter (fun r => date_str (Backtester.tr_entry_time r) =? d) l).

(** 1 when the open trade, if any, was entered on the day [d]. *)
Definition current_on (d : Z) (st : Backtester.State) : Z :=
  match Backtester.current_trade st with
  | Some t => if date_str (Backtester.ot_entry_time t) =? d then 1 else 0
  | None => 0
  end.

(** The results reported for a run without trades. *)
Definition zero_results (cfg : Backtester.Config) (st : Backtester.State)
    : Backtester.Results :=
  {| Backtester.total_trades := 0;
     Backtester.winning_trades := 0;
     Backtester.losing_trades := 0;
     Backtester.win_rate := 0;
     Backtester.total_profit := 0;
     Backtester.total_loss := 0;
     Backtester.net_profit := 0;
     Backtester.return_pct := Fin 0;
     Backtester.max_drawdown := Fin 0;
     Backtester.max_drawdown_pct := Fin 0;
     Backtester.avg_win := 0;
     Backtester.avg_loss := 0;
     Backtester.profit_factor := Fin 0;
     Backtester.largest_win := 0;
     Backtester.largest_loss := 0;
     Backtester.final_balance := Backtester.balance st;
     Backtester.res_initial_balance := Backtester.initial_balance cfg |}.

(** Times that strictly increase along the frame. *)
Fixpoint increasing (l : list Z) : bool :=
  match l with
  | x :: (y :: _) as l' => (x <? y) && increasing l'
  | _ => true
  end.

Definition strictly_increasing_times (df : list Bar) : Prop :=
  increasing (map time df) = true.

Definition is_end_of_data (x : ExitReason) : bool :=
  match x with
  | END_OF_DATA => true
  | _ => false
  end.

(** The recorded trades that an exit check closed at or before the time
    [tm]: the forced close after the loop is left out. *)
Definition settled_by (tm : Z) (l : list Backtester.TradeRecord)
    : list Backtester.TradeRecord :=
  List.filter
    (fun r => negb (is_end_of_data (Backtester.tr_exit_reason r))
              && (Backtester.tr_exit_time r <=? tm)) l.

(** The recorded trades whose exit time is at or before [tm]. *)
Definition closed_by (tm : Z) (l : list Backtester.TradeRecord)
    : list Backtester.TradeRecord :=
  List.filter (fun r => Backtester.tr_exit_time r <=? tm) l.

(** The initial balance plus the profits of the trades [l]. *)
Definition booked (cfg : Backtester.Config) (l : list Backtester.TradeRecord)
    : Q :=
  (Backtester.initial_balance cfg + Qsum (map Backtester.tr_profit l))%Q.

(** A trade is entered no earlier than the one before it was left. *)
Definition one_after_another (r1 r2 : Backtester.TradeRecord) : Prop :=
  Backtester.tr_exit_time r1 <= Backtester.tr_entry_time r2.

(** ** Relations used to follow the loop of the basic engine *)

Module BasicStep.

Import Backtester.

(** The position flag agrees with [current_trade]. *)
Definition consistent (st : State) : Prop :=
  if in_position st then exists t, current_trade st = Some t
  else current_trade st = None.

(** [st1] is [st] after its open trade was closed at time [tm], leaving the
    record [r]. *)
Definition closed_from (cfg : Config) (st st1 : State) (tm : Z)
    (r : TradeRecord) : Prop :=
  exists t,
    in_position st = true /\ current_trade st = Some t /\
    in_position st1 = false /\ current_trade st1 = None /\
    trades st1 = trades st ++ [r] /\
    balance st1 = (balance st + tr_profit r)%Q /\
    equity_curve st1 = equity_curve st /\
    daily_trades_count st1 = daily_trades_count st /\
    tr_entry_time r = ot_entry_time t /\
    tr_exit_time r = tm.

(** [st1] is [st] after a trade was opened on the bar [b]. *)
Definition opened_from (cfg : Config) (st st1 : State) (b : Bar) : Prop :=
  exists t,
    in_position st = false /\
    can_trade_today cfg st (time b) = true /\
    in_position st1 = true /\ current_trade st1 = Some t /\
    ot_entry_time t = time b /\
    trades st1 = trades st /\
    balance st1 = balance st /\
    equity_curve st1 = equity_curve st /\
    daily_trades_count st1 =
      <[ date_str (time b) :=
           default 0 (daily_trades_count st !! date_str (time b)) + 1 ]>
        (daily_trades_count st).

(** One iteration on the bar [b]: an optional close by the exit check, the
    equity sample, an optional entry. *)
Definition step (cfg : Config) (st : State) (b : Bar) (st' : State) : Prop :=
  exists st1,
    (st1 = st \/
     exists r, closed_from cfg st st1 (time b) r /\
               tr_exit_reason r <> END_OF_DATA) /\
    (st' = record_equity st1 (time b) \/
     opened_from cfg (record_equity st1 (time b)) st' b).

(** The counter of each day equals the number of trades entered that day,
    the open one included, and stays within the cap. *)
Definition counted (cfg : Config) (st : State) : Prop :=
  forall d,
    opened_on d (trades st) + current_on d st
      = default 0 (daily_trades_count st !! d) /\
    default 0 (daily_trades_count st !! d) <= Z.max 0 (max_daily_trades cfg).

(** The books after the indices [done]: the balance is the booked sum of
    the recorded trades, all of them closed by an exit check on a bar of
    [done]; every equity sample shows the trades settled by its bar; the open
    trade was entered on a bar of [done], after every recorded trade. *)
Definition accounted (cfg : Config) (df : list Bar) (done : list Z)
    (st : State) : Prop :=
  (balance st == booked cfg (trades st))%Q /\
  Forall (fun r => tr_exit_reason r <> END_OF_DATA /\
                   tr_entry_time r <= tr_exit_time r /\
                   exists j, In j done /\ tr_exit_time r = time_at df j)
         (trades st) /\
  Forall2 (fun smp j =>
             eq_time smp = time_at df j /\
             (eq_balance smp
                == booked cfg (settled_by (time_at df j) (trades st)))%Q)
          (equity_curve st) done /\
  (forall t, current_trade st = Some t ->
     (exists j, In j done /\ ot_entry_time t = time_at df j) /\
     Forall (fun r => tr_exit_time r <= ot_entry_time t) (trades st)) /\
  StronglySorted one_after_another (trades st).

End BasicStep.

(** ** The transitions of the basic engine, spelled out *)

Module BasicDetail.

Import Backtester.

(** The record [close_trade] appends for the open trade [t]. *)
Definition record_of (cfg : Config) (st : State) (t : OpenTrade)
    (exit_price : Q) (exit_time : Z) (exit_reason : ExitReason)
    : TradeRecord :=
  let points :=
    match ot_type t with
    | BUY => (exit_price - ot_entry_price t)%Q
    | SELL => (ot_entry_price t - exit_price)%Q
    end in
  let profit := (points * lot_size cfg * 100)%Q in
  {| tr_entry_time := ot_entry_time t;
     tr_exit_time := exit_time;
     tr_type := ot_type t;
     tr_entry_price := ot_entry_price t;
     tr_exit_price := exit_price;
     tr_take_profit := ot_take_profit t;
     tr_stop_loss := ot_stop_loss t;
     tr_points := points;
     tr_profit := profit;
     tr_balance := (balance st + profit)%Q;
     tr_exit_reason := exit_reason;
     tr_win := Qgtb profit 0 |}.

(** The state [close_trade] leaves. *)
Definition closed_state (cfg : Config) (st : State) (t : OpenTrade)
    (exit_price : Q) (exit_time : Z) (exit_reason : ExitReason) : State :=
  let r := record_of cfg st t exit_price exit_time exit_reason in
  {| balance := tr_balance r;
     in_position := false;
     current_trade := None;
     trades := trades st ++ [r];
     equity_curve := equity_curve st;
     daily_trades_count := daily_trades_count st |}.

(** The state after an entry on the bar [b], for the signal [s] out of a
    box of range [box_range]. *)
Definition entered_state (cfg : Config) (st : State) (s : Side) (b : Bar)
    (box_range : Q) : State :=
  increment_daily_trades
    (open_trade cfg st s (close b) (time b)
       (fst (calculate_tp_sl cfg (close b) s box_range))
       (snd (calculate_tp_sl cfg (close b) s box_range)))
    (time b).

(** What a record of [self.trades] keeps of the arithmetic of
    [close_trade], and of the level it left at. *)
Definition well_recorded (cfg : Config) (r : TradeRecord) : Prop :=
  tr_points r =
    match tr_type r with
    | BUY => (tr_exit_price r - tr_entry_price r)%Q
    | SELL => (tr_entry_price r - tr_exit_price r)%Q
    end /\
  tr_profit r = (tr_points r * lot_size cfg * 100)%Q /\
  tr_win r = Qgtb (tr_profit r) 0 /\
  match tr_exit_reason r with
  | TP => tr_exit_price r = tr_take_profit r
  | SL => tr_exit_price r = tr_stop_loss r
  | TSL => False
  | END_OF_DATA => True
  end.

(** The levels of a trade come from the box calculator, at its entry
    price. *)
Definition levels_from_box (cfg : Config) (type : Side)
    (entry take_profit stop_loss : Q) : Prop :=
  exists box_range,
    (take_profit, stop_loss) = calculate_tp_sl cfg entry type box_range.

(** The balance is the booked sum of the records, and every record shows
    the booked sum up to itself. *)
Definition running (cfg : Config) (st : State) : Prop :=
  (balance st == booked cfg (trades st))%Q /\
  forall k r, nth_error (trades st) k = Some r ->
    (tr_balance r == booked cfg (firstn (S k) (trades st)))%Q.

(** Nothing has happened: no trade, no position, no entry counted, and
    every equity sample shows the initial balance. *)
Definition idle (cfg : Config) (st : State) : Prop :=
  trades st = [] /\ in_position st = false /\ current_trade st = None /\
  balance st = initial_balance cfg /\ daily_trades_count st = ∅ /\
  Forall (fun smp => eq_balance smp = initial_balance cfg /\
                     eq_in_position smp = false) (equity_curve st).

(** [n] entries in a row on the day of [tm], as far as the daily counter
    goes. *)
Definition entries (n : nat) (tm : Z) (st : State) : State :=
  Nat.iter n (fun st' => increment_daily_trades st' tm) st.

End BasicDetail.

(** The bar reaches the stop of the open trade, not its target. *)
Definition sl_touched (t : Backtester.OpenTrade) (b : Bar) : Prop :=
  match Backtester.ot_type t with
  | BUY =>
      (high b < Backtester.ot_take_profit t)%Q /\
      (low b <= Backtester.ot_stop_loss t)%Q
  | SELL =>
      (Backtester.ot_take_profit t < low b)%Q /\
      (Backtester.ot_stop_loss t <= high b)%Q
  end.

(** The points a trade loses or earns when it leaves at its stop. *)
Definition sl_points (t : Backtester.OpenTrade) : Q :=
  match Backtester.ot_type t with
  | BUY => (Backtester.ot_stop_loss t - Backtester.ot_entry_price t)%Q
  | SELL => (Backtester.ot_entry_price t - Backtester.ot_stop_loss t)%Q
  end.

(** ** Detail of the ultra engine's state *)

Module UltraDetail.

Import UltraBacktester.

(** The keys of [self.rejected_trades], in the order of the dict. *)
Definition all_filters : list FilterName :=
  [ f_trend; f_strength; f_volume; f_rsi; f_quality; f_time;
    f_false_breakout; f_mtf ].

(** The total [print_results] shows: the sum of the rejection counters. *)
Definition total_rejected (st : State) : Z :=
  fold_right Z.add 0 (map (rejected_trades st) all_filters).

(** What [open_trade] leaves behind while a position is open: the trade,
    both watermarks, and a trailing stop when trailing stops are on. *)
Definition armed (cfg : Config) (st : State) : Prop :=
  if in_position st then
    exists t hi lo,
      current_trade st = Some t /\
      highest_price_in_trade st = Some hi /\
      lowest_price_in_trade st = Some lo /\
      (use_trailing_stop cfg = true ->
       exists ts, ot_trailing_stop t = Some ts)
  else current_trade st = None.

(** [trail_distance] of [update_trailing_stop]. *)
Definition trail_distance (cfg : Config) (t : OpenTrade) : Q :=
  (ot_entry_price t * (trailing_stop_pct cfg / 100))%Q.

(** The bar sets a new watermark for the open trade, stays short of its
    target, and spans at least the trail distance. *)
Definition whipsaw (cfg : Config) (st : State) (t : OpenTrade) (b : Bar)
    : Prop :=
  match ot_type t with
  | BUY =>
      (exists hi, highest_price_in_trade st = Some hi /\ (hi < high b)%Q) /\
      fl_leb (ot_take_profit t) (Fin (high b)) = false /\
      (low b <= high b - trail_distance cfg t)%Q
  | SELL =>
      (exists lo, lowest_price_in_trade st = Some lo /\ (low b < lo)%Q) /\
      fl_leb (Fin (low b)) (ot_take_profit t) = false /\
      (low b + trail_distance cfg t <= high b)%Q
  end.

(** The bar keeps to the far side of the broken level. *)
Definition confirms (high_level low_level : Q) (signal : Side) (b : Bar)
    : Prop :=
  match signal with
  | BUY => (high_level <= close b)%Q
  | SELL => (close b <= low_level)%Q
  end.

(** How many bars after the current one an entry decision reads. *)
Definition lookahead (cfg : Config) : Z :=
  if use_false_breakout_filter cfg then Z.max 0 (confirmation_bars cfg)
  else 0.

(** The record [close_trade] appends for the trade [t], and the state it
    leaves. *)
Definition record_of (cfg : Config) (bal : fl) (t : OpenTrade)
    (exit_price : fl) (exit_time : Z) (reason : ExitReason) : TradeRecord :=
  let points :=
    match ot_type t with
    | BUY => fl_sub exit_price (Fin (ot_entry_price t))
    | SELL => fl_sub (Fin (ot_entry_price t)) exit_price
    end in
  let profit := fl_scale (fl_scale points (lot_size cfg)) 100 in
  {| tr_entry_time := ot_entry_time t;
     tr_exit_time := exit_time;
     tr_type := ot_type t;
     tr_entry_price := ot_entry_price t;
     tr_exit_price := exit_price;
     tr_take_profit := ot_take_profit t;
     tr_stop_loss := ot_stop_loss t;
     tr_points := points;
     tr_profit := profit;
     tr_balance := fl_add bal profit;
     tr_exit_reason := reason;
     tr_win := fl_ltb (Fin 0) profit |}.

Definition closed_state (cfg : Config) (st : State) (t : OpenTrade)
    (exit_price : fl) (exit_time : Z) (reason : ExitReason) : State :=
  let r := record_of cfg (balance st) t exit_price exit_time reason in
  {| balance := tr_balance r;
     in_position := false;
     current_trade := None;
     highest_price_in_trade := None;
     lowest_price_in_trade := None;
     trades := trades st ++ [r];
     equity_curve := equity_curve st;
     daily_trades_count := daily_trades_count st;
     rejected_trades := rejected_trades st |}.

(** The state after an entry: [open_trade], then
    [increment_daily_trades]. *)
Definition entered_state (cfg : Config) (st : State) (s : Side) (b : Bar)
    (take_profit stop_loss : fl) : State :=
  increment_daily_trades
    (open_trade cfg st s (close b) (time b) take_profit stop_loss) (time b).

(** The trades the engine has opened so far: those it has closed and the
    one it holds. *)
Definition opened (st : State) : Z :=
  len (trades st) + (if in_position st then 1 else 0).

(** What the engine has decided so far: the trades it has opened and the
    breakouts it has turned down. *)
Definition decisions (st : State) : Z :=
  len (trades st) + (if in_position st then 1 else 0) + total_rejected st.

(** The recorded trades entered on day [d], and the open trade if it was
    entered that day. *)
Definition opened_on (d : Z) (l : list TradeRecord) : Z :=
  len (List.filter (fun r => date_str (tr_entry_time r) =? d) l).

Definition current_on (d : Z) (st : State) : Z :=
  match current_trade st with
  | Some t => if date_str (ot_entry_time t) =? d then 1 else 0
  | None => 0
  end.

(** Every day's counter is the number of entries of that day and has not
    passed the cap. *)
Definition counted (cfg : Config) (st : State) : Prop :=
  forall d,
    opened_on d (trades st) + current_on d st
      = default 0 (daily_trades_count st !! d) /\
    default 0 (daily_trades_count st !! d) <= Z.max 0 (max_daily_trades cfg).

(** The level [p] is the stop [sl] or on the winning side of it. *)
Definition no_worse (side : Side) (sl p : fl) : Prop :=
  p = sl \/
  match side with
  | BUY => fl_ltb sl p = true
  | SELL => fl_ltb p sl = true
  end.

(** The trailing stop of the open trade has not fallen behind its initial
    stop. *)
Definition trailing (st : State) : Prop :=
  forall t ts,
    current_trade st = Some t -> ot_trailing_stop t = Some ts ->
    no_worse (ot_type t) (ot_stop_loss t) ts.

(** A record whose figures belong together. *)
Definition well_recorded (cfg : Config) (r : TradeRecord) : Prop :=
  tr_points r =
    match tr_type r with
    | BUY => fl_sub (tr_exit_price r) (Fin (tr_entry_price r))
    | SELL => fl_sub (Fin (tr_entry_price r)) (tr_exit_price r)
    end /\
  tr_profit r = fl_scale (fl_scale (tr_points r) (lot_size cfg)) 100 /\
  tr_win r = fl_ltb (Fin 0) (tr_profit r) /\
  match tr_exit_reason r with
  | TP => tr_exit_price r = tr_take_profit r
  | SL => use_trailing_stop cfg = false /\ tr_exit_price r = tr_stop_loss r
  | TSL =>
      use_trailing_stop cfg = true /\
      no_worse (tr_type r) (tr_stop_loss r) (tr_exit_price r)
  | END_OF_DATA => exists q, tr_exit_price r = Fin q
  end.

(** How a trade can leave during the loop: at its target, or at the stop
    of the mode. *)
Definition exit_kind (cfg : Config) (t : OpenTrade) (p : fl)
    (reason : ExitReason) : Prop :=
  (reason = TP /\ p = ot_take_profit t) \/
  (use_trailing_stop cfg = false /\ reason = SL /\ p = ot_stop_loss t) \/
  (use_trailing_stop cfg = true /\ reason = TSL /\
   ot_trailing_stop t = Some p).

(** The first half of an iteration: nothing without a position; with one,
    the trailing-stop update, then possibly the close. *)
Definition exit_step (cfg : Config) (st : State) (b : Bar) (st' : State)
    : Prop :=
  (in_position st = false /\ st' = st) \/
  (in_position st = true /\
   exists st1 t,
     update_trailing_stop cfg st (high b) (low b) = Ok st1 /\
     current_trade st1 = Some t /\
     (st' = st1 \/
      exists p reason,
        exit_kind cfg t p reason /\
        st' = closed_state cfg st1 t p (time b) reason)).

(** The second half: nothing, one rejection, or one entry. *)
Definition entry_step (cfg : Config) (st : State) (b : Bar) (st' : State)
    : Prop :=
  st' = st \/
  (in_position st = false /\
   ((exists k, st' = reject k st) \/
    (can_trade_today cfg st (time b) = true /\
     exists s tp sl, st' = entered_state cfg st s b tp sl))).

(** The balance after booking the profits of the records [l], one after the
    other, on the initial balance. *)
Definition ledger (cfg : Config) (l : list TradeRecord) : fl :=
  fold_left (fun bal r => fl_add bal (tr_profit r)) l
            (Fin (initial_balance cfg)).

(** Every recorded entry, and the entry of the open trade, was made at a
    time the time filter lets through. *)
Definition entered_in_hours (cfg : Config) (st : State) : Prop :=
  Forall (fun r => check_time_filter cfg (tr_entry_time r) = true)
         (trades st) /\
  forall t, current_trade st = Some t ->
            check_time_filter cfg (ot_entry_time t) = true.

End UltraDetail.

(** ** Sample data *)

Definition bar_at (t : Z) (h l c : Q) : Bar :=
  {| time := t; open := c; high := h; low := l; close := c;
     tick_volume := 1000 |}.

(** Three quiet bars, one minute apart. *)
Definition short_frame : list Bar :=
  [ bar_at 0 100.5 100 100.4; bar_at 60 100.5 100 100.4;
    bar_at 120 100.5 100 100.4 ].

(** A long trade from 100 with target 110 and stop 95, as it stands in the
    engine after [open_trade]. *)
Definition long_trade : Backtester.OpenTrade :=
  {| Backtester.ot_type := BUY;
     Backtester.ot_entry_price := 100;
     Backtester.ot_entry_time := 0;
     Backtester.ot_take_profit := 110;
     Backtester.ot_stop_loss := 95;
     Backtester.ot_lot_size := 0.01 |}.

Definition holding_long : Backtester.State :=
  {| Backtester.balance := 10000;
     Backtester.in_position := true;
     Backtester.current_trade := Some long_trade;
     Backtester.trades := [];
     Backtester.equity_curve := [];
     Backtester.daily_trades_count := {[ 0 := 1 ]} |}.

(** An entry bar, a bar inside the levels, and a bar whose range covers
    both the target and the stop. *)
Definition wide_bar : Bar := bar_at 120 111 94 100.

Definition wide_frame : list Bar :=
  [ bar_at 0 100 100 100; bar_at 60 105 98 101; wide_bar ].

(** A two-bar lookback with a wide threshold, to keep the frames short. *)
Definition capped (m : Z) : Backtester.Config :=
  Backtester.mkConfig 10000 0.01 2 2 0.1 m.

(** Two quiet bars, a breakout above them, and a bar that moves on without
    reaching either level. *)
Definition breakout_frame : list Bar :=
  [ bar_at 0 100.5 100 100.4; bar_at 60 100.5 100 100.4;
    bar_at 120 101 100.4 101; bar_at 180 101.6 101 101.5 ].


(** Two breakouts within one day: the first trade leaves at its target on
    the fourth bar, and the fifth bar breaks out of the new box. *)
Definition two_signal_frame : list Bar :=
  [ bar_at 0 100.5 100 100.4; bar_at 60 100.5 100 100.4;
    bar_at 120 101 100.4 101; bar_at 180 102.5 101 101;
    bar_at 240 103 101 103 ].

(** The ultra engine with two-bar periods, to keep the frames short; the
    other parameters are the defaults. *)
Definition quick_ultra : UltraBacktester.Config :=
  {| UltraBacktester.initial_balance := 10000;
     UltraBacktester.lot_size := 0.01;
     UltraBacktester.risk_reward_ratio := 2;
     UltraBacktester.consolidation_periods := 2;
     UltraBacktester.breakout_threshold := 0.1;
     UltraBacktester.max_daily_trades := 5;
     UltraBacktester.use_trend_filter := true;
     UltraBacktester.trend_period := 2;
     UltraBacktester.use_breakout_strength := true;
     UltraBacktester.min_breakout_strength := 0.15;
     UltraBacktester.use_atr_stops := true;
     UltraBacktester.atr_period := 14;
     UltraBacktester.atr_multiplier := 2;
     UltraBacktester.volume_multiplier := 1.1;
     UltraBacktester.use_rsi_filter := true;
     UltraBacktester.rsi_period := 14;
     UltraBacktester.rsi_overbought := 70;
     UltraBacktester.rsi_oversold := 30;
     UltraBacktester.use_consolidation_quality := true;
     UltraBacktester.min_touches := 3;
     UltraBacktester.use_time_filter := true;
     UltraBacktester.trading_start_hour := 2;
     UltraBacktester.trading_end_hour := 20;
     UltraBacktester.use_trailing_stop := false;
     UltraBacktester.trailing_stop_pct := 0.5;
     UltraBacktester.use_false_breakout_filter := true;
     UltraBacktester.confirmation_bars := 1;
     UltraBacktester.use_mtf_confirmation := true;
     UltraBacktester.higher_tf_period := 2 |}.

(** An entry bar, a bar inside the levels, and a bar that falls through
    the stop of [long_trade] without reaching its target. *)
Definition falling_bar : Bar := bar_at 120 104 94 96.

Definition falling_frame : list Bar :=
  [ bar_at 0 100 100 100; bar_at 60 105 98 101; falling_bar ].

(** [breakout_frame] followed by one more, wild, bar. *)
Definition extended_frame : list Bar :=
  breakout_frame ++ [ bar_at 240 200 50 150 ].

(** [quick_ultra] with trailing stops switched on. *)
Definition trailing_ultra : UltraBacktester.Config :=
  {| UltraBacktester.initial_balance := 10000;
     UltraBacktester.lot_size := 0.01;
     UltraBacktester.risk_reward_ratio := 2;
     UltraBacktester.consolidation_periods := 2;
     UltraBacktester.breakout_threshold := 0.1;
     UltraBacktester.max_daily_trades := 5;
     UltraBacktester.use_trend_filter := true;
     UltraBacktester.trend_period := 2;
     UltraBacktester.use_breakout_strength := true;
     UltraBacktester.min_breakout_strength := 0.15;
     UltraBacktester.use_atr_stops := true;
     UltraBacktester.atr_period := 14;
     UltraBacktester.atr_multiplier := 2;
     UltraBacktester.volume_multiplier := 1.1;
     UltraBacktester.use_rsi_filter := true;
     UltraBacktester.rsi_period := 14;
     UltraBacktester.rsi_overbought := 70;
     UltraBacktester.rsi_oversold := 30;
     UltraBacktester.use_consolidation_quality := true;
     UltraBacktester.min_touches := 3;
     UltraBacktester.use_time_filter := true;
     UltraBacktester.trading_start_hour := 2;
     UltraBacktester.trading_end_hour := 20;
     UltraBacktester.use_trailing_stop := true;
     UltraBacktester.trailing_stop_pct := 0.5;
     UltraBacktester.use_false_breakout_filter := true;
     UltraBacktester.confirmation_bars := 1;
     UltraBacktester.use_mtf_confirmation := true;
     UltraBacktester.higher_tf_period := 2 |}.

(** The long trade of [long_trade] in the ultra engine, trailing from its
    stop. *)
Definition ultra_long : UltraBacktester.OpenTrade :=
  {| UltraBacktester.ot_type := BUY;
     UltraBacktester.ot_entry_price := 100;
     UltraBacktester.ot_entry_time := 0;
     UltraBacktester.ot_take_profit := Fin 110;
     UltraBacktester.ot_stop_loss := Fin 95;
     UltraBacktester.ot_lot_size := 0.01;
     UltraBacktester.ot_trailing_stop := Some (Fin 95) |}.

Definition ultra_holding : UltraBacktester.State :=
  {| UltraBacktester.balance := Fin 10000;
     UltraBacktester.in_position := true;
     UltraBacktester.current_trade := Some ultra_long;
     UltraBacktester.highest_price_in_trade := Some 100%Q;
     UltraBacktester.lowest_price_in_trade := Some 100%Q;
     UltraBacktester.trades := [];
     UltraBacktester.equity_curve := [];
     UltraBacktester.daily_trades_count := {[ 0 := 1 ]};
     UltraBacktester.rejected_trades := fun _ => 0 |}.

(** Sixteen bars of one and the same minute. *)
Definition still_frame : list Bar :=
  repeat (bar_at 0 100.5 100 100.4) 16.

(** Three bars without any range. *)
Definition flat_frame : list Bar := repeat (bar_at 0 100 100 100) 3.

(** The ultra engine with every switch off but, on request, the trailing
    stop and the time filter; two-bar periods as in [quick_ultra]. *)
Definition open_ultra (trailing timed : bool) : UltraBacktester.Config :=
  {| UltraBacktester.initial_balance := 10000;
     UltraBacktester.lot_size := 0.01;
     UltraBacktester.risk_reward_ratio := 2;
     UltraBacktester.consolidation_periods := 2;
     UltraBacktester.breakout_threshold := 0.1;
     UltraBacktester.max_daily_trades := 5;
     UltraBacktester.use_trend_filter := false;
     UltraBacktester.trend_period := 2;
     UltraBacktester.use_breakout_strength := false;
     UltraBacktester.min_breakout_strength := 0.15;
     UltraBacktester.use_atr_stops := false;
     UltraBacktester.atr_period := 14;
     UltraBacktester.atr_multiplier := 2;
     UltraBacktester.volume_multiplier := 1.1;
     UltraBacktester.use_rsi_filter := false;
     UltraBacktester.rsi_period := 14;
     UltraBacktester.rsi_overbought := 70;
     UltraBacktester.rsi_oversold := 30;
     UltraBacktester.use_consolidation_quality := false;
     UltraBacktester.min_touches := 3;
     UltraBacktester.use_time_filter := timed;
     UltraBacktester.trading_start_hour := 2;
     UltraBacktester.trading_end_hour := 20;
     UltraBacktester.use_trailing_stop := trailing;
     UltraBacktester.trailing_stop_pct := 0.5;
     UltraBacktester.use_false_breakout_filter := false;
     UltraBacktester.confirmation_bars := 1;
     UltraBacktester.use_mtf_confirmation := false;
     UltraBacktester.higher_tf_period := 2 |}.

(** [breakout_frame] three hours later. *)
Definition late_frame : list Bar :=
  map (fun b => {| time := time b + 10800; open := open b; high := high b;
                   low := low b; close := close b;
                   tick_volume := tick_volume b |})
      breakout_frame.



(** * Properties *)

(** ** Comparisons *)

Lemma Qleb_le (a b : Q) : Qleb a b = true <-> (a <= b)%Q.
Proof. unfold Qleb. apply Qle_bool_iff. Qed.

Lemma Qgeb_ge (a b : Q) : Qgeb a b = true <-> (b <= a)%Q.
Proof. unfold Qgeb. apply Qle_bool_iff. Qed.

Lemma Qltb_lt (a b : Q) : Qltb a b = true <-> (a < b)%Q.
Proof.
  unfold Qltb. rewrite negb_true_iff.
  destruct (Qle_bool b a) eqn:E.
  - apply Qle_bool_iff in E. split; [discriminate | intros H; lra].
  - split; [intros _ | reflexivity].
    destruct (Qlt_le_dec a b) as [H | H]; [exact H |].
    apply Qle_bool_iff in H. congruence.
Qed.

Lemma Qgtb_gt (a b : Q) : Qgtb a b = true <-> (b < a)%Q.
Proof. unfold Qgtb. apply (Qltb_lt b a). Qed.

Lemma Qgeb_false (a b : Q) : Qgeb a b = false <-> (a < b)%Q.
Proof.
  rewrite <- Qltb_lt. unfold Qgeb, Qltb.
  destruct (Qle_bool b a); simpl; split; congruence.
Qed.

Lemma Qleb_false (a b : Q) : Qleb a b = false <-> (b < a)%Q.
Proof.
  rewrite <- Qltb_lt. unfold Qleb, Qltb.
  destruct (Qle_bool a b); simpl; split; congruence.
Qed.

(** ** Stop and target levels *)

Section StopTarget.

Local Open Scope Q_scope.

(** C5, as the code has it. The box-based calculator of both engines
    computes, for a BUY at price [e] with box range [r] and risk:reward
    ratio [k], the stop [e - r * 1.2] and then the target
    [e + (e - stop) * k] from that stop, for a SELL the stop [e + r * 1.2]
    and the target [e - (stop - e) * k], every operation rounded to
    binary64. In exact arithmetic these are the stop [e - 1.2 r] and the
    target [e + 1.2 r k] (mirrored for a SELL), with the stop 100.4 and the
    target 102.2 for an entry at 101 with box range 0.5 and ratio 2. In
    binary64 that entry gets the stop 100.4 and the target
    102.19999999999999. *)
Theorem box_stop_target_levels :
  (forall k e r : float,
     (snd (Binary64.calculate_tp_sl k e BUY r) = (e - r * 1.2)%float /\
      fst (Binary64.calculate_tp_sl k e BUY r)
      = (e + (e - snd (Binary64.calculate_tp_sl k e BUY r)) * k)%float) /\
     (snd (Binary64.calculate_tp_sl k e SELL r) = (e + r * 1.2)%float /\
      fst (Binary64.calculate_tp_sl k e SELL r)
      = (e - (snd (Binary64.calculate_tp_sl k e SELL r) - e) * k)%float) /\
     Binary64.calculate_tp_sl_box k e BUY r
     = Binary64.calculate_tp_sl k e BUY r /\
     Binary64.calculate_tp_sl_box k e SELL r
     = Binary64.calculate_tp_sl k e SELL r) /\
  (Binary64.calculate_tp_sl 2 101 BUY 0.5
   = (102.19999999999999%float, 100.4%float) /\
   Binary64.calculate_tp_sl_box 2 101 BUY 0.5
   = (102.19999999999999%float, 100.4%float)) /\
  (forall (cfg : Backtester.Config) (e r : Q),
     let k := Backtester.risk_reward_ratio cfg in
     (snd (Backtester.calculate_tp_sl cfg e BUY r) == e - 1.2 * r /\
      fst (Backtester.calculate_tp_sl cfg e BUY r) == e + 1.2 * r * k) /\
     (snd (Backtester.calculate_tp_sl cfg e SELL r) == e + 1.2 * r /\
      fst (Backtester.calculate_tp_sl cfg e SELL r) == e - 1.2 * r * k)) /\
  (forall (cfg : UltraBacktester.Config) (e r : Q),
     let k := UltraBacktester.risk_reward_ratio cfg in
     (snd (UltraBacktester.calculate_tp_sl_box cfg e BUY r) == e - 1.2 * r /\
      fst (UltraBacktester.calculate_tp_sl_box cfg e BUY r) == e + 1.2 * r * k) /\
     (snd (UltraBacktester.calculate_tp_sl_box cfg e SELL r) == e + 1.2 * r /\
      fst (UltraBacktester.calculate_tp_sl_box cfg e SELL r) == e - 1.2 * r * k)) /\
  (snd (Backtester.calculate_tp_sl basic_defaults 101 BUY 0.5) == 100.4 /\
   fst (Backtester.calculate_tp_sl basic_defaults 101 BUY 0.5) == 102.2) /\
  (snd (UltraBacktester.calculate_tp_sl_box
          UltraBacktester.default_config 101 BUY 0.5) == 100.4 /\
   fst (UltraBacktester.calculate_tp_sl_box
          UltraBacktester.default_config 101 BUY 0.5) == 102.2).
Proof.
  split; [| split].
  - intros k e r. repeat split.
  - split; vm_compute; reflexivity.
  - repeat split; simpl; ring.
Qed.

(** C5, as stated, fails in the arithmetic of the program: for an entry at
    101 with box range 0.5 and ratio 2 the calculator returns the target
    102.19999999999999, which lies below 102.2. The stop it subtracts from
    the entry is the rounded 100.4, and the difference is not 0.6. *)
Lemma box_target_is_not_the_stated_value :
  fst (Binary64.calculate_tp_sl 2 101 BUY 0.5) = 102.19999999999999%float /\
  (fst (Binary64.calculate_tp_sl 2 101 BUY 0.5) <? 102.2)%float = true /\
  fst (Binary64.calculate_tp_sl 2 101 BUY 0.5) <> 102.2%float /\
  fst (Binary64.calculate_tp_sl 2 101 BUY 0.5)
  <> (101 + 1.2 * 0.5 * 2)%float /\
  fst (Binary64.calculate_tp_sl_box 2 101 BUY 0.5) <> 102.2%float.
Proof.
  assert (Hlt : (fst (Binary64.calculate_tp_sl 2 101 BUY 0.5) <? 102.2)%float
                = true) by (vm_compute; reflexivity).
  split; [vm_compute; reflexivity |]. split; [exact Hlt |].
  split; [| split].
  - intros Heq. rewrite Heq in Hlt. vm_compute in Hlt. discriminate.
  - intros Heq. rewrite Heq in Hlt. vm_compute in Hlt. discriminate.
  - intros Heq.
    change (Binary64.calculate_tp_sl_box 2 101 BUY 0.5)
      with (Binary64.calculate_tp_sl 2 101 BUY 0.5) in Heq.
    rewrite Heq in Hlt. vm_compute in Hlt. discriminate.
Qed.

End StopTarget.

(** ** Positional access *)

Lemma iloc_Ok_range {A : Type} (l : list A) (i : Z) (a : A) :
  iloc l i = Ok a -> - len l <= i < len l.
Proof.
  unfold iloc. destruct (i <? 0) eqn:Hi.
  - destruct ((0 <=? i + len l) && (i + len l <? len l)) eqn:Hb;
      [| discriminate].
    intros _. apply andb_true_iff in Hb. lia.
  - destruct ((0 <=? i) && (i <? len l)) eqn:Hb; [| discriminate].
    intros _. apply andb_true_iff in Hb. lia.
Qed.

Lemma iloc_nonneg {A : Type} (l : list A) (i : Z) :
  0 <= i < len l -> exists a, iloc l i = Ok a /\ nth_error l (Z.to_nat i) = Some a.
Proof.
  intros H. unfold iloc.
  replace (i <? 0) with false by lia.
  replace ((0 <=? i) && (i <? len l)) with true by lia.
  destruct (nth_error l (Z.to_nat i)) as [a |] eqn:E.
  - exists a. split; reflexivity.
  - apply nth_error_None in E. unfold len in H. lia.
Qed.

Lemma iloc_pred_ok {A : Type} (l : list A) (i : Z) (a : A) :
  iloc l i = Ok a -> 1 <= i -> exists a', iloc l (i - 1) = Ok a'.
Proof.
  intros H Hi. apply iloc_Ok_range in H.
  destruct (iloc_nonneg l (i - 1)) as [a' [Ha' _]]; [lia |].
  exists a'. exact Ha'.
Qed.

(** ** The trade lifecycle of the basic engine *)

Module BasicLifecycle.

Import Backtester.

Lemma detect_breakout_ok (df : list Bar) (i : Z) (h l : Q) (b : Bar) :
  iloc df i = Ok b -> exists s, detect_breakout df i h l = Ok s.
Proof.
  intros Hb. unfold detect_breakout.
  destruct (i <? 1) eqn:Hi; [eexists; reflexivity |].
  rewrite Hb. simpl.
  destruct (iloc_pred_ok df i b Hb) as [p Hp]; [lia |].
  rewrite Hp. simpl.
  destruct (Qleb (close p) h && Qgtb (close b) h); [eexists; reflexivity |].
  destruct (Qgeb (close p) l && Qltb (close b) l); eexists; reflexivity.
Qed.

(** The entry phase does not raise on a bar of the frame, and it leaves the
    balance, the closed trades and the equity curve alone. *)
Lemma entry_phase_ok (cfg : Config) (df : list Bar) (i : Z) (st : State)
    (b : Bar) :
  iloc df i = Ok b ->
  exists st', entry_phase cfg df i st b = Ok st' /\
              balance st' = balance st /\
              trades st' = trades st /\
              equity_curve st' = equity_curve st.
Proof.
  intros Hb. unfold entry_phase.
  destruct (in_position st); [eauto |].
  destruct (negb (can_trade_today cfg st (time b))); [eauto |].
  destruct (identify_consolidation cfg df i) as [[[c h] l] r].
  destruct c; [| eauto].
  destruct h as [[h | | |] |]; eauto.
  destruct l as [[l | | |] |]; eauto.
  destruct r as [[r | | |] |]; eauto.
  destruct (detect_breakout_ok df i h l b Hb) as [s Hs]. rewrite Hs. simpl.
  destruct s as [s |]; [| eauto].
  destruct (calculate_tp_sl cfg (close b) s r) as [tp sl].
  eexists. split; [reflexivity |]. simpl. auto.
Qed.

(** While the open trade is not touched, an iteration only records the
    equity sample. *)
Lemma loop_body_hold (cfg : Config) (df : list Bar) (st : State)
    (t : OpenTrade) (i : Z) (b : Bar) :
  in_position st = true -> current_trade st = Some t ->
  iloc df i = Ok b -> untouched t b ->
  loop_body cfg df st i = Ok (record_equity st (time b)).
Proof.
  intros Hin Hcur Hb Hun. unfold loop_body. rewrite Hb. simpl.
  unfold exit_phase, check_trade_exit. rewrite Hin, Hcur.
  unfold untouched in Hun.
  destruct (ot_type t); destruct Hun as [H1 H2].
  - apply Qgeb_false in H1. apply Qleb_false in H2. rewrite H1, H2. simpl.
    unfold entry_phase. simpl. rewrite Hin. reflexivity.
  - apply Qleb_false in H1. apply Qgeb_false in H2. rewrite H1, H2. simpl.
    unfold entry_phase. simpl. rewrite Hin. reflexivity.
Qed.

Lemma for_loop_hold (cfg : Config) (df : list Bar) (t : OpenTrade)
    (idxs : list Z) :
  forall st,
    in_position st = true -> current_trade st = Some t ->
    Forall (fun j => exists b, iloc df j = Ok b /\ untouched t b) idxs ->
    exists st', for_loop cfg df idxs st = Ok st' /\
                in_position st' = true /\ current_trade st' = Some t /\
                trades st' = trades st /\ balance st' = balance st.
Proof.
  induction idxs as [| j idxs IH]; intros st Hin Hcur Hall.
  - exists st. simpl. auto.
  - inversion Hall as [| j' l' [b [Hb Hun]] Hall']; subst.
    simpl. rewrite (loop_body_hold cfg df st t j b Hin Hcur Hb Hun). simpl.
    destruct (IH (record_equity st (time b))) as [st' [H1 [H2 [H3 [H4 H5]]]]];
      auto.
    exists st'. auto.
Qed.

Lemma for_loop_app (cfg : Config) (df : list Bar) (l1 l2 : list Z) :
  forall st,
    for_loop cfg df (l1 ++ l2) st =
    (let! st' := for_loop cfg df l1 st in for_loop cfg df l2 st').
Proof.
  induction l1 as [| i l1 IH]; intros st; simpl; [reflexivity |].
  destruct (loop_body cfg df st i); simpl; [apply IH | reflexivity].
Qed.

(** When the bar reaches the target, the exit phase closes the trade there,
    whatever the bar's low or high does to the stop. *)
Lemma exit_phase_tp (cfg : Config) (st : State) (t : OpenTrade) (b : Bar) :
  in_position st = true -> current_trade st = Some t -> tp_touched t b ->
  check_trade_exit st b = Some (ot_take_profit t, TP) /\
  exists r,
    exit_phase cfg st b =
      Ok {| balance := (balance st + tp_points t * lot_size cfg * 100)%Q;
            in_position := false;
            current_trade := None;
            trades := trades st ++ [r];
            equity_curve := equity_curve st;
            daily_trades_count := daily_trades_count st |} /\
    tr_exit_reason r = TP /\
    tr_exit_price r = ot_take_profit t /\
    tr_exit_time r = time b /\
    tr_profit r = (tp_points t * lot_size cfg * 100)%Q /\
    tr_type r = ot_type t /\
    tr_entry_price r = ot_entry_price t /\
    tr_entry_time r = ot_entry_time t.
Proof.
  intros Hin Hcur Htp.
  assert (Hc : check_trade_exit st b = Some (ot_take_profit t, TP)).
  { unfold check_trade_exit. rewrite Hin, Hcur.
    unfold tp_touched in Htp. destruct (ot_type t).
    - apply Qgeb_ge in Htp. rewrite Htp. reflexivity.
    - apply Qleb_le in Htp. rewrite Htp. reflexivity. }
  split; [exact Hc |].
  unfold exit_phase. rewrite Hin, Hc. unfold close_trade.
  rewrite Hin, Hcur. simpl. unfold tp_points.
  eexists. split; [reflexivity |]. simpl. repeat split; reflexivity.
Qed.

End BasicLifecycle.

(** C2. An open trade that has survived the bars [idxs] is closed on the
    first bar that reaches its take-profit level: the exit reason is TP, the
    exit price is the take-profit level and the profit is
    [(take_profit - entry_price) * lot_size * 100] for a BUY (the mirror
    image for a SELL). Nothing is assumed about the other side of that bar,
    so the stop may be reached by it as well: the target is checked first. *)
Theorem take_profit_checked_before_stop_loss
    (cfg : Backtester.Config) (df : list Bar) (st : Backtester.State)
    (t : Backtester.OpenTrade) (idxs : list Z) (k : Z) (bar : Bar) :
  Backtester.in_position st = true ->
  Backtester.current_trade st = Some t ->
  Forall (fun j => exists b, iloc df j = Ok b /\ untouched t b) idxs ->
  iloc df k = Ok bar ->
  tp_touched t bar ->
  exists st_k st' r,
    Backtester.for_loop cfg df idxs st = Ok st_k /\
    Backtester.check_trade_exit st_k bar = Some (Backtester.ot_take_profit t, TP) /\
    Backtester.for_loop cfg df (idxs ++ [k]) st = Ok st' /\
    Backtester.trades st' = Backtester.trades st ++ [r] /\
    Backtester.tr_exit_reason r = TP /\
    Backtester.tr_exit_price r = Backtester.ot_take_profit t /\
    Backtester.tr_exit_time r = time bar /\
    Backtester.tr_type r = Backtester.ot_type t /\
    Backtester.tr_entry_price r = Backtester.ot_entry_price t /\
    Backtester.tr_profit r =
      (match Backtester.ot_type t with
       | BUY => Backtester.ot_take_profit t - Backtester.ot_entry_price t
       | SELL => Backtester.ot_entry_price t - Backtester.ot_take_profit t
       end * Backtester.lot_size cfg * 100)%Q /\
    (Backtester.balance st' ==
       Backtester.balance st + Backtester.tr_profit r)%Q.
Proof.
  intros Hin Hcur Hall Hbar Htp.
  destruct (BasicLifecycle.for_loop_hold cfg df t idxs st Hin Hcur Hall)
    as [st_k [Hloop [Hin_k [Hcur_k [Htr_k Hbal_k]]]]].
  destruct (BasicLifecycle.exit_phase_tp cfg st_k t bar Hin_k Hcur_k Htp)
    as [Hc [r [Hexit [R1 [R2 [R3 [R4 [R5 [R6 R7]]]]]]]]].
  remember (Backtester.record_equity
              {| Backtester.balance :=
                   (Backtester.balance st_k +
                    tp_points t * Backtester.lot_size cfg * 100)%Q;
                 Backtester.in_position := false;
                 Backtester.current_trade := None;
                 Backtester.trades := Backtester.trades st_k ++ [r];
                 Backtester.equity_curve := Backtester.equity_curve st_k;
                 Backtester.daily_trades_count :=
                   Backtester.daily_trades_count st_k |} (time bar)) as st2.
  destruct (BasicLifecycle.entry_phase_ok cfg df k st2 bar Hbar)
    as [st' [Hentry [Hb' [Ht' He']]]].
  exists st_k, st', r.
  split; [exact Hloop |]. split; [exact Hc |].
  split.
  { rewrite BasicLifecycle.for_loop_app, Hloop. simpl.
    unfold Backtester.loop_body. rewrite Hbar. simpl. rewrite Hexit. simpl.
    rewrite <- Heqst2, Hentry. reflexivity. }
  split; [rewrite Ht', Heqst2; simpl; rewrite Htr_k; reflexivity |].
  do 5 (split; [assumption |]).
  split; [rewrite R4; reflexivity |].
  rewrite Hb', Heqst2, R4. simpl. rewrite Hbal_k. apply Qeq_refl.
Qed.

Lemma take_profit_checked_before_stop_loss_witness :
  exists st_k st' r,
    Backtester.for_loop basic_defaults wide_frame [1] holding_long = Ok st_k /\
    Backtester.check_trade_exit st_k wide_bar = Some (110%Q, TP) /\
    Backtester.for_loop basic_defaults wide_frame ([1] ++ [2]) holding_long
      = Ok st' /\
    Backtester.trades st' = [] ++ [r] /\
    Backtester.tr_exit_reason r = TP /\
    Backtester.tr_exit_price r = 110%Q /\
    Backtester.tr_exit_time r = 120 /\
    Backtester.tr_type r = BUY /\
    Backtester.tr_entry_price r = 100%Q /\
    Backtester.tr_profit r = ((110 - 100) * 0.01 * 100)%Q /\
    (Backtester.balance st' == 10000 + Backtester.tr_profit r)%Q.
Proof.
  apply (take_profit_checked_before_stop_loss basic_defaults wide_frame
           holding_long long_trade [1] 2 wide_bar).
  - reflexivity.
  - reflexivity.
  - constructor; [| constructor].
    exists (bar_at 60 105 98 101). split; [reflexivity |].
    split; reflexivity.
  - reflexivity.
  - unfold tp_touched. simpl. discriminate.
Defined.

(** ** The filters of the ultra engine *)

Module UltraFilters.

Import UltraBacktester.

Lemma calculate_sma_None (df : list Bar) (period idx : Z) :
  calculate_sma df period idx = None <-> idx < period.
Proof.
  unfold calculate_sma. destruct (idx <? period) eqn:E.
  - split; [lia | reflexivity].
  - split; [discriminate | lia].
Qed.

Lemma in_range (a b i : Z) : In i (range a b) <-> a <= i < b.
Proof.
  unfold range. rewrite in_map_iff. split.
  - intros [k [Hk Hin]]. apply in_seq in Hin. lia.
  - intros H. exists (Z.to_nat (i - a)). split; [lia |].
    apply in_seq. lia.
Qed.

(** The scan reads exactly at the offsets it is given, up to the first bar
    that fails to confirm, and does not raise when they are all in range. *)
Lemma confirm_scan_reads (df : list Bar) (idx : Z) (h l : Q) (s : Side)
    (offs : list Z) :
  (forall i, In i offs -> 0 <= idx + i < len df) ->
  (exists b, snd (confirm_scan df idx h l s offs) = Ok b) /\
  (forall k, In k (fst (confirm_scan df idx h l s offs)) ->
             exists i, In i offs /\ k = idx + i).
Proof.
  induction offs as [| i offs IH]; intros Hoffs; simpl.
  - split; [eexists; reflexivity | intros k []].
  - destruct (iloc_nonneg df (idx + i)) as [bar [Hbar _]];
      [apply Hoffs; left; reflexivity |].
    rewrite Hbar.
    destruct (match s with
              | BUY => Qltb (close bar) h
              | SELL => Qgtb (close bar) l
              end).
    + simpl. split; [eexists; reflexivity |].
      intros k [Hk | []]. exists i. split; [left; reflexivity | congruence].
    + destruct IH as [IH1 IH2]; [intros j Hj; apply Hoffs; right; exact Hj |].
      destruct (confirm_scan df idx h l s offs) as [reads r]. simpl in *.
      split; [exact IH1 |].
      intros k [Hk | Hk].
      * exists i. split; [left; reflexivity | congruence].
      * destruct (IH2 k Hk) as [j [Hj Hkj]]. exists j. split; [right |]; auto.
Qed.

End UltraFilters.

(** C4. For a signal index [idx], the false-breakout filter never raises; it
    passes to [df.iloc] only positions from [idx + 1] to
    [idx + confirmation_bars], all of them inside the frame, and only when
    [idx + confirmation_bars < len df]; when the filter is on and fewer than
    [confirmation_bars] bars follow [idx], it reads nothing and vetoes. *)
Theorem false_breakout_reads_in_bounds
    (cfg : UltraBacktester.Config) (df : list Bar) (idx : Z)
    (high_level low_level : Q) (signal : Side) :
  0 <= idx ->
  let cb := UltraBacktester.confirmation_bars cfg in
  let out :=
    UltraBacktester.check_false_breakout cfg df idx high_level low_level signal in
  (exists b, snd out = Ok b) /\
  (forall k, In k (fst out) ->
     idx + 1 <= k <= idx + cb /\ 0 <= k < len df /\ idx + cb < len df) /\
  (UltraBacktester.use_false_breakout_filter cfg = true ->
   len df - 1 - idx < cb -> out = ([], Ok false)).
Proof.
  intros Hidx cb out. subst out. unfold UltraBacktester.check_false_breakout.
  fold cb.
  destruct (UltraBacktester.use_false_breakout_filter cfg); simpl.
  - destruct (len df <=? idx + cb) eqn:Hguard; simpl.
    + split; [eexists; reflexivity |].
      split; [intros k [] | reflexivity].
    + assert (Hoffs : forall i, In i (range 1 (cb + 1)) ->
                                0 <= idx + i < len df).
      { intros i Hi. apply UltraFilters.in_range in Hi. lia. }
      destruct (UltraFilters.confirm_scan_reads df idx high_level low_level
                  signal (range 1 (cb + 1)) Hoffs) as [H1 H2].
      split; [exact H1 |].
      split; [| intros _ Hfew; lia].
      intros k Hk. destruct (H2 k Hk) as [i [Hi Hki]].
      apply UltraFilters.in_range in Hi. lia.
  - split; [eexists; reflexivity |].
    split; [intros k [] | discriminate].
Qed.

Lemma false_breakout_reads_in_bounds_witness :
  UltraBacktester.check_false_breakout UltraBacktester.default_config
    short_frame 2 100.5 100 BUY = ([], Ok false) /\
  (exists b,
     snd (UltraBacktester.check_false_breakout UltraBacktester.default_config
            short_frame 1 100.5 100 BUY) = Ok b) /\
  (forall k,
     In k (fst (UltraBacktester.check_false_breakout
                  UltraBacktester.default_config short_frame 1 100.5 100 BUY)) ->
     1 + 1 <= k <= 1 + 1 /\ 0 <= k < 3 /\ 1 + 1 < 3).
Proof.
  pose proof (false_breakout_reads_in_bounds UltraBacktester.default_config
                short_frame 2 100.5 100 BUY) as H2.
  pose proof (false_breakout_reads_in_bounds UltraBacktester.default_config
                short_frame 1 100.5 100 BUY) as H1.
  simpl in H1, H2.
  destruct H2 as [_ [_ Hveto]]; [lia |].
  destruct H1 as [Hok [Hreads _]]; [lia |].
  split; [apply Hveto; [reflexivity | vm_compute; reflexivity] |].
  split; [exact Hok | exact Hreads].
Defined.

(** C3, as the code has it. When a moving average cannot be computed for
    lack of history, the trend filter (when on) vetoes the signal, whereas
    the multi-timeframe filter lets it pass. An average over [period] bars is
    missing exactly at the indices below [period]. *)
Theorem missing_average_trend_vetoes_mtf_passes
    (cfg : UltraBacktester.Config) (df : list Bar) (idx : Z) (signal : Side) :
  (UltraBacktester.use_trend_filter cfg = true ->
   UltraBacktester.calculate_sma df 20 idx = None \/
   UltraBacktester.calculate_sma df (UltraBacktester.trend_period cfg) idx = None ->
   UltraBacktester.check_trend cfg df idx signal = Ok false) /\
  (UltraBacktester.calculate_sma df (UltraBacktester.higher_tf_period cfg) idx
     = None ->
   UltraBacktester.check_mtf_confirmation cfg df idx signal = Ok true) /\
  (forall period,
     UltraBacktester.calculate_sma df period idx = None <-> idx < period).
Proof.
  split; [| split].
  - intros Hon Hnone. unfold UltraBacktester.check_trend. rewrite Hon. simpl.
    destruct Hnone as [H | H]; rewrite H.
    + reflexivity.
    + destruct (UltraBacktester.calculate_sma df 20 idx); reflexivity.
  - intros Hnone. unfold UltraBacktester.check_mtf_confirmation.
    rewrite Hnone. destruct (UltraBacktester.use_mtf_confirmation cfg);
      reflexivity.
  - intros period. apply UltraFilters.calculate_sma_None.
Qed.

Lemma missing_average_trend_vetoes_mtf_passes_witness :
  UltraBacktester.check_trend UltraBacktester.default_config short_frame 2 BUY
    = Ok false /\
  UltraBacktester.check_mtf_confirmation UltraBacktester.default_config
    short_frame 2 BUY = Ok true.
Proof.
  destruct (missing_average_trend_vetoes_mtf_passes
              UltraBacktester.default_config short_frame 2 BUY)
    as [Htrend [Hmtf _]].
  split.
  - apply Htrend; [reflexivity | left; reflexivity].
  - apply Hmtf. reflexivity.
Defined.

(** C3, as stated, fails for the multi-timeframe filter: with the default
    configuration (filter on, 200-bar average) and only three bars of
    history the average is missing and a BUY signal passes the filter. *)
Lemma mtf_passes_without_history :
  UltraBacktester.use_mtf_confirmation UltraBacktester.default_config = true /\
  UltraBacktester.calculate_sma short_frame
    (UltraBacktester.higher_tf_period UltraBacktester.default_config) 2 = None /\
  UltraBacktester.check_mtf_confirmation UltraBacktester.default_config
    short_frame 2 BUY = Ok true /\
  UltraBacktester.check_mtf_confirmation UltraBacktester.default_config
    short_frame 2 BUY <> Ok false.
Proof.
  repeat split; try reflexivity. discriminate.
Qed.

(** ** Windows *)

Module Windows.

Lemma skipn_cons_nth {A : Type} (l : list A) :
  forall s x, nth_error l s = Some x -> skipn s l = x :: skipn (S s) l.
Proof.
  induction l as [| a l IH]; intros s x H.
  - destruct s; discriminate.
  - destruct s as [| s]; simpl in H.
    + injection H as ->. reflexivity.
    + change (skipn s l = x :: skipn (S s) l). apply IH. exact H.
Qed.

Lemma flat_map_nth_window {A : Type} (l : list A) (n : nat) :
  forall s, (s + n <= length l)%nat ->
    flat_map (fun k => match nth_error l k with Some x => [x] | None => [] end)
             (seq s n)
    = firstn n (skipn s l).
Proof.
  induction n as [| n IH]; intros s Hs; simpl; [reflexivity |].
  destruct (nth_error l s) as [x |] eqn:E.
  - rewrite (skipn_cons_nth l s x E). simpl. f_equal. apply IH. lia.
  - apply nth_error_None in E. lia.
Qed.

Lemma seq_from (n : nat) :
  forall s, seq s n = map (fun k => (s + k)%nat) (seq 0 n).
Proof.
  induction n as [| n IH]; intros s; simpl; [reflexivity |].
  f_equal; [lia |].
  rewrite <- (seq_shift n 0), map_map, (IH (S s)).
  apply map_ext. intros k. lia.
Qed.

Lemma slice_bound_id (n i : Z) : 0 <= i <= n -> slice_bound n i = i.
Proof. intros H. unfold slice_bound. replace (i <? 0) with false by lia. lia. Qed.

(** A slice with bounds inside the frame holds the bars at exactly the
    positions between its bounds. *)
Lemma iloc_slice_bars_between (df : list Bar) (a b : Z) :
  0 <= a <= b -> b <= len df ->
  iloc_slice df a b = bars_between df a b.
Proof.
  intros Hab Hb. unfold iloc_slice, bars_between, range.
  rewrite !slice_bound_id by lia.
  rewrite <- (flat_map_nth_window df (Z.to_nat (b - a)) (Z.to_nat a))
    by (unfold len in Hb; lia).
  rewrite (seq_from (Z.to_nat (b - a)) (Z.to_nat a)).
  rewrite !flat_map_concat_map, !map_map. f_equal.
  apply map_ext_in. intros k Hk. apply in_seq in Hk.
  destruct (iloc_nonneg df (a + Z.of_nat k)) as [x [Hx Hn]]; [lia |].
  rewrite Hx. replace (Z.to_nat a + k)%nat with (Z.to_nat (a + Z.of_nat k)) by lia.
  rewrite Hn. reflexivity.
Qed.

Lemma len_iloc_slice {A : Type} (l : list A) (a b : Z) :
  0 <= a <= b -> b <= len l -> len (iloc_slice l a b) = b - a.
Proof.
  intros Hab Hb. unfold iloc_slice. rewrite !slice_bound_id by lia.
  unfold len in *. rewrite length_firstn, length_skipn. lia.
Qed.

Lemma Qmax_cases (x y : Q) : Qmax x y = x \/ Qmax x y = y.
Proof.
  unfold Qmax, GenericMinMax.gmax. destruct (x ?= y)%Q; auto.
Qed.

Lemma Qmin_cases (x y : Q) : Qmin x y = x \/ Qmin x y = y.
Proof.
  unfold Qmin, GenericMinMax.gmin. destruct (x ?= y)%Q; auto.
Qed.

(** The maximum of a non-empty Series bounds its entries and is one of
    them; likewise for the minimum. *)
Lemma list_max_spec (l : list Q) :
  forall x, (forall y, In y (x :: l) -> (y <= list_max x l)%Q) /\
            In (list_max x l) (x :: l).
Proof.
  unfold list_max. induction l as [| a l IH]; intros x; simpl.
  - split; [intros y [<- | []]; apply Qle_refl | left; reflexivity].
  - destruct (IH (Qmax x a)) as [Hub Hin]. split.
    + intros y [<- | [<- | Hy]].
      * eapply Qle_trans; [apply Q.le_max_l | apply Hub; left; reflexivity].
      * eapply Qle_trans; [apply Q.le_max_r | apply Hub; left; reflexivity].
      * apply Hub. right. exact Hy.
    + destruct Hin as [Hin | Hin]; [| right; right; exact Hin].
      destruct (Qmax_cases x a) as [E | E]; rewrite E in *; auto.
Qed.

Lemma list_min_spec (l : list Q) :
  forall x, (forall y, In y (x :: l) -> (list_min x l <= y)%Q) /\
            In (list_min x l) (x :: l).
Proof.
  unfold list_min. induction l as [| a l IH]; intros x; simpl.
  - split; [intros y [<- | []]; apply Qle_refl | left; reflexivity].
  - destruct (IH (Qmin x a)) as [Hlb Hin]. split.
    + intros y [<- | [<- | Hy]].
      * eapply Qle_trans; [apply Hlb; left; reflexivity | apply Q.le_min_l].
      * eapply Qle_trans; [apply Hlb; left; reflexivity | apply Q.le_min_r].
      * apply Hlb. right. exact Hy.
    + destruct Hin as [Hin | Hin]; [| right; right; exact Hin].
      destruct (Qmin_cases x a) as [E | E]; rewrite E in *; auto.
Qed.

Lemma series_max_spec (f : Bar -> Q) (w : list Bar) :
  w <> [] ->
  exists m, series_max (map f w) = Fin m /\
            (forall b, In b w -> (f b <= m)%Q) /\
            (exists b, In b w /\ f b = m).
Proof.
  intros Hw. destruct w as [| x w]; [congruence |]. simpl.
  destruct (list_max_spec (map f w) (f x)) as [Hub Hin].
  exists (list_max (f x) (map f w)). split; [reflexivity |]. split.
  - intros b Hb. apply Hub. change (In (f b) (map f (x :: w))).
    apply in_map. exact Hb.
  - change (In (list_max (f x) (map f w)) (map f (x :: w))) in Hin.
    apply in_map_iff in Hin. destruct Hin as [b [Hb1 Hb2]]. exists b. auto.
Qed.

Lemma series_min_spec (f : Bar -> Q) (w : list Bar) :
  w <> [] ->
  exists m, series_min (map f w) = Fin m /\
            (forall b, In b w -> (m <= f b)%Q) /\
            (exists b, In b w /\ f b = m).
Proof.
  intros Hw. destruct w as [| x w]; [congruence |]. simpl.
  destruct (list_min_spec (map f w) (f x)) as [Hlb Hin].
  exists (list_min (f x) (map f w)). split; [reflexivity |]. split.
  - intros b Hb. apply Hlb. change (In (f b) (map f (x :: w))).
    apply in_map. exact Hb.
  - change (In (list_min (f x) (map f w)) (map f (x :: w))) in Hin.
    apply in_map_iff in Hin. destruct Hin as [b [Hb1 Hb2]]. exists b. auto.
Qed.

Lemma series_mean_close (w : list Bar) :
  w <> [] -> series_mean (map close w) = Fin (mean_close w).
Proof.
  intros Hw. destruct w as [| x w]; [congruence |].
  unfold series_mean, mean_close, len. rewrite !length_map. reflexivity.
Qed.

Lemma iloc_slice_empty {A : Type} (l : list A) (a b : Z) :
  0 <= b <= a -> iloc_slice l a b = [].
Proof.
  intros H. unfold iloc_slice, slice_bound.
  replace (a <? 0) with false by lia. replace (b <? 0) with false by lia.
  replace (Z.to_nat (Z.min b (len l) - Z.min a (len l))) with 0%nat by lia.
  reflexivity.
Qed.

(** A box that is reported as consolidating has finite levels: the branch
    of the entry phase for other shapes is taken only when
    [is_consolidating] is false. *)
Lemma consolidating_box_finite (cfg : Backtester.Config) (df : list Bar)
    (i : Z) (h l r : option fl) :
  Backtester.identify_consolidation cfg df i = (true, h, l, r) ->
  exists hq lq, h = Some (Fin hq) /\ l = Some (Fin lq) /\
                r = Some (Fin (hq - lq)).
Proof.
  unfold Backtester.identify_consolidation.
  destruct (i <? Backtester.consolidation_periods cfg); [discriminate |].
  destruct (iloc_slice df (i - Backtester.consolidation_periods cfg) i)
    as [| x w]; simpl; [discriminate |].
  intros [= _ <- <- <-]. eexists. eexists. repeat split.
Qed.

Lemma ultra_consolidating_box_finite (cfg : UltraBacktester.Config)
    (df : list Bar) (i : Z) (h l r : option fl) :
  UltraBacktester.identify_consolidation cfg df i = (true, h, l, r) ->
  exists hq lq, h = Some (Fin hq) /\ l = Some (Fin lq) /\
                r = Some (Fin (hq - lq)).
Proof.
  unfold UltraBacktester.identify_consolidation.
  destruct (i <? UltraBacktester.consolidation_periods cfg); [discriminate |].
  destruct (iloc_slice df (i - UltraBacktester.consolidation_periods cfg) i)
    as [| x w]; simpl; [discriminate |].
  intros [= _ <- <- <-]. eexists. eexists. repeat split.
Qed.

Lemma np_div_nonzero (a b : Q) : ~ (b == 0)%Q -> np_div a b = Fin (a / b).
Proof.
  intros Hb. unfold np_div. destruct (Qeq_bool b 0) eqn:E; [| reflexivity].
  apply Qeq_bool_iff in E. contradiction.
Qed.

End Windows.

(** C9. Below [consolidation_periods] bars of history the detector answers
    "not consolidating" with no levels. From there on, for a positive
    lookback [N] and an index inside the frame, its window is the [N] bars at
    the positions [i - N], ..., [i - 1] (bar [i] excluded), its levels are
    the largest high and the smallest low of the window, its range their
    difference, and it reports a consolidation exactly when the range divided
    by the mean close of the window is below the threshold. (A lookback that
    is not positive leaves the window empty: the levels and the ratio are
    NaN and no consolidation is reported.) *)
Theorem consolidation_detector_window
    (cfg : Backtester.Config) (df : list Bar) (i : Z) :
  let N := Backtester.consolidation_periods cfg in
  let thr := Backtester.breakout_threshold cfg in
  (i < N ->
   Backtester.identify_consolidation cfg df i = (false, None, None, None)) /\
  (N <= i -> 0 < N -> i <= len df ->
   let w := bars_between df (i - N) i in
   len w = N /\
   exists (c : bool) (hl ll : Q),
     Backtester.identify_consolidation cfg df i
       = (c, Some (Fin hl), Some (Fin ll), Some (Fin (hl - ll))) /\
     (forall b, In b w -> (high b <= hl)%Q) /\
     (exists b, In b w /\ high b = hl) /\
     (forall b, In b w -> (ll <= low b)%Q) /\
     (exists b, In b w /\ low b = ll) /\
     c = fl_ltb (np_div (hl - ll) (mean_close w)) (Fin thr) /\
     (~ (mean_close w == 0)%Q ->
      (c = true <-> ((hl - ll) / mean_close w < thr)%Q))) /\
  (N <= i -> N <= 0 -> 0 <= i ->
   Backtester.identify_consolidation cfg df i
     = (false, Some NaN, Some NaN, Some NaN)).
Proof.
  intros N thr. split; [| split].
  - intros Hlt. unfold Backtester.identify_consolidation. fold N.
    replace (i <? N) with true by lia. reflexivity.
  - intros Hge Hpos Hlen w.
    assert (Hslice : iloc_slice df (i - N) i = w)
      by (apply Windows.iloc_slice_bars_between; lia).
    assert (Hlenw : len w = N).
    { rewrite <- Hslice, Windows.len_iloc_slice by lia. lia. }
    assert (Hne : w <> []).
    { intros E. rewrite E in Hlenw. unfold len in Hlenw. simpl in Hlenw. lia. }
    split; [exact Hlenw |].
    destruct (Windows.series_max_spec high w Hne) as [hl [Hmax [Hub Hatt]]].
    destruct (Windows.series_min_spec low w Hne) as [ll [Hmin [Hlb Hatt']]].
    exists (fl_ltb (np_div (hl - ll) (mean_close w)) (Fin thr)), hl, ll.
    split.
    { unfold Backtester.identify_consolidation. fold N.
      replace (i <? N) with false by lia.
      rewrite Hslice, Hmax, Hmin, (Windows.series_mean_close w Hne).
      reflexivity. }
    do 4 (split; [assumption |]).
    split; [reflexivity |].
    intros Hmean. rewrite (Windows.np_div_nonzero _ _ Hmean). simpl.
    apply Qltb_lt.
  - intros Hge Hnonpos Hi. unfold Backtester.identify_consolidation. fold N.
    replace (i <? N) with false by lia.
    rewrite Windows.iloc_slice_empty by lia. reflexivity.
Qed.

(** ** The loop of the basic engine *)

Module BasicLoop.

Import Backtester BasicStep.

Lemma close_trade_closed (cfg : Config) (st : State) (t : OpenTrade)
    (p : Q) (tm : Z) (reason : ExitReason) :
  in_position st = true -> current_trade st = Some t ->
  exists st1 r,
    close_trade cfg st p tm reason = Ok st1 /\
    closed_from cfg st st1 tm r /\ tr_exit_reason r = reason.
Proof.
  intros Hin Hcur. unfold close_trade. rewrite Hin, Hcur. simpl.
  eexists. eexists. split; [reflexivity |]. split.
  - exists t. simpl. repeat split; auto.
  - reflexivity.
Qed.

Lemma check_trade_exit_reason (st : State) (b : Bar) (p : Q)
    (reason : ExitReason) :
  check_trade_exit st b = Some (p, reason) -> reason = TP \/ reason = SL.
Proof.
  unfold check_trade_exit.
  destruct (in_position st); [| discriminate].
  destruct (current_trade st) as [t |]; [| discriminate].
  destruct (ot_type t).
  - destruct (Qgeb (high b) (ot_take_profit t)); [intros [= _ <-]; auto |].
    destruct (Qleb (low b) (ot_stop_loss t)); [intros [= _ <-]; auto |].
    discriminate.
  - destruct (Qleb (low b) (ot_take_profit t)); [intros [= _ <-]; auto |].
    destruct (Qgeb (high b) (ot_stop_loss t)); [intros [= _ <-]; auto |].
    discriminate.
Qed.

Lemma exit_phase_cases (cfg : Config) (st : State) (b : Bar) :
  consistent st ->
  exists st1,
    exit_phase cfg st b = Ok st1 /\
    (st1 = st \/
     exists r, closed_from cfg st st1 (time b) r /\
               tr_exit_reason r <> END_OF_DATA).
Proof.
  intros Hc. unfold exit_phase, consistent in *.
  destruct (in_position st) eqn:Hin; [| exists st; auto].
  destruct Hc as [t Hcur].
  destruct (check_trade_exit st b) as [[p reason] |] eqn:Hx;
    [| exists st; auto].
  destruct (close_trade_closed cfg st t p (time b) reason Hin Hcur)
    as [st1 [r [Hclose [Hfrom Hreason]]]].
  exists st1. split; [exact Hclose |]. right. exists r. split; [exact Hfrom |].
  rewrite Hreason.
  destruct (check_trade_exit_reason st b p reason Hx) as [-> | ->];
    discriminate.
Qed.

Lemma entry_phase_cases (cfg : Config) (df : list Bar) (i : Z) (st : State)
    (b : Bar) :
  iloc df i = Ok b ->
  exists st', entry_phase cfg df i st b = Ok st' /\
              (st' = st \/ opened_from cfg st st' b).
Proof.
  intros Hb. unfold entry_phase.
  destruct (in_position st) eqn:Hin; [eauto |].
  destruct (can_trade_today cfg st (time b)) eqn:Hcan; simpl; [| eauto].
  destruct (identify_consolidation cfg df i) as [[[c h] l] r].
  destruct c; [| eauto].
  destruct h as [[h | | |] |]; eauto.
  destruct l as [[l | | |] |]; eauto.
  destruct r as [[r | | |] |]; eauto.
  destruct (BasicLifecycle.detect_breakout_ok df i h l b Hb) as [s Hs].
  rewrite Hs. simpl.
  destruct s as [s |]; [| eauto].
  destruct (calculate_tp_sl cfg (close b) s r) as [tp sl].
  eexists. split; [reflexivity |]. right.
  eexists. simpl. repeat split; auto.
Qed.

Lemma consistent_closed (cfg : Config) (st st1 : State) (tm : Z)
    (r : TradeRecord) :
  closed_from cfg st st1 tm r -> consistent st1.
Proof.
  intros [t [_ [_ [Hin [Hcur _]]]]]. unfold consistent. rewrite Hin. exact Hcur.
Qed.

Lemma consistent_opened (cfg : Config) (st st1 : State) (b : Bar) :
  opened_from cfg st st1 b -> consistent st1.
Proof.
  intros [t [_ [_ [Hin [Hcur _]]]]]. unfold consistent. rewrite Hin. eauto.
Qed.

(** An iteration on a bar of the frame does not raise. *)
Lemma loop_body_step (cfg : Config) (df : list Bar) (st : State) (i : Z)
    (b : Bar) :
  consistent st -> iloc df i = Ok b ->
  exists st', loop_body cfg df st i = Ok st' /\
              step cfg st b st' /\ consistent st'.
Proof.
  intros Hc Hb. unfold loop_body. rewrite Hb. simpl.
  destruct (exit_phase_cases cfg st b Hc) as [st1 [Hexit Hcase1]].
  rewrite Hexit. simpl.
  destruct (entry_phase_cases cfg df i (record_equity st1 (time b)) b Hb)
    as [st' [Hentry Hcase2]].
  exists st'. split; [exact Hentry |]. split.
  - exists st1. split; [exact Hcase1 | exact Hcase2].
  - destruct Hcase2 as [-> | Hop]; [| eapply consistent_opened; eauto].
    unfold consistent, record_equity. simpl.
    destruct Hcase1 as [-> | [r [Hcl _]]]; [exact Hc |].
    apply (consistent_closed cfg st st1 (time b) r Hcl).
Qed.

(** The loop over indices of the frame does not raise, and it establishes
    every invariant its iterations preserve. [I done st] speaks of the state
    [st] reached after the indices [done]. *)
Lemma for_loop_invariant (cfg : Config) (df : list Bar)
    (I : list Z -> State -> Prop) (idxs : list Z) :
  (forall i, In i idxs -> exists b, iloc df i = Ok b) ->
  (forall done i rest st b st',
     idxs = done ++ i :: rest -> iloc df i = Ok b ->
     consistent st -> I done st -> step cfg st b st' ->
     I (done ++ [i]) st') ->
  forall rest done st,
    idxs = done ++ rest -> consistent st -> I done st ->
    exists st', for_loop cfg df rest st = Ok st' /\
                consistent st' /\ I idxs st'.
Proof.
  intros Hvalid Hstep rest.
  induction rest as [| i rest IH]; intros done st Hsplit Hc HI.
  - exists st. rewrite app_nil_r in Hsplit. subst. simpl. auto.
  - destruct (Hvalid i) as [b Hb];
      [rewrite Hsplit; apply in_or_app; right; left; reflexivity |].
    destruct (loop_body_step cfg df st i b Hc Hb) as [st1 [Hbody [Hst Hc1]]].
    simpl. rewrite Hbody. simpl.
    apply (IH (done ++ [i]) st1).
    + rewrite <- app_assoc. exact Hsplit.
    + exact Hc1.
    + apply (Hstep done i rest st b st1 Hsplit Hb Hc HI Hst).
Qed.

Lemma consistent_init (cfg : Config) : consistent (init_state cfg).
Proof. reflexivity. Qed.

(** The indices between two valid positions are valid positions. *)
Lemma range_valid (df : list Bar) (s e : Z) (bs be : Bar) :
  iloc df s = Ok bs -> iloc df (e - 1) = Ok be ->
  forall i, In i (range s e) -> exists b, iloc df i = Ok b.
Proof.
  intros Hs He i Hi. apply UltraFilters.in_range in Hi.
  apply iloc_Ok_range in Hs. apply iloc_Ok_range in He.
  unfold iloc.
  destruct (i <? 0) eqn:Hneg.
  - replace ((0 <=? i + len df) && (i + len df <? len df)) with true by lia.
    destruct (nth_error df (Z.to_nat (i + len df))) as [b |] eqn:E;
      [eauto |].
    apply nth_error_None in E. unfold len in *. lia.
  - replace ((0 <=? i) && (i <? len df)) with true by lia.
    destruct (nth_error df (Z.to_nat i)) as [b |] eqn:E; [eauto |].
    apply nth_error_None in E. unfold len in *. lia.
Qed.

End BasicLoop.

(** ** Whole runs of the basic engine *)

Module BasicRun.

Import Backtester BasicStep.

(** A run that returns went through the header, the loop and the forced
    close. *)
Lemma run_state_inv (cfg : Config) (df : list Bar) (s e : option Z)
    (st : State) :
  run_state cfg df s e = Ok st ->
  exists bs be st_loop,
    iloc df (default (consolidation_periods cfg) s) = Ok bs /\
    iloc df (default (len df) e - 1) = Ok be /\
    for_loop cfg df
      (range (default (consolidation_periods cfg) s) (default (len df) e))
      (init_state cfg) = Ok st_loop /\
    close_remaining cfg df (default (len df) e) st_loop = Ok st.
Proof.
  unfold run_state. intros H.
  destruct (iloc df (default (consolidation_periods cfg) s)) as [bs |];
    [| discriminate].
  destruct (iloc df (default (len df) e - 1)) as [be |]; [| discriminate].
  simpl in H.
  destruct (for_loop cfg df _ (init_state cfg)) as [st_loop |] eqn:Hloop;
    [| discriminate].
  simpl in H. exists bs, be, st_loop. auto.
Qed.

Lemma close_remaining_cases (cfg : Config) (df : list Bar) (e : Z)
    (st : State) (be : Bar) :
  consistent st -> iloc df (e - 1) = Ok be ->
  exists st',
    close_remaining cfg df e st = Ok st' /\
    ((st' = st /\ in_position st = false) \/
     exists r, closed_from cfg st st' (time be) r /\
               tr_exit_reason r = END_OF_DATA).
Proof.
  intros Hc Hbe. unfold close_remaining, consistent in *.
  destruct (in_position st) eqn:Hin; [| exists st; auto].
  destruct Hc as [t Hcur]. rewrite Hbe. simpl.
  destruct (BasicLoop.close_trade_closed cfg st t (close be) (time be)
              END_OF_DATA Hin Hcur) as [st' [r [H1 [H2 H3]]]].
  exists st'. split; [exact H1 |]. right. exists r. auto.
Qed.

(** Once the header line has found its two bars, the run returns a state,
    and that state satisfies whatever the iterations preserve. *)
Lemma run_state_invariant (cfg : Config) (df : list Bar) (s e : option Z)
    (I : list Z -> State -> Prop) (bs be : Bar) :
  let s' := default (consolidation_periods cfg) s in
  let e' := default (len df) e in
  iloc df s' = Ok bs -> iloc df (e' - 1) = Ok be ->
  I [] (init_state cfg) ->
  (forall done i rest st b st',
     range s' e' = done ++ i :: rest -> iloc df i = Ok b ->
     consistent st -> I done st -> step cfg st b st' ->
     I (done ++ [i]) st') ->
  exists st_loop st,
    for_loop cfg df (range s' e') (init_state cfg) = Ok st_loop /\
    run_state cfg df s e = Ok st /\
    consistent st_loop /\ I (range s' e') st_loop /\
    ((st = st_loop /\ in_position st_loop = false) \/
     exists r, closed_from cfg st_loop st (time be) r /\
               tr_exit_reason r = END_OF_DATA).
Proof.
  intros s' e' Hs He H0 Hstep.
  destruct (BasicLoop.for_loop_invariant cfg df I (range s' e')
              (BasicLoop.range_valid df s' e' bs be Hs He) Hstep
              (range s' e') [] (init_state cfg) eq_refl
              (BasicLoop.consistent_init cfg) H0)
    as [st_loop [Hloop [Hc HI]]].
  destruct (close_remaining_cases cfg df e' st_loop be Hc He)
    as [st [Hclose Hcases]].
  exists st_loop, st. split; [exact Hloop |]. split; [| auto].
  unfold run_state. fold s' e'. rewrite Hs, He. simpl.
  rewrite Hloop. simpl. exact Hclose.
Qed.

(** Every iteration appends an equity sample. *)
Lemma step_curve_nonempty (cfg : Config) (st : State) (b : Bar) (st' : State) :
  step cfg st b st' -> equity_curve st' <> [].
Proof.
  intros [st1 [_ [-> | [t Hop]]]].
  - simpl. intros E. apply app_eq_nil in E. destruct E as [_ E]. discriminate.
  - destruct Hop as [_ [_ [_ [_ [_ [_ [_ [Hcurve _]]]]]]]].
    rewrite Hcurve. simpl. intros E. apply app_eq_nil in E.
    destruct E as [_ E]. discriminate.
Qed.

(** After a run, a state with trades has a non-empty equity curve. *)
Lemma run_state_curve_nonempty (cfg : Config) (df : list Bar)
    (s e : option Z) (st : State) :
  run_state cfg df s e = Ok st -> trades st <> [] -> equity_curve st <> [].
Proof.
  intros Hrun Htr.
  destruct (run_state_inv cfg df s e st Hrun) as [bs [be [st0 [Hs [He _]]]]].
  destruct (run_state_invariant cfg df s e
              (fun _ st => (trades st = [] /\ in_position st = false) \/
                           equity_curve st <> [])
              bs be Hs He) as [st_loop [st2 [_ [Hrun2 [_ [HI Hcases]]]]]].
  - left. split; reflexivity.
  - intros done i rest st1 b st1' _ _ _ _ Hst. right.
    apply (step_curve_nonempty cfg st1 b st1' Hst).
  - rewrite Hrun in Hrun2. injection Hrun2 as <-.
    destruct Hcases as [[-> _] | [r [Hcl _]]].
    + destruct HI as [[HI _] | HI]; [contradiction | exact HI].
    + destruct Hcl as [t [Hin [_ [_ [_ [_ [_ [Hcurve _]]]]]]]].
      rewrite Hcurve.
      destruct HI as [[_ HI] | HI]; [congruence | exact HI].
Qed.

Lemma get_results_no_trades (cfg : Config) (st : State) :
  trades st = [] -> get_results cfg st = Ok (zero_results cfg st).
Proof. intros H. unfold get_results. rewrite H. reflexivity. Qed.

Lemma get_results_with_trades (cfg : Config) (st : State) :
  trades st <> [] -> equity_curve st <> [] ->
  exists r, get_results cfg st = Ok r /\
            total_trades r = len (trades st) /\
            profit_factor r =
              (if Qgtb (total_loss r) 0
               then Fin (total_profit r / total_loss r) else PInf).
Proof.
  intros Htr Hcurve. unfold get_results.
  replace (len (trades st) =? 0) with false.
  2: { destruct (trades st); [congruence | unfold len; simpl; lia]. }
  destruct (equity_curve st) as [| x c]; [congruence |].
  eexists. split; [reflexivity |]. simpl. split; reflexivity.
Qed.

(** The aggregator returns after every run: its frame of equity samples is
    empty only when there is no trade. *)
Lemma results_after_run (cfg : Config) (df : list Bar) (s e : option Z)
    (st : State) :
  run_state cfg df s e = Ok st ->
  exists r,
    get_results cfg st = Ok r /\
    (trades st = [] -> r = zero_results cfg st) /\
    (trades st <> [] ->
     profit_factor r =
       (if Qgtb (total_loss r) 0
        then Fin (total_profit r / total_loss r) else PInf)).
Proof.
  intros Hrun. destruct (trades st) as [| t l] eqn:Htr.
  - exists (zero_results cfg st).
    split; [apply get_results_no_trades; exact Htr |].
    split; [reflexivity | congruence].
  - assert (Hne : trades st <> []) by congruence.
    destruct (get_results_with_trades cfg st Hne
                (run_state_curve_nonempty cfg df s e st Hrun Hne))
      as [r [Hr [_ Hpf]]].
    exists r. rewrite <- Htr. split; [exact Hr |]. split; [congruence |].
    intros _. exact Hpf.
Qed.



End BasicRun.

(** C7. The results computation does not raise on degenerate inputs. In
    any state without closed trades it returns, and every derived metric is
    zero (the balances are reported as they are). After any run it returns;
    with at least one closed trade and a gross loss of zero the profit factor
    is the infinite sentinel. *)
Theorem results_on_degenerate_runs
    (cfg : Backtester.Config) (df : list Bar) (s e : option Z)
    (st : Backtester.State) :
  (forall st0,
     Backtester.trades st0 = [] ->
     Backtester.get_results cfg st0 = Ok (zero_results cfg st0)) /\
  (Backtester.run_state cfg df s e = Ok st ->
   exists r,
     Backtester.get_results cfg st = Ok r /\
     Backtester.run_backtest cfg df s e = Ok (st, r) /\
     (Backtester.trades st = [] -> r = zero_results cfg st) /\
     (Backtester.trades st <> [] ->
      (Backtester.total_loss r == 0)%Q ->
      Backtester.profit_factor r = PInf)).
Proof.
  split; [apply BasicRun.get_results_no_trades |].
  intros Hrun.
  destruct (BasicRun.results_after_run cfg df s e st Hrun)
    as [r [Hr [Hzero Hpf]]].
  exists r. split; [exact Hr |]. split; [| split; [exact Hzero |]].
  - unfold Backtester.run_backtest. rewrite Hrun. simpl. rewrite Hr.
    reflexivity.
  - intros Hne Hloss. rewrite (Hpf Hne).
    destruct (Qgtb (Backtester.total_loss r) 0) eqn:E; [| reflexivity].
    apply Qgtb_gt in E. rewrite Hloss in E.
    exfalso. apply (Qlt_irrefl 0). exact E.
Qed.

Lemma results_on_degenerate_runs_witness :
  exists r,
    Backtester.run_backtest (capped 1) two_signal_frame None None
      = Ok (r.1, r.2) /\
    Backtester.trades r.1 <> [] /\
    Backtester.profit_factor r.2 = PInf.
Proof.
  destruct (Backtester.run_state (capped 1) two_signal_frame None None)
    as [st |] eqn:Hrun; [| vm_compute in Hrun; discriminate].
  destruct (results_on_degenerate_runs (capped 1) two_signal_frame None None
              st) as [_ Hafter].
  destruct (Hafter Hrun) as [r [_ [Hrb [_ Hinf]]]].
  assert (Hst : Backtester.trades st <> []).
  { vm_compute in Hrun. injection Hrun as <-. discriminate. }
  assert (Hloss : Backtester.total_loss r = 0%Q).
  { vm_compute in Hrb. injection Hrb as _ <-. reflexivity. }
  exists (st, r). simpl. split; [exact Hrb |]. split; [exact Hst |].
  apply Hinf; [exact Hst |]. rewrite Hloss. reflexivity.
Defined.

(** ** The daily counter *)

Module DailyCap.

Import Backtester BasicStep.

Lemma opened_on_app (d : Z) (l : list TradeRecord) (r : TradeRecord) :
  opened_on d (l ++ [r])
  = opened_on d l + (if date_str (tr_entry_time r) =? d then 1 else 0).
Proof.
  unfold opened_on, len. rewrite List.filter_app, length_app. simpl.
  destruct (date_str (tr_entry_time r) =? d); simpl; lia.
Qed.

Lemma counted_init (cfg : Config) : counted cfg (init_state cfg).
Proof.
  intros d. unfold opened_on, current_on. simpl.
  rewrite lookup_empty. simpl. unfold len. simpl. lia.
Qed.

Lemma counted_closed (cfg : Config) (st st1 : State) (tm : Z)
    (r : TradeRecord) :
  closed_from cfg st st1 tm r -> counted cfg st -> counted cfg st1.
Proof.
  intros [t [_ [Hcur [_ [Hcur1 [Htr [_ [_ [Hd [Hentry _]]]]]]]]]] HK d.
  destruct (HK d) as [H1 H2].
  rewrite Hd, Htr, opened_on_app, Hentry.
  unfold current_on in *. rewrite Hcur1. rewrite Hcur in H1.
  split; [lia | exact H2].
Qed.

Lemma counted_opened (cfg : Config) (st st1 : State) (b : Bar) :
  opened_from cfg st st1 b -> consistent st -> counted cfg st ->
  counted cfg st1.
Proof.
  intros [t [Hin [Hcan [_ [Hcur1 [Hentry [Htr [_ [_ Hd]]]]]]]]] Hc HK d.
  unfold consistent in Hc. rewrite Hin in Hc.
  destruct (HK d) as [H1 H2].
  unfold current_on in *. rewrite Hc in H1. rewrite Hcur1, Hentry, Htr, Hd.
  unfold can_trade_today in Hcan.
  destruct (Z.eqb_spec (date_str (time b)) d) as [Heq | Hne].
  - subst d. rewrite lookup_insert_eq. simpl. split; lia.
  - rewrite lookup_insert_ne by exact Hne. split; [lia | exact H2].
Qed.

Lemma counted_step (cfg : Config) (st : State) (b : Bar) (st' : State) :
  step cfg st b st' -> consistent st -> counted cfg st -> counted cfg st'.
Proof.
  intros [st1 [Hexit Hentry]] Hc HK.
  assert (H1 : consistent st1 /\ counted cfg st1).
  { destruct Hexit as [-> | [r [Hcl _]]]; [auto |]. split.
    - eapply BasicLoop.consistent_closed; eauto.
    - eapply counted_closed; eauto. }
  destruct H1 as [Hc1 HK1].
  destruct Hentry as [-> | Hop].
  - exact HK1.
  - eapply counted_opened; [exact Hop | exact Hc1 | exact HK1].
Qed.

(** After a run every day's counter equals the number of recorded trades
    entered that day and is within the cap. *)
Lemma run_counted (cfg : Config) (df : list Bar) (s e : option Z)
    (st : State) :
  run_state cfg df s e = Ok st ->
  forall d,
    opened_on d (trades st) = default 0 (daily_trades_count st !! d) /\
    opened_on d (trades st) <= Z.max 0 (max_daily_trades cfg).
Proof.
  intros Hrun.
  destruct (BasicRun.run_state_inv cfg df s e st Hrun)
    as [bs [be [st0 [Hs [He _]]]]].
  destruct (BasicRun.run_state_invariant cfg df s e
              (fun _ st => counted cfg st) bs be Hs He)
    as [st_loop [st2 [_ [Hrun2 [Hc [HK Hcases]]]]]].
  - apply counted_init.
  - intros done i rest st1 b st1' _ _ Hc1 HK1 Hst.
    eapply counted_step; eauto.
  - rewrite Hrun in Hrun2. injection Hrun2 as <-.
    assert (HKf : counted cfg st /\ current_trade st = None).
    { destruct Hcases as [[-> Hflat] | [r [Hcl _]]].
      - split; [exact HK |]. unfold consistent in Hc.
        rewrite Hflat in Hc. exact Hc.
      - split; [eapply counted_closed; eauto |].
        destruct Hcl as [t [_ [_ [_ [Hcur _]]]]]. exact Hcur. }
    destruct HKf as [HKf Hnone]. intros d. destruct (HKf d) as [H1 H2].
    unfold current_on in H1. rewrite Hnone in H1. lia.
Qed.

Lemma can_trade_today_false (cfg : Config) (st : State) (tm : Z) :
  can_trade_today cfg st tm = false <->
  max_daily_trades cfg <= default 0 (daily_trades_count st !! date_str tm).
Proof. unfold can_trade_today. lia. Qed.

End DailyCap.

(** C6. After any run with [max_daily_trades = m], at most [m] of the
    recorded trades were entered on any one calendar day (none when [m] is
    not positive), each day's counter being the number of entries of that
    day; once the counter of a bar's day has reached [m], the entry phase
    leaves the state as it is, whatever the bars show. On the sample frame
    with two breakouts on one day, [m = 1] yields one trade where [m = 2]
    yields two, both entered that day. *)
Theorem daily_cap_limits_entries
    (cfg : Backtester.Config) (df : list Bar) (s e : option Z)
    (st : Backtester.State) :
  Backtester.run_state cfg df s e = Ok st ->
  (forall d,
     opened_on d (Backtester.trades st)
       = default 0 (Backtester.daily_trades_count st !! d) /\
     opened_on d (Backtester.trades st)
       <= Z.max 0 (Backtester.max_daily_trades cfg)) /\
  (forall (i : Z) (st0 : Backtester.State) (b : Bar),
     Backtester.max_daily_trades cfg
       <= default 0 (Backtester.daily_trades_count st0 !! date_str (time b)) ->
     Backtester.entry_phase cfg df i st0 b = Ok st0) /\
  (exists st1 st2,
     Backtester.run_state (capped 1) two_signal_frame None None = Ok st1 /\
     map (fun r => date_str (Backtester.tr_entry_time r))
         (Backtester.trades st1) = [0] /\
     Backtester.run_state (capped 2) two_signal_frame None None = Ok st2 /\
     map (fun r => date_str (Backtester.tr_entry_time r))
         (Backtester.trades st2) = [0; 0]).
Proof.
  intros Hrun. split; [| split].
  - apply (DailyCap.run_counted cfg df s e st Hrun).
  - intros i st0 b Hfull. apply DailyCap.can_trade_today_false in Hfull.
    unfold Backtester.entry_phase. rewrite Hfull.
    destruct (Backtester.in_position st0); reflexivity.
  - eexists. eexists.
    split; [vm_compute; reflexivity |].
    split; [reflexivity |].
    split; [vm_compute; reflexivity |]. reflexivity.
Qed.

Lemma daily_cap_limits_entries_witness :
  exists st,
    Backtester.run_state (capped 1) two_signal_frame None None = Ok st /\
    opened_on 0 (Backtester.trades st) = 1 /\
    opened_on 0 (Backtester.trades st) <= Z.max 0 1.
Proof.
  destruct (Backtester.run_state (capped 1) two_signal_frame None None)
    as [st |] eqn:Hrun; [| vm_compute in Hrun; discriminate].
  exists st. split; [reflexivity |].
  destruct (daily_cap_limits_entries (capped 1) two_signal_frame None None
              st Hrun) as [Hcap _].
  destruct (Hcap 0) as [Hcount Hle].
  split; [| exact Hle].
  vm_compute in Hrun. injection Hrun as <-. reflexivity.
Defined.

(** ** The books of the basic engine *)

Module Books.

Import Backtester BasicStep.

Lemma Qsum_app (l1 l2 : list Q) : (Qsum (l1 ++ l2) == Qsum l1 + Qsum l2)%Q.
Proof.
  unfold Qsum. induction l1 as [| x l1 IH]; simpl; [ring |].
  rewrite IH. ring.
Qed.

Lemma booked_snoc (cfg : Config) (l : list TradeRecord) (r : TradeRecord) :
  (booked cfg (l ++ [r]) == booked cfg l + tr_profit r)%Q.
Proof.
  unfold booked. rewrite map_app, Qsum_app. unfold Qsum. simpl. ring.
Qed.

Lemma settled_by_snoc (tm : Z) (l : list TradeRecord) (r : TradeRecord) :
  settled_by tm (l ++ [r]) =
  settled_by tm l ++
  (if negb (is_end_of_data (tr_exit_reason r)) && (tr_exit_time r <=? tm)
   then [r] else []).
Proof. unfold settled_by. rewrite List.filter_app. reflexivity. Qed.

Lemma settled_by_later (tm : Z) (l : list TradeRecord) (r : TradeRecord) :
  tm < tr_exit_time r -> settled_by tm (l ++ [r]) = settled_by tm l.
Proof.
  intros H. rewrite settled_by_snoc.
  replace (tr_exit_time r <=? tm) with false by lia.
  rewrite andb_false_r, app_nil_r. reflexivity.
Qed.

Lemma settled_by_forced (tm : Z) (l : list TradeRecord) (r : TradeRecord) :
  tr_exit_reason r = END_OF_DATA -> settled_by tm (l ++ [r]) = settled_by tm l.
Proof.
  intros H. rewrite settled_by_snoc, H. simpl. apply app_nil_r.
Qed.

Lemma settled_by_all (tm : Z) (l : list TradeRecord) :
  Forall (fun r => tr_exit_reason r <> END_OF_DATA /\ tr_exit_time r <= tm) l ->
  settled_by tm l = l.
Proof.
  unfold settled_by. induction 1 as [| r l [Hr Ht] _ IH]; simpl;
    [reflexivity |].
  replace (tr_exit_time r <=? tm) with true by lia.
  destruct (tr_exit_reason r); simpl; try congruence.
Qed.

Lemma Forall2_impl_In {A B : Type} (R1 R2 : A -> B -> Prop)
    (l1 : list A) (l2 : list B) :
  (forall a b, In b l2 -> R1 a b -> R2 a b) ->
  Forall2 R1 l1 l2 -> Forall2 R2 l1 l2.
Proof.
  intros H HF. induction HF as [| a b l1 l2 Hab _ IH]; constructor.
  - apply H; [left; reflexivity | exact Hab].
  - apply IH. intros a' b' Hin. apply H. right. exact Hin.
Qed.

Lemma accounted_init (cfg : Config) (df : list Bar) :
  accounted cfg df [] (init_state cfg).
Proof.
  unfold accounted, booked, Qsum. simpl.
  split; [ring |]. split; [constructor |]. split; [constructor |].
  split; [discriminate | constructor].
Qed.

(** The books stay in order through one iteration, provided the bar of the
    iteration is later than all the bars before it. *)
Lemma accounted_step (cfg : Config) (df : list Bar) (done : list Z) (i : Z)
    (st : State) (b : Bar) (st' : State) :
  iloc df i = Ok b ->
  (forall j, In j done -> time_at df j < time b) ->
  accounted cfg df done st -> step cfg st b st' ->
  accounted cfg df (done ++ [i]) st'.
Proof.
  intros Hb M [Ha [Hrec [Hcurve [Hopen Hsorted]]]] [st1 [Hexit Hentry]].
  assert (Htm : time_at df i = time b)
    by (unfold time_at; rewrite Hb; reflexivity).
  assert (P1 :
    (balance st1 == booked cfg (trades st1))%Q /\
    Forall (fun r => tr_exit_reason r <> END_OF_DATA /\
                     tr_entry_time r <= tr_exit_time r /\
                     exists j, In j (done ++ [i]) /\
                               tr_exit_time r = time_at df j) (trades st1) /\
    Forall2 (fun smp j =>
               eq_time smp = time_at df j /\
               (eq_balance smp
                  == booked cfg (settled_by (time_at df j) (trades st1)))%Q)
            (equity_curve st1) done /\
    (forall t, current_trade st1 = Some t ->
       (exists j, In j (done ++ [i]) /\ ot_entry_time t = time_at df j) /\
       Forall (fun r => tr_exit_time r <= ot_entry_time t) (trades st1)) /\
    StronglySorted one_after_another (trades st1)).
  { destruct Hexit as [-> | [r [Hcl Hreason]]].
    - split; [exact Ha |]. split; [| split; [exact Hcurve | split]].
      + eapply List.Forall_impl; [| exact Hrec].
        intros r [H1 [H2 [j [Hj H3]]]]. split; [exact H1 |].
        split; [exact H2 |]. exists j. split; [| exact H3].
        apply in_or_app. left. exact Hj.
      + intros t Ht. destruct (Hopen t Ht) as [[j [Hj H1]] H2].
        split; [| exact H2]. exists j. split; [| exact H1].
        apply in_or_app. left. exact Hj.
      + exact Hsorted.
    - destruct Hcl as [t [_ [Hcur [_ [Hcur1 [Htr [Hbal [Hcv [_ [Hen Hex]]]]]]]]]].
      destruct (Hopen t Hcur) as [[j0 [Hj0 Hent]] Hbefore].
      rewrite Htr, Hbal, Hcv, Hcur1.
      split; [rewrite booked_snoc, Ha; reflexivity |].
      split; [| split; [| split]].
      + apply Forall_app. split.
        * eapply List.Forall_impl; [| exact Hrec].
          intros r' [H1 [H2 [j [Hj H3]]]]. split; [exact H1 |].
          split; [exact H2 |]. exists j. split; [| exact H3].
          apply in_or_app. left. exact Hj.
        * constructor; [| constructor]. split; [exact Hreason |].
          split.
          -- rewrite Hen, Hex, Hent. specialize (M j0 Hj0). lia.
          -- exists i. split; [apply in_or_app; right; left; reflexivity |].
             rewrite Hex, Htm. reflexivity.
      + eapply Forall2_impl_In; [| exact Hcurve].
        intros smp j Hj [H1 H2]. split; [exact H1 |].
        rewrite settled_by_later; [exact H2 |].
        rewrite Hex. apply M. exact Hj.
      + discriminate.
      + apply StronglySorted_app_2; [| exact Hsorted | repeat constructor].
        intros x1 x2 Hx1 Hx2. apply list_elem_of_In in Hx1.
        apply list_elem_of_In in Hx2. destruct Hx2 as [<- | []].
        unfold one_after_another. rewrite Hen.
        rewrite Forall_forall in Hbefore. apply Hbefore.
        apply list_elem_of_In. exact Hx1. }
  destruct P1 as [Ha1 [Hrec1 [Hcurve1 [Hopen1 Hsorted1]]]].
  assert (Hall : Forall (fun r => tr_exit_reason r <> END_OF_DATA /\
                                  tr_exit_time r <= time b) (trades st1)).
  { eapply List.Forall_impl; [| exact Hrec1].
    intros r [H1 [_ [j [Hj H3]]]]. split; [exact H1 |].
    apply in_app_or in Hj. destruct Hj as [Hj | [<- | []]].
    - rewrite H3. specialize (M j Hj). lia.
    - rewrite H3, Htm. lia. }
  assert (Hshape :
    trades st' = trades st1 /\ balance st' = balance st1 /\
    equity_curve st' =
      equity_curve st1 ++
      [ {| eq_time := time b; eq_balance := balance st1;
           eq_in_position := in_position st1 |} ] /\
    (current_trade st' = current_trade st1 \/
     exists t, current_trade st' = Some t /\ ot_entry_time t = time b)).
  { destruct Hentry as [-> | [t Hop]].
    - simpl. auto.
    - destruct Hop as [_ [_ [_ [Hcur' [Hen [Htr [Hbal [Hcv _]]]]]]]].
      rewrite Htr, Hbal, Hcv. simpl. split; [reflexivity |].
      split; [reflexivity |]. split; [reflexivity |]. right. eauto. }
  destruct Hshape as [Htr [Hbal [Hcv Hcur]]].
  unfold accounted. rewrite Htr, Hbal, Hcv.
  split; [exact Ha1 |]. split; [exact Hrec1 |].
  split; [| split; [| exact Hsorted1]].
  - apply Forall2_app; [exact Hcurve1 |].
    constructor; [| constructor]. simpl.
    split; [symmetry; exact Htm |].
    rewrite Htm, (settled_by_all (time b) (trades st1)).
    + exact Ha1.
    + exact Hall.
  - intros t Ht. destruct Hcur as [Hcur | [t' [Hcur Hen]]].
    + rewrite Hcur in Ht. apply Hopen1. exact Ht.
    + rewrite Hcur in Ht. injection Ht as <-. split.
      * exists i. split; [apply in_or_app; right; left; reflexivity |].
        rewrite Hen, Htm. reflexivity.
      * rewrite Hen. eapply List.Forall_impl; [| exact Hall].
        intros r [_ H]. exact H.
Qed.

End Books.

(** ** Order of the replay *)

Module ReplayOrder.

Lemma shifted_seq_sorted (s : Z) (n : nat) :
  forall k, StronglySorted Z.lt (map (fun j => s + Z.of_nat j) (seq k n)).
Proof.
  induction n as [| n IH]; intros k; simpl; constructor.
  - apply IH.
  - apply List.Forall_forall. intros x Hx. apply in_map_iff in Hx.
    destruct Hx as [j [<- Hj]]. apply in_seq in Hj. lia.
Qed.

Lemma range_sorted (s e : Z) : StronglySorted Z.lt (range s e).
Proof. apply shifted_seq_sorted. Qed.

(** In a [range], what comes before an index is smaller. *)
Lemma range_split_lt (s e : Z) (done : list Z) (i : Z) (rest : list Z) :
  range s e = done ++ i :: rest ->
  forall j, In j done -> s <= j < i.
Proof.
  intros Hsplit j Hj. split.
  - assert (Hin : In j (range s e))
      by (rewrite Hsplit; apply in_or_app; left; exact Hj).
    apply UltraFilters.in_range in Hin. lia.
  - pose proof (range_sorted s e) as Hs. rewrite Hsplit in Hs.
    apply (StronglySorted_app_1_elem_of Z.lt done (i :: rest) j i Hs).
    + apply list_elem_of_In. exact Hj.
    + apply list_elem_of_In. left. reflexivity.
Qed.

Lemma increasing_cons (x : Z) (l : list Z) :
  increasing (x :: l) = true ->
  Forall (fun y => x < y) l /\ increasing l = true.
Proof.
  revert x. induction l as [| y l IH]; intros x H.
  - split; [constructor | reflexivity].
  - change ((x <? y) && increasing (y :: l) = true) in H.
    apply andb_true_iff in H. destruct H as [Hxy Hl].
    destruct (IH y Hl) as [Hall _].
    split; [| exact Hl]. constructor; [lia |].
    eapply List.Forall_impl; [| exact Hall]. intros z Hz. simpl in Hz. lia.
Qed.

Lemma increasing_nth (l : list Z) :
  increasing l = true ->
  forall (i j : nat) (x y : Z),
    (i < j)%nat -> nth_error l i = Some x -> nth_error l j = Some y -> x < y.
Proof.
  induction l as [| a l IH]; intros Hinc i j x y Hij Hi Hj.
  - destruct i; discriminate.
  - destruct (increasing_cons a l Hinc) as [Hall Hl].
    destruct j as [| j]; [lia |]. simpl in Hj.
    destruct i as [| i]; simpl in Hi.
    + injection Hi as <-. apply nth_error_In in Hj.
      rewrite List.Forall_forall in Hall. apply Hall. exact Hj.
    + apply (IH Hl i j x y); [lia | exact Hi | exact Hj].
Qed.

(** On a frame whose times increase, a later position has a later time. *)
Lemma times_increase (df : list Bar) (j i : Z) (b : Bar) :
  strictly_increasing_times df ->
  0 <= j < i -> iloc df i = Ok b -> time_at df j < time b.
Proof.
  intros Hinc Hji Hb.
  pose proof (iloc_Ok_range df i b Hb) as Hi.
  destruct (iloc_nonneg df i) as [b' [Hb' Hn]]; [lia |].
  rewrite Hb in Hb'. injection Hb' as <-.
  destruct (iloc_nonneg df j) as [bj [Hbj Hnj]]; [lia |].
  unfold time_at. rewrite Hbj.
  apply (increasing_nth (map time df) Hinc (Z.to_nat j) (Z.to_nat i)).
  - lia.
  - apply map_nth_error. exact Hnj.
  - apply map_nth_error. exact Hn.
Qed.

End ReplayOrder.

(** C1, as the code has it. On a frame whose times strictly increase,
    replayed from a non-negative position, the run records one equity sample
    per replayed index, stamped with the time of its bar, whose balance is
    the initial balance plus the profits of the trades that an exit check
    (take-profit or stop-loss) closed at or before that bar; the trade that
    the engine force-closes after the loop is stamped with the time of the
    last bar without being shown by that bar's sample. At most one trade is
    open at a time: every recorded trade was entered no earlier than the
    trade before it was left, and left no earlier than it was entered. *)
Theorem equity_tracks_settled_trades
    (cfg : Backtester.Config) (df : list Bar) (s e : option Z)
    (st : Backtester.State) :
  let s' := default (Backtester.consolidation_periods cfg) s in
  let e' := default (len df) e in
  0 <= s' ->
  strictly_increasing_times df ->
  Backtester.run_state cfg df s e = Ok st ->
  (forall i, In i (range s' e') -> exists b, iloc df i = Ok b) /\
  Forall2 (fun smp i =>
             eq_time smp = time_at df i /\
             (eq_balance smp
                == booked cfg
                     (settled_by (time_at df i) (Backtester.trades st)))%Q)
          (Backtester.equity_curve st) (range s' e') /\
  (forall (i : Z) (st0 : Backtester.State) (b : Bar),
     Backtester.in_position st0 = true ->
     Backtester.entry_phase cfg df i st0 b = Ok st0) /\
  StronglySorted one_after_another (Backtester.trades st) /\
  Forall (fun r => Backtester.tr_entry_time r <= Backtester.tr_exit_time r)
         (Backtester.trades st).
Proof.
  intros s' e' Hs0 Hinc Hrun.
  destruct (BasicRun.run_state_inv cfg df s e st Hrun)
    as [bs [be [st0 [Hs [He _]]]]].
  fold s' in Hs. fold e' in He.
  split; [exact (BasicLoop.range_valid df s' e' bs be Hs He) |].
  cut (Forall2 (fun smp i =>
                  eq_time smp = time_at df i /\
                  (eq_balance smp
                     == booked cfg
                          (settled_by (time_at df i) (Backtester.trades st)))%Q)
               (Backtester.equity_curve st) (range s' e') /\
       StronglySorted one_after_another (Backtester.trades st) /\
       Forall (fun r => Backtester.tr_entry_time r <= Backtester.tr_exit_time r)
              (Backtester.trades st)).
  { intros [H1 [H2 H3]]. split; [exact H1 |]. split; [| auto].
    intros i st1 b Hin. unfold Backtester.entry_phase. rewrite Hin.
    reflexivity. }
  destruct (BasicRun.run_state_invariant cfg df s e
              (BasicStep.accounted cfg df) bs be Hs He)
    as [st_loop [st2 [_ [Hrun2 [_ [HI Hcases]]]]]].
  - apply Books.accounted_init.
  - intros done i rest st1 b st1' Hsplit Hb _ HA Hst.
    apply (Books.accounted_step cfg df done i st1 b st1' Hb); auto.
    intros j Hj.
    destruct (ReplayOrder.range_split_lt _ _ done i rest Hsplit j Hj)
      as [Hlo Hhi].
    apply (ReplayOrder.times_increase df j i b Hinc); [lia | exact Hb].
  - rewrite Hrun in Hrun2. injection Hrun2 as <-. fold s' e' in HI.
    destruct HI as [_ [Hrec [Hcurve [Hopen Hsorted]]]].
    assert (Hord : Forall (fun r => Backtester.tr_entry_time r
                                    <= Backtester.tr_exit_time r)
                          (Backtester.trades st_loop)).
    { eapply List.Forall_impl; [| exact Hrec]. intros r [_ [H _]]. exact H. }
    destruct Hcases as [[-> _] | [r [[t Hcl] Hreason]]]; [auto |].
    destruct Hcl as [_ [Hcur [_ [_ [Htr [_ [Hcv [_ [Hen Hex]]]]]]]]].
    destruct (Hopen t Hcur) as [[j0 [Hj0 Hent]] Hbefore].
    rewrite Htr, Hcv. split; [| split].
    + eapply Books.Forall2_impl_In; [| exact Hcurve].
      intros smp j _ [H1 H2]. split; [exact H1 |].
      rewrite Books.settled_by_forced; [exact H2 | exact Hreason].
    + apply StronglySorted_app_2; [| exact Hsorted | repeat constructor].
      intros x1 x2 Hx1 Hx2. apply list_elem_of_In in Hx1.
      apply list_elem_of_In in Hx2. destruct Hx2 as [<- | []].
      unfold one_after_another. rewrite Hen.
      rewrite List.Forall_forall in Hbefore. apply Hbefore. exact Hx1.
    + apply Forall_app. split; [exact Hord |].
      constructor; [| constructor]. rewrite Hen, Hex, Hent.
      apply UltraFilters.in_range in Hj0.
      destruct (Z.eq_dec j0 (e' - 1)) as [-> | Hne].
      * unfold time_at. rewrite He. lia.
      * assert (time_at df j0 < time be); [| lia].
        apply ReplayOrder.times_increase with (i := e' - 1);
          [exact Hinc | lia | exact He].
Qed.

Lemma equity_tracks_settled_trades_witness :
  exists st,
    Backtester.run_state (capped 5) breakout_frame None None = Ok st /\
    (forall i, In i (range 2 4) -> exists b, iloc breakout_frame i = Ok b) /\
    Forall2 (fun smp i =>
               eq_time smp = time_at breakout_frame i /\
               (eq_balance smp
                  == booked (capped 5)
                       (settled_by (time_at breakout_frame i)
                                   (Backtester.trades st)))%Q)
            (Backtester.equity_curve st) (range 2 4) /\
    (forall (i : Z) (st0 : Backtester.State) (b : Bar),
       Backtester.in_position st0 = true ->
       Backtester.entry_phase (capped 5) breakout_frame i st0 b = Ok st0) /\
    StronglySorted one_after_another (Backtester.trades st) /\
    Forall (fun r => Backtester.tr_entry_time r <= Backtester.tr_exit_time r)
           (Backtester.trades st).
Proof.
  destruct (Backtester.run_state (capped 5) breakout_frame None None)
    as [st |] eqn:Hrun; [| vm_compute in Hrun; discriminate].
  exists st. split; [reflexivity |].
  apply (equity_tracks_settled_trades (capped 5) breakout_frame None None st).
  - simpl. lia.
  - reflexivity.
  - exact Hrun.
Defined.

(** C1, as stated, fails on the last bar of a run that ends in a position:
    the forced close is stamped with the time of the last bar, so it is a
    trade closed at or before that bar, but its profit of 0.5 is missing
    from the bar's equity sample. *)
Lemma forced_close_missing_from_last_sample :
  strictly_increasing_times breakout_frame /\
  exists st smp,
    Backtester.run_state (capped 5) breakout_frame None None = Ok st /\
    nth_error (Backtester.equity_curve st) 1 = Some smp /\
    eq_time smp = time_at breakout_frame 3 /\
    closed_by (eq_time smp) (Backtester.trades st) = Backtester.trades st /\
    (booked (capped 5) (closed_by (eq_time smp) (Backtester.trades st))
       == 10000.5)%Q /\
    (eq_balance smp == 10000)%Q /\
    ~ (eq_balance smp
         == booked (capped 5)
              (closed_by (eq_time smp) (Backtester.trades st)))%Q.
Proof.
  split; [reflexivity |].
  eexists. eexists. split; [vm_compute; reflexivity |].
  split; [reflexivity |]. split; [reflexivity |]. split; [reflexivity |].
  split; [reflexivity |]. split; [reflexivity |].
  vm_compute. discriminate.
Qed.

(** ** The equity curve of the ultra engine *)

Module UltraCurve.

Import UltraBacktester.

(** Case analysis on whatever the hypothesis [H] branches on, keeping the
    branches that return. *)
Ltac branch_on H :=
  repeat match type of H with
    | context [match ?x with _ => _ end] =>
        destruct x eqn:?; simpl in H; try discriminate H
    end.

Lemma update_trailing_stop_curve (cfg : Config) (st st' : State) (h l : Q) :
  update_trailing_stop cfg st h l = Ok st' ->
  equity_curve st' = equity_curve st.
Proof.
  unfold update_trailing_stop. intros H. branch_on H;
    injection H as <-; reflexivity.
Qed.

Lemma check_trade_exit_curve (cfg : Config) (st st' : State) (b : Bar)
    (x : option (fl * ExitReason)) :
  check_trade_exit cfg st b = Ok (st', x) ->
  equity_curve st' = equity_curve st.
Proof.
  unfold check_trade_exit. intros H.
  destruct (in_position st); [| injection H as <- _; reflexivity].
  destruct (current_trade st); [| injection H as <- _; reflexivity].
  destruct (update_trailing_stop cfg st (high b) (low b)) as [st1 |] eqn:Hup;
    [| discriminate].
  apply update_trailing_stop_curve in Hup. simpl in H.
  branch_on H; injection H as <- _; exact Hup.
Qed.

Lemma close_trade_curve (cfg : Config) (st st' : State) (p : fl) (tm : Z)
    (reason : ExitReason) :
  close_trade cfg st p tm reason = Ok st' ->
  equity_curve st' = equity_curve st.
Proof.
  unfold close_trade. intros H. branch_on H; injection H as <-; reflexivity.
Qed.

Lemma exit_phase_curve (cfg : Config) (st st' : State) (b : Bar) :
  exit_phase cfg st b = Ok st' -> equity_curve st' = equity_curve st.
Proof.
  unfold exit_phase. intros H.
  destruct (in_position st); [| injection H as <-; reflexivity].
  destruct (check_trade_exit cfg st b) as [[st1 x] |] eqn:Hx; [| discriminate].
  apply check_trade_exit_curve in Hx. simpl in H.
  destruct x as [[p reason] |].
  - apply close_trade_curve in H. congruence.
  - injection H as <-. exact Hx.
Qed.

Lemma detect_breakout_curve (cfg : Config) (df : list Bar) (st st' : State)
    (i : Z) (h l : Q) (s : option Side) :
  detect_breakout cfg df st i h l = Ok (st', s) ->
  equity_curve st' = equity_curve st.
Proof.
  unfold detect_breakout, bind. intros H. branch_on H;
    injection H as <- _; reflexivity.
Qed.

Lemma entry_phase_curve (cfg : Config) (df : list Bar) (i : Z)
    (st st' : State) (b : Bar) :
  entry_phase cfg df i st b = Ok st' -> equity_curve st' = equity_curve st.
Proof.
  unfold entry_phase. intros H.
  destruct (in_position st); [injection H as <-; reflexivity |].
  destruct (negb (can_trade_today cfg st (time b)));
    [injection H as <-; reflexivity |].
  destruct (identify_consolidation cfg df i) as [[[c hl] ll] r].
  destruct c; [| injection H as <-; reflexivity].
  destruct hl as [[hl | | |] |]; try (injection H as <-; reflexivity).
  destruct ll as [[ll | | |] |]; try (injection H as <-; reflexivity).
  destruct r as [[r | | |] |]; try (injection H as <-; reflexivity).
  destruct (detect_breakout cfg df st i hl ll) as [[st1 s] |] eqn:Hd;
    [| discriminate].
  apply detect_breakout_curve in Hd. simpl in H.
  destruct s as [s |]; [| injection H as <-; exact Hd].
  destruct (calculate_tp_sl cfg df i (close b) s r) as [tp sl].
  injection H as <-. exact Hd.
Qed.

(** An iteration that returns has appended one sample, stamped with the
    time of the bar at its index. *)
Lemma loop_body_curve (cfg : Config) (df : list Bar) (st st' : State)
    (i : Z) :
  loop_body cfg df st i = Ok st' ->
  exists b smp, iloc df i = Ok b /\
                equity_curve st' = equity_curve st ++ [smp] /\
                eq_time smp = time b.
Proof.
  unfold loop_body. intros H.
  destruct (iloc df i) as [b |]; [| discriminate]. simpl in H.
  destruct (exit_phase cfg st b) as [st1 |] eqn:Hexit; [| discriminate].
  apply exit_phase_curve in Hexit. simpl in H.
  apply entry_phase_curve in H. simpl in H.
  exists b. eexists. split; [reflexivity |].
  split; [rewrite H, Hexit; reflexivity | reflexivity].
Qed.

Lemma for_loop_curve (cfg : Config) (df : list Bar) (idxs : list Z) :
  forall st st',
    for_loop cfg df idxs st = Ok st' ->
    exists new,
      equity_curve st' = equity_curve st ++ new /\
      Forall2 (fun smp i => exists b, iloc df i = Ok b /\ eq_time smp = time b)
              new idxs.
Proof.
  induction idxs as [| i idxs IH]; intros st st' H; simpl in H.
  - injection H as <-. exists []. rewrite app_nil_r. split; constructor.
  - destruct (loop_body cfg df st i) as [st1 |] eqn:Hbody; [| discriminate].
    simpl in H. destruct (loop_body_curve cfg df st st1 i Hbody)
      as [b [smp [Hb [Hcurve Htime]]]].
    destruct (IH st1 st' H) as [new [Hnew Hall]].
    exists (smp :: new). split.
    + rewrite Hnew, Hcurve, <- app_assoc. reflexivity.
    + constructor; [exists b; auto | exact Hall].
Qed.

Lemma close_remaining_curve (cfg : Config) (df : list Bar) (e : Z)
    (st st' : State) :
  close_remaining cfg df e st = Ok st' ->
  equity_curve st' = equity_curve st.
Proof.
  unfold close_remaining. intros H.
  destruct (in_position st); [| injection H as <-; reflexivity].
  destruct (iloc df (e - 1)) as [b |]; [| discriminate]. simpl in H.
  apply close_trade_curve in H. exact H.
Qed.

(** The equity curve of a run that returns has one sample per index of the
    loop, in order. *)
Lemma run_state_curve (cfg : Config) (df : list Bar) (s e : option Z)
    (verbose : bool) (st : State) :
  run_state cfg df s e verbose = Ok st ->
  Forall2 (fun smp i => exists b, iloc df i = Ok b /\ eq_time smp = time b)
          (equity_curve st) (loop_indices cfg df s e).
Proof.
  unfold run_state. intros H.
  destruct (if verbose then _ else _); [| discriminate]. simpl in H.
  destruct (for_loop cfg df (loop_indices cfg df s e) (init_state cfg))
    as [st1 |] eqn:Hloop; [| discriminate].
  simpl in H. apply close_remaining_curve in H.
  destruct (for_loop_curve cfg df _ _ _ Hloop) as [new [Hnew Hall]].
  simpl in Hnew. rewrite H, Hnew. exact Hall.
Qed.

End UltraCurve.

(** C10. With the false-breakout filter on and no explicit end index, the
    replay of the ultra engine ends at [len df - confirmation_bars]. Every
    index [i] the loop visits then has [i + confirmation_bars < len df], so
    that the filter does not take its insufficient-bars veto at [i] but goes
    on to its confirmation scan; and when the replay starts at a
    non-negative position, the visited indices and the equity samples of a
    run belong to the positions below [len df - confirmation_bars]: the
    last [confirmation_bars] bars are not evaluated and get no sample. *)
Theorem default_end_skips_confirmation_bars
    (cfg : UltraBacktester.Config) (df : list Bar) (start : option Z)
    (verbose : bool) :
  UltraBacktester.use_false_breakout_filter cfg = true ->
  let cb := UltraBacktester.confirmation_bars cfg in
  let visited := UltraBacktester.loop_indices cfg df start None in
  UltraBacktester.default_end_idx cfg df = len df - cb /\
  (forall i, In i visited ->
     i + cb < len df /\
     (len df <=? i + cb) = false /\
     forall h l sg,
       UltraBacktester.check_false_breakout cfg df i h l sg
       = UltraBacktester.confirm_scan df i h l sg (range 1 (cb + 1))) /\
  (0 <= default (UltraBacktester.default_start_idx cfg) start ->
   (forall i, In i visited -> 0 <= i < len df - cb) /\
   forall st,
     UltraBacktester.run_state cfg df start None verbose = Ok st ->
     Forall2 (fun smp i =>
                0 <= i < len df - cb /\
                exists b, nth_error df (Z.to_nat i) = Some b /\
                          UltraBacktester.eq_time smp = time b)
             (UltraBacktester.equity_curve st) visited).
Proof.
  intros Hon cb visited.
  assert (Hend : UltraBacktester.default_end_idx cfg df = len df - cb).
  { unfold UltraBacktester.default_end_idx. rewrite Hon. reflexivity. }
  assert (Hvis : forall i, In i visited ->
            default (UltraBacktester.default_start_idx cfg) start <= i
            < len df - cb).
  { intros i Hi. unfold visited, UltraBacktester.loop_indices in Hi.
    simpl in Hi. rewrite Hend in Hi. apply UltraFilters.in_range in Hi.
    exact Hi. }
  split; [exact Hend |]. split.
  - intros i Hi. specialize (Hvis i Hi).
    assert (Hguard : (len df <=? i + cb) = false) by lia.
    split; [lia |]. split; [exact Hguard |].
    intros h l sg. unfold UltraBacktester.check_false_breakout.
    fold cb. rewrite Hon, Hguard. reflexivity.
  - intros Hstart. split; [intros i Hi; specialize (Hvis i Hi); lia |].
    intros st Hrun.
    apply UltraCurve.run_state_curve in Hrun. fold visited in Hrun.
    eapply Books.Forall2_impl_In; [| exact Hrun].
    intros smp i Hi [b [Hb Htime]]. specialize (Hvis i Hi).
    split; [lia |].
    destruct (iloc_nonneg df i) as [b' [Hb' Hn]];
      [apply iloc_Ok_range in Hb; lia |].
    exists b'. split; [exact Hn |]. congruence.
Qed.

Lemma default_end_skips_confirmation_bars_witness :
  UltraBacktester.default_end_idx quick_ultra two_signal_frame = 5 - 1 /\
  UltraBacktester.loop_indices quick_ultra two_signal_frame None None = [2; 3] /\
  exists st,
    UltraBacktester.run_state quick_ultra two_signal_frame None None true
      = Ok st /\
    Forall2 (fun smp i =>
               0 <= i < 5 - 1 /\
               exists b, nth_error two_signal_frame (Z.to_nat i) = Some b /\
                         UltraBacktester.eq_time smp = time b)
            (UltraBacktester.equity_curve st) [2; 3].
Proof.
  destruct (default_end_skips_confirmation_bars quick_ultra two_signal_frame
              None true eq_refl) as [Hend [_ Hrun]].
  split; [exact Hend |]. split; [reflexivity |].
  destruct (UltraBacktester.run_state quick_ultra two_signal_frame None None
              true) as [st |] eqn:E; [| vm_compute in E; discriminate].
  exists st. split; [reflexivity |].
  apply Hrun; [vm_compute; discriminate | reflexivity].
Defined.

Lemma consolidation_detector_window_witness :
  Backtester.identify_consolidation (capped 5) short_frame 1
    = (false, None, None, None) /\
  exists (c : bool) (hl ll : Q),
    Backtester.identify_consolidation (capped 5) short_frame 2
      = (c, Some (Fin hl), Some (Fin ll), Some (Fin (hl - ll))) /\
    (c = true <->
     ((hl - ll) / mean_close (bars_between short_frame (2 - 2) 2) < 0.1)%Q).
Proof.
  pose proof (consolidation_detector_window (capped 5) short_frame 1) as H1.
  pose proof (consolidation_detector_window (capped 5) short_frame 2) as H2.
  simpl in H1, H2.
  destruct H1 as [Hshort _]. destruct H2 as [_ [Hfull _]].
  split; [apply Hshort; lia |].
  destruct Hfull as [_ [c [hl [ll [Hid [_ [_ [_ [_ [_ Hiff]]]]]]]]]];
    [lia | lia | vm_compute; discriminate |].
  exists c, hl, ll. split; [exact Hid |].
  apply Hiff. intros E. vm_compute in E. discriminate.
Defined.

(** * Further properties of the two engines *)

(** ** The basic engine, transition by transition *)

Module BasicTransitions.

Import Backtester BasicStep BasicDetail.

Lemma close_trade_eq (cfg : Config) (st : State) (t : OpenTrade) (p : Q)
    (tm : Z) (reason : ExitReason) :
  in_position st = true -> current_trade st = Some t ->
  close_trade cfg st p tm reason = Ok (closed_state cfg st t p tm reason).
Proof.
  intros Hin Hcur. unfold close_trade. rewrite Hin, Hcur. reflexivity.
Qed.

(** What the exit phase can have done when it returns. *)
Lemma exit_phase_inv (cfg : Config) (st st1 : State) (b : Bar) :
  consistent st -> exit_phase cfg st b = Ok st1 ->
  (st1 = st /\ (in_position st = false \/ check_trade_exit st b = None)) \/
  exists t p reason,
    in_position st = true /\ current_trade st = Some t /\
    check_trade_exit st b = Some (p, reason) /\
    st1 = closed_state cfg st t p (time b) reason.
Proof.
  intros Hc. unfold exit_phase, consistent in *.
  destruct (in_position st) eqn:Hin.
  - destruct Hc as [t Hcur].
    destruct (check_trade_exit st b) as [[p reason] |] eqn:Hx.
    + rewrite (close_trade_eq cfg st t p (time b) reason Hin Hcur).
      intros [= <-]. right. exists t, p, reason. auto.
    + intros [= <-]. left. auto.
  - intros [= <-]. left. auto.
Qed.

(** What the entry phase can have done when it returns. *)
Lemma entry_phase_inv (cfg : Config) (df : list Bar) (i : Z)
    (st st' : State) (b : Bar) :
  entry_phase cfg df i st b = Ok st' ->
  st' = st \/
  exists s h l r,
    in_position st = false /\
    can_trade_today cfg st (time b) = true /\
    identify_consolidation cfg df i
      = (true, Some (Fin h), Some (Fin l), Some (Fin r)) /\
    detect_breakout df i h l = Ok (Some s) /\
    st' = entered_state cfg st s b r.
Proof.
  unfold entry_phase.
  destruct (in_position st) eqn:Hin; [intros [= <-]; auto |].
  destruct (can_trade_today cfg st (time b)) eqn:Hcan; simpl;
    [| intros [= <-]; auto].
  destruct (identify_consolidation cfg df i) as [[[c h] l] r] eqn:Hid.
  destruct c; [| intros [= <-]; auto].
  destruct h as [[h | | |] |]; try (intros [= <-]; auto; fail).
  destruct l as [[l | | |] |]; try (intros [= <-]; auto; fail).
  destruct r as [[r | | |] |]; try (intros [= <-]; auto; fail).
  destruct (detect_breakout df i h l) as [s |] eqn:Hd; [| discriminate].
  simpl. destruct s as [s |]; [| intros [= <-]; auto].
  destruct (calculate_tp_sl cfg (close b) s r) as [tp sl] eqn:Htp.
  intros [= <-]. right. exists s, h, l, r.
  unfold entered_state. rewrite Htp. auto.
Qed.

(** What an iteration can have done when it returns. *)
Lemma loop_body_inv (cfg : Config) (df : list Bar) (st st' : State) (i : Z)
    (b : Bar) :
  consistent st -> iloc df i = Ok b -> loop_body cfg df st i = Ok st' ->
  exists st1,
    exit_phase cfg st b = Ok st1 /\
    entry_phase cfg df i (record_equity st1 (time b)) b = Ok st'.
Proof.
  intros Hc Hb. unfold loop_body. rewrite Hb. simpl.
  destruct (exit_phase cfg st b) as [st1 |]; [| discriminate]. simpl.
  intros H. exists st1. auto.
Qed.

(** An invariant of the iterations holds for the state the loop returns. *)
Lemma for_loop_keeps (cfg : Config) (df : list Bar)
    (I : list Z -> State -> Prop) (idxs : list Z) :
  (forall done i rest st b st',
     idxs = done ++ i :: rest -> iloc df i = Ok b ->
     consistent st -> I done st -> loop_body cfg df st i = Ok st' ->
     I (done ++ [i]) st') ->
  forall rest done st st',
    idxs = done ++ rest -> consistent st -> I done st ->
    for_loop cfg df rest st = Ok st' ->
    consistent st' /\ I idxs st'.
Proof.
  intros Hstep rest.
  induction rest as [| i rest IH]; intros done st st' Hsplit Hc HI Hloop.
  - simpl in Hloop. injection Hloop as <-. rewrite app_nil_r in Hsplit.
    subst. auto.
  - simpl in Hloop.
    destruct (loop_body cfg df st i) as [st1 |] eqn:Hbody; [| discriminate].
    simpl in Hloop.
    assert (Hb : exists b, iloc df i = Ok b).
    { unfold loop_body in Hbody. destruct (iloc df i) as [b |];
        [eauto | discriminate]. }
    destruct Hb as [b Hb].
    destruct (BasicLoop.loop_body_step cfg df st i b Hc Hb)
      as [st1' [Hbody' [_ Hc1]]].
    rewrite Hbody in Hbody'. injection Hbody' as <-.
    apply (IH (done ++ [i]) st1 st').
    + rewrite <- app_assoc. exact Hsplit.
    + exact Hc1.
    + apply (Hstep done i rest st b st1 Hsplit Hb Hc HI Hbody).
    + exact Hloop.
Qed.

(** An invariant of the iterations holds before the forced close of every
    run that returns. *)
Lemma run_keeps (cfg : Config) (df : list Bar) (s e : option Z)
    (I : list Z -> State -> Prop) (st : State) :
  let s' := default (consolidation_periods cfg) s in
  let e' := default (len df) e in
  I [] (init_state cfg) ->
  (forall done i rest st b st',
     range s' e' = done ++ i :: rest -> iloc df i = Ok b ->
     consistent st -> I done st -> loop_body cfg df st i = Ok st' ->
     I (done ++ [i]) st') ->
  run_state cfg df s e = Ok st ->
  exists st_loop be,
    iloc df (e' - 1) = Ok be /\
    consistent st_loop /\ I (range s' e') st_loop /\
    ((st = st_loop /\ in_position st_loop = false) \/
     exists t, in_position st_loop = true /\ current_trade st_loop = Some t /\
               st = closed_state cfg st_loop t (close be) (time be)
                      END_OF_DATA).
Proof.
  intros s' e' H0 Hstep Hrun.
  destruct (BasicRun.run_state_inv cfg df s e st Hrun)
    as [bs [be [st_loop [_ [He [Hloop Hclose]]]]]].
  fold s' e' in He, Hloop, Hclose.
  destruct (for_loop_keeps cfg df I (range s' e') Hstep (range s' e') []
              (init_state cfg) st_loop eq_refl
              (BasicLoop.consistent_init cfg) H0 Hloop) as [Hc HI].
  exists st_loop, be. split; [exact He |]. split; [exact Hc |].
  split; [exact HI |].
  unfold close_remaining in Hclose. unfold consistent in Hc.
  destruct (in_position st_loop) eqn:Hin.
  - destruct Hc as [t Hcur]. rewrite He in Hclose. simpl in Hclose.
    rewrite (close_trade_eq cfg st_loop t _ _ _ Hin Hcur) in Hclose.
    injection Hclose as <-. right. exists t. auto.
  - injection Hclose as <-. left. auto.
Qed.

Lemma exit_reason_cases (st : State) (b : Bar) (t : OpenTrade) (p : Q)
    (reason : ExitReason) :
  current_trade st = Some t ->
  check_trade_exit st b = Some (p, reason) ->
  (reason = TP /\ p = ot_take_profit t) \/
  (reason = SL /\ p = ot_stop_loss t).
Proof.
  intros Hcur. unfold check_trade_exit. rewrite Hcur.
  destruct (in_position st); [| discriminate].
  destruct (ot_type t).
  - destruct (Qgeb (high b) (ot_take_profit t)); [intros [= <- <-]; auto |].
    destruct (Qleb (low b) (ot_stop_loss t)); [intros [= <- <-]; auto |].
    discriminate.
  - destruct (Qleb (low b) (ot_take_profit t)); [intros [= <- <-]; auto |].
    destruct (Qgeb (high b) (ot_stop_loss t)); [intros [= <- <-]; auto |].
    discriminate.
Qed.

End BasicTransitions.

(** ** Exits at the stop, and what the records keep *)

Module BasicRecords.

Import Backtester BasicStep BasicDetail.

Lemma exit_phase_sl (cfg : Config) (st : State) (t : OpenTrade) (b : Bar) :
  in_position st = true -> current_trade st = Some t -> sl_touched t b ->
  exit_phase cfg st b = Ok (closed_state cfg st t (ot_stop_loss t) (time b) SL).
Proof.
  intros Hin Hcur Hsl.
  assert (Hc : check_trade_exit st b = Some (ot_stop_loss t, SL)).
  { unfold check_trade_exit. rewrite Hin, Hcur.
    unfold sl_touched in Hsl. destruct (ot_type t); destruct Hsl as [H1 H2].
    - apply Qgeb_false in H1. apply Qleb_le in H2. rewrite H1, H2. reflexivity.
    - apply Qleb_false in H1. apply Qgeb_ge in H2. rewrite H1, H2. reflexivity. }
  unfold exit_phase. rewrite Hin, Hc.
  apply BasicTransitions.close_trade_eq; assumption.
Qed.

Lemma In_firstn {A : Type} (x : A) (n : nat) :
  forall l, In x (firstn n l) -> In x l.
Proof.
  induction n as [| n IH]; intros l H; [destruct H |].
  destruct l as [| a l]; [destruct H |].
  destruct H as [H | H]; [left; exact H | right; apply IH; exact H].
Qed.

Lemma In_skipn {A : Type} (x : A) (n : nat) :
  forall l, In x (skipn n l) -> In x l.
Proof.
  induction n as [| n IH]; intros l H; [exact H |].
  destruct l as [| a l]; [destruct H |].
  right. apply IH. exact H.
Qed.

Lemma iloc_slice_In {A : Type} (l : list A) (a b : Z) (x : A) :
  In x (iloc_slice l a b) -> In x l.
Proof.
  unfold iloc_slice. intros H. apply In_firstn in H. apply In_skipn in H.
  exact H.
Qed.

(** A box reported as consolidating comes from a non-empty window of the
    frame: its levels are the largest high and the smallest low of the
    window and its range is their difference. *)
Lemma consolidating_box_spec (cfg : Config) (df : list Bar) (i : Z)
    (h l r : Q) :
  identify_consolidation cfg df i
    = (true, Some (Fin h), Some (Fin l), Some (Fin r)) ->
  exists w,
    w <> [] /\ (forall b, In b w -> In b df) /\
    (forall b, In b w -> (high b <= h)%Q) /\
    (forall b, In b w -> (l <= low b)%Q) /\
    r = (h - l)%Q.
Proof.
  unfold identify_consolidation.
  destruct (i <? consolidation_periods cfg); [discriminate |].
  remember (iloc_slice df (i - consolidation_periods cfg) i) as w eqn:Hw.
  destruct w as [| x w']; [simpl; discriminate |].
  assert (Hne : x :: w' <> []) by discriminate.
  destruct (Windows.series_max_spec high (x :: w') Hne) as [hm [Hmax [Hub _]]].
  destruct (Windows.series_min_spec low (x :: w') Hne) as [lm [Hmin [Hlb _]]].
  rewrite Hmax, Hmin. simpl. intros [= _ <- <- <-].
  exists (x :: w'). split; [exact Hne |]. split; [| auto].
  intros b Hb. rewrite Hw in Hb. apply iloc_slice_In in Hb. exact Hb.
Qed.

Lemma record_of_well_recorded (cfg : Config) (st : State) (t : OpenTrade)
    (p : Q) (tm : Z) (reason : ExitReason) :
  (reason = TP /\ p = ot_take_profit t) \/
  (reason = SL /\ p = ot_stop_loss t) \/ reason = END_OF_DATA ->
  well_recorded cfg (record_of cfg st t p tm reason).
Proof.
  intros H. unfold well_recorded, record_of. simpl.
  repeat split.
  destruct H as [[-> ->] | [[-> ->] | ->]]; simpl; auto.
Qed.

(** The closed trades after an iteration: those before it, and the record
    of the trade the exit check closed, if it closed one. *)
Lemma loop_body_trades (cfg : Config) (df : list Bar) (st st' : State)
    (i : Z) (b : Bar) :
  consistent st -> iloc df i = Ok b -> loop_body cfg df st i = Ok st' ->
  (trades st' = trades st /\ balance st' = balance st /\
   (current_trade st' = current_trade st \/
    exists s h l r,
      in_position st = false /\
      identify_consolidation cfg df i
        = (true, Some (Fin h), Some (Fin l), Some (Fin r)) /\
      detect_breakout df i h l = Ok (Some s) /\
      current_trade st' =
        current_trade (entered_state cfg (record_equity st (time b)) s b r))) \/
  exists t p reason,
    in_position st = true /\ current_trade st = Some t /\
    ((reason = TP /\ p = ot_take_profit t) \/
     (reason = SL /\ p = ot_stop_loss t)) /\
    trades st' = trades st ++ [record_of cfg st t p (time b) reason] /\
    balance st' = tr_balance (record_of cfg st t p (time b) reason) /\
    (current_trade st' = None \/
     exists s h l r,
       identify_consolidation cfg df i
         = (true, Some (Fin h), Some (Fin l), Some (Fin r)) /\
       detect_breakout df i h l = Ok (Some s) /\
       current_trade st' =
         current_trade
           (entered_state cfg
              (record_equity (closed_state cfg st t p (time b) reason) (time b))
              s b r)).
Proof.
  intros Hc Hb Hbody.
  destruct (BasicTransitions.loop_body_inv cfg df st st' i b Hc Hb Hbody)
    as [st1 [Hexit Hentry]].
  apply BasicTransitions.entry_phase_inv in Hentry.
  destruct (BasicTransitions.exit_phase_inv cfg st st1 b Hc Hexit)
    as [[-> Hno] | [t [p [reason [Hin [Hcur [Hx ->]]]]]]].
  - left. destruct Hentry as [-> | [s [h [l [r [Hflat [_ [Hid [Hd ->]]]]]]]]].
    + simpl. auto.
    + simpl. split; [reflexivity |]. split; [reflexivity |].
      right. exists s, h, l, r. simpl in Hflat. auto.
  - right. exists t, p, reason. split; [exact Hin |]. split; [exact Hcur |].
    split; [exact (BasicTransitions.exit_reason_cases st b t p reason Hcur Hx) |].
    destruct Hentry as [-> | [s [h [l [r [_ [_ [Hid [Hd ->]]]]]]]]].
    + simpl. auto.
    + simpl. split; [reflexivity |]. split; [reflexivity |].
      right. exists s, h, l, r. auto.
Qed.

End BasicRecords.

(** X1. An open trade that has survived the bars [idxs] and meets a bar
    that reaches its stop but not its target is closed on that bar: the exit
    reason is SL, the exit price is the stop level, and the balance changes
    by [(stop_loss - entry_price) * lot_size * 100] for a BUY (the mirror
    image for a SELL). *)
Theorem stop_loss_closes_at_the_stop
    (cfg : Backtester.Config) (df : list Bar) (st : Backtester.State)
    (t : Backtester.OpenTrade) (idxs : list Z) (k : Z) (bar : Bar) :
  Backtester.in_position st = true ->
  Backtester.current_trade st = Some t ->
  Forall (fun j => exists b, iloc df j = Ok b /\ untouched t b) idxs ->
  iloc df k = Ok bar ->
  sl_touched t bar ->
  exists st' r,
    Backtester.for_loop cfg df (idxs ++ [k]) st = Ok st' /\
    Backtester.trades st' = Backtester.trades st ++ [r] /\
    Backtester.tr_exit_reason r = SL /\
    Backtester.tr_exit_price r = Backtester.ot_stop_loss t /\
    Backtester.tr_exit_time r = time bar /\
    Backtester.tr_profit r = (sl_points t * Backtester.lot_size cfg * 100)%Q /\
    (Backtester.balance st' == Backtester.balance st + Backtester.tr_profit r)%Q.
Proof.
  intros Hin Hcur Hall Hbar Hsl.
  destruct (BasicLifecycle.for_loop_hold cfg df t idxs st Hin Hcur Hall)
    as [st_k [Hloop [Hin_k [Hcur_k [Htr_k Hbal_k]]]]].
  pose proof (BasicRecords.exit_phase_sl cfg st_k t bar Hin_k Hcur_k Hsl)
    as Hexit.
  destruct (BasicLifecycle.entry_phase_ok cfg df k
              (Backtester.record_equity
                 (BasicDetail.closed_state cfg st_k t
                    (Backtester.ot_stop_loss t) (time bar) SL) (time bar))
              bar Hbar) as [st' [Hentry [Hb' [Ht' _]]]].
  exists st', (BasicDetail.record_of cfg st_k t (Backtester.ot_stop_loss t)
                 (time bar) SL).
  split.
  { rewrite BasicLifecycle.for_loop_app, Hloop. simpl.
    unfold Backtester.loop_body. rewrite Hbar. simpl. rewrite Hexit. simpl.
    rewrite Hentry. reflexivity. }
  split; [rewrite Ht'; simpl; rewrite Htr_k; reflexivity |].
  do 3 (split; [reflexivity |]).
  split; [unfold sl_points; simpl; destruct (Backtester.ot_type t); reflexivity |].
  rewrite Hb'. simpl. rewrite Hbal_k. apply Qeq_refl.
Qed.

Lemma stop_loss_closes_at_the_stop_witness :
  exists st' r,
    Backtester.for_loop basic_defaults falling_frame ([1] ++ [2]) holding_long
      = Ok st' /\
    Backtester.trades st' = [] ++ [r] /\
    Backtester.tr_exit_reason r = SL /\
    Backtester.tr_exit_price r = 95%Q /\
    Backtester.tr_exit_time r = 120 /\
    Backtester.tr_profit r = ((95 - 100) * 0.01 * 100)%Q /\
    (Backtester.balance st' == 10000 + Backtester.tr_profit r)%Q.
Proof.
  apply (stop_loss_closes_at_the_stop basic_defaults falling_frame
           holding_long long_trade [1] 2 falling_bar).
  - reflexivity.
  - reflexivity.
  - constructor; [| constructor].
    exists (bar_at 60 105 98 101). split; [reflexivity |].
    split; reflexivity.
  - reflexivity.
  - split; [reflexivity | unfold Qle; simpl; lia].
Defined.

(** ** Facts about whole runs of the basic engine *)

Module BasicFacts.

(** The state a run returns is flat and its records are consistent; only
    the last record can be the forced close. *)
Lemma run_records
    (cfg : Backtester.Config) (df : list Bar) (s e : option Z)
    (st : Backtester.State) :
  Backtester.run_state cfg df s e = Ok st ->
  Backtester.in_position st = false /\
  Backtester.current_trade st = None /\
  Forall (BasicDetail.well_recorded cfg) (Backtester.trades st) /\
  (forall l r l',
     Backtester.trades st = l ++ r :: l' -> l' <> [] ->
     Backtester.tr_exit_reason r <> END_OF_DATA) /\
  (forall l r,
     Backtester.trades st = l ++ [r] ->
     Backtester.tr_exit_reason r = END_OF_DATA ->
     exists be,
       iloc df (default (len df) e - 1) = Ok be /\
       Backtester.tr_exit_price r = close be /\
       Backtester.tr_exit_time r = time be).
Proof.
  intros Hrun.
  destruct (BasicTransitions.run_keeps cfg df s e
              (fun _ st =>
                 Forall (fun r => BasicDetail.well_recorded cfg r /\
                                  Backtester.tr_exit_reason r <> END_OF_DATA)
                        (Backtester.trades st)) st)
    as [st_loop [be [He [Hc [HI Hcases]]]]].
  - constructor.
  - intros done i rest st0 b st0' _ Hb Hc0 HI Hbody.
    destruct (BasicRecords.loop_body_trades cfg df st0 st0' i b Hc0 Hb Hbody)
      as [[Htr _] | [t [p [reason [_ [_ [Hreason [Htr _]]]]]]]].
    + rewrite Htr. exact HI.
    + rewrite Htr. apply Forall_app. split; [exact HI |].
      constructor; [| constructor]. split.
      * apply BasicRecords.record_of_well_recorded.
        destruct Hreason as [H | H]; auto.
      * simpl. destruct Hreason as [[-> _] | [-> _]]; discriminate.
  - exact Hrun.
  - assert (Hwr : Forall (BasicDetail.well_recorded cfg)
                         (Backtester.trades st_loop)).
    { eapply List.Forall_impl; [| exact HI]. intros r [H _]. exact H. }
    destruct Hcases as [[-> Hflat] | [t [Hin [Hcur ->]]]].
    + unfold BasicStep.consistent in Hc. rewrite Hflat in Hc.
      split; [exact Hflat |]. split; [exact Hc |]. split; [exact Hwr |].
      rewrite List.Forall_forall in HI. split.
      * intros l r l' Hsplit _. apply HI. rewrite Hsplit.
        apply in_or_app. right. left. reflexivity.
      * intros l r Hsplit Hend. exfalso.
        apply (proj2 (HI r ltac:(rewrite Hsplit; apply in_or_app; right;
                                  left; reflexivity))). exact Hend.
    + simpl. split; [reflexivity |]. split; [reflexivity |]. split.
      * apply Forall_app. split; [exact Hwr |].
        constructor; [| constructor].
        apply BasicRecords.record_of_well_recorded. auto.
      * rewrite List.Forall_forall in HI. split.
        -- intros l r l' Hsplit Hne.
           destruct (exists_last Hne) as [l'' [r' Hl']]. subst l'.
           change (l ++ r :: l'' ++ [r']) with (l ++ (r :: l'') ++ [r'])
             in Hsplit.
           rewrite app_assoc in Hsplit. apply app_inj_tail in Hsplit.
           destruct Hsplit as [Hsplit _]. apply HI. rewrite Hsplit.
           apply in_or_app. right. left. reflexivity.
        -- intros l r Hsplit _. apply app_inj_tail in Hsplit.
           destruct Hsplit as [_ <-]. exists be. simpl. auto.
Qed.


End BasicFacts.

(** X2. After every run that returns, the engine holds no position, and
    every record of [self.trades] is consistent: its points are the signed
    distance from entry to exit, its profit is [points * lot_size * 100], its
    win flag says whether the profit is positive, a TP record left at the
    take-profit level and an SL record at the stop level. Only the last
    record can be a forced close, and it left at the close and the time of
    the last replayed bar. *)
Theorem recorded_trades_are_consistent
    (cfg : Backtester.Config) (df : list Bar) (s e : option Z)
    (st : Backtester.State) :
  Backtester.run_state cfg df s e = Ok st ->
  Backtester.in_position st = false /\
  Backtester.current_trade st = None /\
  Forall (BasicDetail.well_recorded cfg) (Backtester.trades st) /\
  (forall l r l',
     Backtester.trades st = l ++ r :: l' -> l' <> [] ->
     Backtester.tr_exit_reason r <> END_OF_DATA) /\
  (forall l r,
     Backtester.trades st = l ++ [r] ->
     Backtester.tr_exit_reason r = END_OF_DATA ->
     exists be,
       iloc df (default (len df) e - 1) = Ok be /\
       Backtester.tr_exit_price r = close be /\
       Backtester.tr_exit_time r = time be).
Proof. exact (BasicFacts.run_records cfg df s e st). Qed.

Lemma recorded_trades_are_consistent_witness :
  exists st,
    Backtester.run_state (capped 5) breakout_frame None None = Ok st /\
    Backtester.in_position st = false /\
    Forall (BasicDetail.well_recorded (capped 5)) (Backtester.trades st).
Proof.
  destruct (Backtester.run_state (capped 5) breakout_frame None None)
    as [st |] eqn:Hrun; [| vm_compute in Hrun; discriminate].
  destruct (recorded_trades_are_consistent (capped 5) breakout_frame None None
              st Hrun) as [Hflat [_ [Hwr _]]].
  exists st. auto.
Defined.

(** ** Balances and levels along a run of the basic engine *)

Module BasicLedger.

Import Backtester BasicStep BasicDetail.

Lemma running_snoc (cfg : Config) (l : list TradeRecord) (bal : Q)
    (r : TradeRecord) :
  (bal == booked cfg l)%Q ->
  (forall k r0, nth_error l k = Some r0 ->
     (tr_balance r0 == booked cfg (firstn (S k) l))%Q) ->
  (tr_balance r == bal + tr_profit r)%Q ->
  (tr_balance r == booked cfg (l ++ [r]))%Q /\
  forall k r0, nth_error (l ++ [r]) k = Some r0 ->
    (tr_balance r0 == booked cfg (firstn (S k) (l ++ [r])))%Q.
Proof.
  intros Hbal Hrun Hr.
  assert (Hlast : (tr_balance r == booked cfg (l ++ [r]))%Q).
  { rewrite Books.booked_snoc, Hr, Hbal. reflexivity. }
  split; [exact Hlast |].
  intros k r0 Hk.
  destruct (Nat.lt_ge_cases k (length l)) as [Hlt | Hge].
  - rewrite nth_error_app1 in Hk by exact Hlt.
    rewrite firstn_app.
    replace (S k - length l)%nat with 0%nat by lia.
    simpl. rewrite app_nil_r. apply Hrun. exact Hk.
  - rewrite nth_error_app2 in Hk by exact Hge.
    destruct (k - length l)%nat as [| n] eqn:E.
    + simpl in Hk. injection Hk as <-.
      rewrite firstn_all2 by (rewrite length_app; simpl; lia).
      exact Hlast.
    + simpl in Hk. destruct n; discriminate.
Qed.

Lemma run_running (cfg : Config) (df : list Bar) (s e : option Z)
    (st : State) :
  run_state cfg df s e = Ok st -> running cfg st.
Proof.
  intros Hrun.
  destruct (BasicTransitions.run_keeps cfg df s e
              (fun _ st => running cfg st) st)
    as [st_loop [be [_ [_ [HI Hcases]]]]].
  - split; [unfold booked, Qsum; simpl; ring |].
    intros k r H. destruct k; discriminate.
  - intros done i rest st0 b st0' _ Hb Hc0 [Hbal Hrec] Hbody.
    destruct (BasicRecords.loop_body_trades cfg df st0 st0' i b Hc0 Hb Hbody)
      as [[Htr [Hb' _]] | [t [p [reason [_ [_ [_ [Htr [Hb' _]]]]]]]]].
    + unfold running. rewrite Htr, Hb'. auto.
    + unfold running. rewrite Htr, Hb'.
      apply (running_snoc cfg (trades st0) (balance st0)); auto.
      simpl. reflexivity.
  - exact Hrun.
  - destruct Hcases as [[-> _] | [t [_ [_ ->]]]]; [exact HI |].
    destruct HI as [Hbal Hrec].
    exact (running_snoc cfg (trades st_loop) (balance st_loop)
             (record_of cfg st_loop t (close be) (time be) END_OF_DATA)
             Hbal Hrec (Qeq_refl _)).
Qed.

Lemma get_results_balances (cfg : Config) (st : State) (res : Results) :
  get_results cfg st = Ok res ->
  final_balance res = balance st /\
  res_initial_balance res = initial_balance cfg.
Proof.
  unfold get_results.
  destruct (len (trades st) =? 0); [intros [= <-]; auto |].
  destruct (equity_curve st); [discriminate |].
  intros [= <-]. auto.
Qed.

(** A property of the levels of every entry is a property of the levels of
    every record. *)
Lemma run_levels (cfg : Config) (df : list Bar) (s e : option Z)
    (st : State) (P : Side -> Q -> Q -> Q -> Prop) :
  (forall i b sg h l r,
     iloc df i = Ok b ->
     identify_consolidation cfg df i
       = (true, Some (Fin h), Some (Fin l), Some (Fin r)) ->
     P sg (close b) (fst (calculate_tp_sl cfg (close b) sg r))
       (snd (calculate_tp_sl cfg (close b) sg r))) ->
  run_state cfg df s e = Ok st ->
  Forall (fun r => P (tr_type r) (tr_entry_price r) (tr_take_profit r)
                     (tr_stop_loss r)) (trades st).
Proof.
  intros HP Hrun.
  destruct (BasicTransitions.run_keeps cfg df s e
              (fun _ st =>
                 Forall (fun r => P (tr_type r) (tr_entry_price r)
                                    (tr_take_profit r) (tr_stop_loss r))
                        (trades st) /\
                 forall t, current_trade st = Some t ->
                   P (ot_type t) (ot_entry_price t) (ot_take_profit t)
                     (ot_stop_loss t)) st)
    as [st_loop [be [_ [_ [[Hrec Hopen] Hcases]]]]].
  - split; [constructor | discriminate].
  - intros done i rest st0 b st0' _ Hb Hc0 [Hrec Hopen] Hbody.
    destruct (BasicRecords.loop_body_trades cfg df st0 st0' i b Hc0 Hb Hbody)
      as [[Htr [_ Hcur]] | [t [p [reason [_ [Hcur0 [_ [Htr [_ Hcur]]]]]]]]].
    + rewrite Htr. split; [exact Hrec |].
      destruct Hcur as [-> | [sg [h [l [r [_ [Hid [_ ->]]]]]]]];
        [exact Hopen |].
      simpl. intros t [= <-]. simpl. apply (HP i b sg h l r Hb Hid).
    + rewrite Htr. split.
      * apply Forall_app. split; [exact Hrec |].
        constructor; [| constructor]. simpl. apply Hopen. exact Hcur0.
      * destruct Hcur as [-> | [sg [h [l [r [Hid [_ ->]]]]]]];
          [discriminate |].
        simpl. intros t' [= <-]. simpl. apply (HP i b sg h l r Hb Hid).
  - exact Hrun.
  - destruct Hcases as [[-> _] | [t [_ [Hcur ->]]]]; [exact Hrec |].
    simpl. apply Forall_app. split; [exact Hrec |].
    constructor; [| constructor]. simpl. apply Hopen. exact Hcur.
Qed.

Lemma iloc_In {A : Type} (l : list A) (i : Z) (a : A) :
  iloc l i = Ok a -> In a l.
Proof.
  unfold iloc.
  destruct ((0 <=? (if i <? 0 then i + len l else i)) &&
            ((if i <? 0 then i + len l else i) <? len l)); [| discriminate].
  destruct (nth_error l _) eqn:E; [| discriminate].
  intros [= <-]. apply nth_error_In in E. exact E.
Qed.

(** On bars whose low is not above their high, the range of a
    consolidating box is not negative. *)
Lemma box_range_nonneg (cfg : Config) (df : list Bar) (i : Z) (h l r : Q) :
  (forall b, In b df -> (low b <= high b)%Q) ->
  identify_consolidation cfg df i
    = (true, Some (Fin h), Some (Fin l), Some (Fin r)) ->
  (0 <= r)%Q.
Proof.
  intros Hwf Hid.
  destruct (BasicRecords.consolidating_box_spec cfg df i h l r Hid)
    as [w [Hne [Hin [Hub [Hlb ->]]]]].
  destruct w as [| x w]; [congruence |].
  assert (Hx : In x (x :: w)) by (left; reflexivity).
  specialize (Hub x Hx). specialize (Hlb x Hx).
  specialize (Hwf x (Hin x Hx)). lra.
Qed.

End BasicLedger.

(** X3. After every run that returns, the balance of the engine is the
    initial balance plus the profits of all recorded trades, the forced
    close included; every record's balance field is the initial balance
    plus the profits of the records up to and including itself; and the
    final balance that [get_results] reports is that balance. *)
Theorem balance_is_initial_plus_profits
    (cfg : Backtester.Config) (df : list Bar) (s e : option Z)
    (st : Backtester.State) :
  Backtester.run_state cfg df s e = Ok st ->
  (Backtester.balance st == booked cfg (Backtester.trades st))%Q /\
  (forall k r,
     nth_error (Backtester.trades st) k = Some r ->
     (Backtester.tr_balance r
        == booked cfg (firstn (S k) (Backtester.trades st)))%Q) /\
  exists res,
    Backtester.get_results cfg st = Ok res /\
    (Backtester.final_balance res == booked cfg (Backtester.trades st))%Q.
Proof.
  intros Hrun.
  destruct (BasicLedger.run_running cfg df s e st Hrun) as [Hbal Hrec].
  split; [exact Hbal |]. split; [exact Hrec |].
  destruct (BasicRun.results_after_run cfg df s e st Hrun) as [res [Hres _]].
  exists res. split; [exact Hres |].
  destruct (BasicLedger.get_results_balances cfg st res Hres) as [-> _].
  exact Hbal.
Qed.

Lemma balance_is_initial_plus_profits_witness :
  exists st,
    Backtester.run_state (capped 2) two_signal_frame None None = Ok st /\
    (Backtester.balance st == booked (capped 2) (Backtester.trades st))%Q.
Proof.
  destruct (Backtester.run_state (capped 2) two_signal_frame None None)
    as [st |] eqn:Hrun; [| vm_compute in Hrun; discriminate].
  exists st. split; [reflexivity |].
  apply (balance_is_initial_plus_profits (capped 2) two_signal_frame None None
           st Hrun).
Defined.

(** X4. After every run that returns, each recorded trade carries the
    levels the box calculator returned when the trade was entered: it was
    entered at the close of a bar at which the detector reported a box, and
    its target and stop are what [calculate_tp_sl] gives for that close and
    the range of that box. In the calculator's own order of operations the
    target is the entry plus the risk times the risk:reward ratio [k], the
    risk being the entry minus the stop, for a BUY
    ([take_profit = entry + (entry - stop_loss) * k]), and the entry minus
    [(stop_loss - entry) * k] for a SELL. *)
Theorem recorded_levels_keep_risk_reward
    (cfg : Backtester.Config) (df : list Bar) (s e : option Z)
    (st : Backtester.State) :
  Backtester.run_state cfg df s e = Ok st ->
  Forall (fun r =>
            BasicDetail.levels_from_box cfg (Backtester.tr_type r)
              (Backtester.tr_entry_price r) (Backtester.tr_take_profit r)
              (Backtester.tr_stop_loss r) /\
            (exists i b h l box_range,
               iloc df i = Ok b /\
               Backtester.identify_consolidation cfg df i
                 = (true, Some (Fin h), Some (Fin l), Some (Fin box_range)) /\
               Backtester.tr_entry_price r = close b /\
               (Backtester.tr_take_profit r, Backtester.tr_stop_loss r)
               = Backtester.calculate_tp_sl cfg (close b)
                   (Backtester.tr_type r) box_range) /\
            match Backtester.tr_type r with
            | BUY =>
                Backtester.tr_take_profit r
                = (Backtester.tr_entry_price r
                   + (Backtester.tr_entry_price r - Backtester.tr_stop_loss r)
                     * Backtester.risk_reward_ratio cfg)%Q
            | SELL =>
                Backtester.tr_take_profit r
                = (Backtester.tr_entry_price r
                   - (Backtester.tr_stop_loss r - Backtester.tr_entry_price r)
                     * Backtester.risk_reward_ratio cfg)%Q
            end)
         (Backtester.trades st).
Proof.
  intros Hrun.
  apply (BasicLedger.run_levels cfg df s e st
           (fun sg entry tp sl =>
              BasicDetail.levels_from_box cfg sg entry tp sl /\
              (exists i b h l box_range,
                 iloc df i = Ok b /\
                 Backtester.identify_consolidation cfg df i
                   = (true, Some (Fin h), Some (Fin l), Some (Fin box_range)) /\
                 entry = close b /\
                 (tp, sl) = Backtester.calculate_tp_sl cfg (close b) sg
                              box_range) /\
              match sg with
              | BUY =>
                  tp = (entry + (entry - sl)
                                * Backtester.risk_reward_ratio cfg)%Q
              | SELL =>
                  tp = (entry - (sl - entry)
                                * Backtester.risk_reward_ratio cfg)%Q
              end)); [| exact Hrun].
  intros i b sg h l r Hb Hid. split; [| split].
  - exists r. destruct (Backtester.calculate_tp_sl cfg (close b) sg r).
    reflexivity.
  - exists i, b, h, l, r. split; [exact Hb |]. split; [exact Hid |].
    split; [reflexivity |].
    destruct (Backtester.calculate_tp_sl cfg (close b) sg r). reflexivity.
  - destruct sg; reflexivity.
Qed.

Lemma recorded_levels_keep_risk_reward_witness :
  exists st,
    Backtester.run_state (capped 2) two_signal_frame None None = Ok st /\
    Forall (fun r =>
              Backtester.tr_take_profit r
              = (Backtester.tr_entry_price r
                 + (Backtester.tr_entry_price r - Backtester.tr_stop_loss r)
                   * 2)%Q)
           (Backtester.trades st).
Proof.
  destruct (Backtester.run_state (capped 2) two_signal_frame None None)
    as [st |] eqn:Hrun; [| vm_compute in Hrun; discriminate].
  exists st. split; [reflexivity |].
  pose proof (recorded_levels_keep_risk_reward (capped 2) two_signal_frame
                None None st Hrun) as H.
  assert (Hbuy : Forall (fun r => Backtester.tr_type r = BUY)
                        (Backtester.trades st)).
  { vm_compute in Hrun. injection Hrun as <-. repeat constructor. }
  rewrite List.Forall_forall in *. intros r Hr.
  specialize (H r Hr). specialize (Hbuy r Hr). destruct H as [_ [_ H]].
  rewrite Hbuy in H. exact H.
Defined.

(** X5. On bars whose low is not above their high, with a risk:reward
    ratio and a lot size that are not negative, every recorded trade has its
    stop on the losing side of the entry price and its target on the
    winning side; a trade that left at its target did not lose and a trade
    that left at its stop did not win. *)
Theorem target_exits_gain_and_stop_exits_lose
    (cfg : Backtester.Config) (df : list Bar) (s e : option Z)
    (st : Backtester.State) :
  (forall b, In b df -> (low b <= high b)%Q) ->
  (0 <= Backtester.risk_reward_ratio cfg)%Q ->
  (0 <= Backtester.lot_size cfg)%Q ->
  Backtester.run_state cfg df s e = Ok st ->
  Forall (fun r =>
            match Backtester.tr_type r with
            | BUY =>
                (Backtester.tr_stop_loss r <= Backtester.tr_entry_price r)%Q /\
                (Backtester.tr_entry_price r <= Backtester.tr_take_profit r)%Q
            | SELL =>
                (Backtester.tr_take_profit r <= Backtester.tr_entry_price r)%Q /\
                (Backtester.tr_entry_price r <= Backtester.tr_stop_loss r)%Q
            end /\
            (Backtester.tr_exit_reason r = TP ->
             (0 <= Backtester.tr_profit r)%Q) /\
            (Backtester.tr_exit_reason r = SL ->
             (Backtester.tr_profit r <= 0)%Q /\ Backtester.tr_win r = false))
         (Backtester.trades st).
Proof.
  intros Hwf Hk Hlot Hrun.
  pose proof (BasicLedger.run_levels cfg df s e st
                (fun sg entry tp sl =>
                   match sg with
                   | BUY => (sl <= entry)%Q /\ (entry <= tp)%Q
                   | SELL => (tp <= entry)%Q /\ (entry <= sl)%Q
                   end)) as Hsides.
  assert (Hs : Forall (fun r =>
                 match Backtester.tr_type r with
                 | BUY =>
                     (Backtester.tr_stop_loss r <= Backtester.tr_entry_price r)%Q /\
                     (Backtester.tr_entry_price r <= Backtester.tr_take_profit r)%Q
                 | SELL =>
                     (Backtester.tr_take_profit r <= Backtester.tr_entry_price r)%Q /\
                     (Backtester.tr_entry_price r <= Backtester.tr_stop_loss r)%Q
                 end) (Backtester.trades st)).
  { apply Hsides; [| exact Hrun].
    intros i b sg h l r _ Hid.
    pose proof (BasicLedger.box_range_nonneg cfg df i h l r Hwf Hid) as Hr.
    destruct sg; simpl; split; nra. }
  destruct (BasicFacts.run_records cfg df s e st Hrun) as [_ [_ [Hwr _]]].
  rewrite List.Forall_forall in *. intros r Hr.
  specialize (Hs r Hr). specialize (Hwr r Hr).
  destruct Hwr as [Hpts [Hprofit [Hwin Hexit]]].
  split; [exact Hs |].
  assert (Hsign : forall p : Q,
            (Backtester.tr_points r = p) ->
            ((0 <= p)%Q -> (0 <= Backtester.tr_profit r)%Q) /\
            ((p <= 0)%Q -> (Backtester.tr_profit r <= 0)%Q)).
  { intros p Hp. rewrite Hprofit, Hp. split; intros H; nra. }
  split.
  - intros Hreason. rewrite Hreason in Hexit.
    apply (Hsign _ Hpts). rewrite Hexit.
    destruct (Backtester.tr_type r); lra.
  - intros Hreason. rewrite Hreason in Hexit.
    assert (Hle : (Backtester.tr_profit r <= 0)%Q).
    { apply (Hsign _ Hpts). rewrite Hexit.
      destruct (Backtester.tr_type r); lra. }
    split; [exact Hle |]. rewrite Hwin. unfold Qgtb.
    apply negb_false_iff. apply Qle_bool_iff. exact Hle.
Qed.

Lemma target_exits_gain_and_stop_exits_lose_witness :
  exists st,
    Backtester.run_state (capped 2) two_signal_frame None None = Ok st /\
    Forall (fun r =>
              Backtester.tr_exit_reason r = TP ->
              (0 <= Backtester.tr_profit r)%Q)
           (Backtester.trades st).
Proof.
  destruct (Backtester.run_state (capped 2) two_signal_frame None None)
    as [st |] eqn:Hrun; [| vm_compute in Hrun; discriminate].
  exists st. split; [reflexivity |].
  pose proof (target_exits_gain_and_stop_exits_lose (capped 2)
                two_signal_frame None None st) as H.
  eapply List.Forall_impl; [| apply H].
  - intros r [_ [Htp _]]. exact Htp.
  - intros b Hb. simpl in Hb.
    repeat (destruct Hb as [<- | Hb]; [unfold Qle; simpl; lia |]).
    destruct Hb.
  - discriminate.
  - discriminate.
  - exact Hrun.
Defined.

(** ** The aggregator of the basic engine *)

Module BasicResults.

Import Backtester BasicStep BasicDetail.

Lemma filter_len_partition {A : Type} (p : A -> bool) (l : list A) :
  len (List.filter p l) + len (List.filter (fun x => negb (p x)) l) = len l.
Proof.
  unfold len. induction l as [| x l IH]; simpl; [reflexivity |].
  destruct (p x); simpl; lia.
Qed.

Lemma Qsum_partition {A : Type} (f : A -> Q) (p : A -> bool) (l : list A) :
  (Qsum (map f (List.filter p l))
   + Qsum (map f (List.filter (fun x => negb (p x)) l))
   == Qsum (map f l))%Q.
Proof.
  unfold Qsum. induction l as [| x l IH]; simpl; [ring |].
  destruct (p x); simpl; rewrite <- IH; ring.
Qed.

Lemma Qsum_nonneg (l : list Q) :
  Forall (fun x => (0 <= x)%Q) l -> (0 <= Qsum l)%Q.
Proof.
  unfold Qsum. induction 1 as [| x l Hx _ IH]; simpl; [apply Qle_refl | lra].
Qed.

Lemma Qsum_nonpos (l : list Q) :
  Forall (fun x => (x <= 0)%Q) l -> (Qsum l <= 0)%Q.
Proof.
  unfold Qsum. induction 1 as [| x l Hx _ IH]; simpl; [apply Qle_refl | lra].
Qed.

Lemma guarded_sum {A : Type} (f : A -> Q) (l : list A) :
  (if 0 <? len l then Qsum (map f l) else 0%Q) = Qsum (map f l).
Proof. destruct l; reflexivity. Qed.

Lemma guarded_abs {A : Type} (f : A -> Q) (l : list A) :
  (if 0 <? len l then Qabs (Qsum (map f l)) else 0%Q)
  = Qabs (Qsum (map f l)).
Proof. destruct l; reflexivity. Qed.

Lemma percentage_bounds (a b : Z) :
  0 <= a <= b -> 0 < b ->
  (0 <= inject_Z a / inject_Z b * 100 <= 100)%Q.
Proof.
  intros Hab Hb.
  assert (Hb' : (0 < inject_Z b)%Q)
    by (change (inject_Z 0 < inject_Z b)%Q; rewrite <- Zlt_Qlt; exact Hb).
  assert (Ha' : (0 <= inject_Z a)%Q)
    by (change (inject_Z 0 <= inject_Z a)%Q; rewrite <- Zle_Qle; lia).
  assert (Hle : (inject_Z a <= inject_Z b)%Q) by (rewrite <- Zle_Qle; lia).
  assert (H1 : (0 <= inject_Z a / inject_Z b)%Q).
  { apply Qle_shift_div_l; [exact Hb' | lra]. }
  assert (H2 : (inject_Z a / inject_Z b <= 1)%Q).
  { apply Qle_shift_div_r; [exact Hb' | lra]. }
  split; lra.
Qed.

(** The largest drawdown of a non-empty balance series is not negative:
    the series starts at its own peak. *)
Lemma max_drawdown_nonneg (x : Q) (l : list Q) :
  exists m,
    series_max (zip_with Qminus (cummax (x :: l)) (x :: l)) = Fin m /\
    (0 <= m)%Q.
Proof.
  exists (list_max (x - x)%Q (zip_with Qminus (cummax_from x l) l)).
  split; [reflexivity |].
  destruct (Windows.list_max_spec
              (zip_with Qminus (cummax_from x l) l) (x - x)%Q) as [Hub _].
  specialize (Hub (x - x)%Q ltac:(left; reflexivity)).
  eapply Qle_trans; [| exact Hub]. lra.
Qed.

(** The figures [get_results] derives from a list of consistent records. *)
Lemma get_results_figures (cfg : Config) (st : State) (res : Results) :
  Forall (well_recorded cfg) (trades st) ->
  get_results cfg st = Ok res ->
  total_trades res = len (trades st) /\
  winning_trades res + losing_trades res = total_trades res /\
  (0 <= win_rate res <= 100)%Q /\
  (0 <= total_profit res)%Q /\
  (0 <= total_loss res)%Q /\
  (net_profit res == total_profit res - total_loss res)%Q /\
  exists m, max_drawdown res = Fin m /\ (0 <= m)%Q.
Proof.
  intros Hwr. unfold get_results.
  destruct (len (trades st) =? 0) eqn:Hlen.
  - intros [= <-]. simpl.
    assert (Hnil : trades st = []).
    { destruct (trades st); [reflexivity | unfold len in Hlen; simpl in Hlen; lia]. }
    rewrite Hnil. unfold len, Qsum. simpl.
    repeat split; try lra; try lia. exists 0%Q. split; [reflexivity | lra].
  - destruct (equity_curve st) as [| smp curve] eqn:Hcurve; [discriminate |].
    intros [= <-]. simpl.
    pose proof (filter_len_partition (fun t => tr_win t) (trades st)) as Hpart.
    cbv beta in Hpart.
    remember (List.filter (fun t => tr_win t) (trades st)) as winning
      eqn:Hwinning.
    remember (List.filter (fun t => negb (tr_win t)) (trades st)) as losing
      eqn:Hlosing.
    assert (Hwins : Forall (fun x => (0 <= x)%Q) (map tr_profit winning)).
    { apply List.Forall_forall. intros x Hx. apply in_map_iff in Hx.
      destruct Hx as [r [<- Hr]]. rewrite Hwinning in Hr.
      apply List.filter_In in Hr.
      destruct Hr as [Hr Hw]. rewrite List.Forall_forall in Hwr.
      destruct (Hwr r Hr) as [_ [_ [Hwin _]]].
      rewrite Hwin in Hw. apply Qgtb_gt in Hw. lra. }
    assert (Hlosses : Forall (fun x => (x <= 0)%Q) (map tr_profit losing)).
    { apply List.Forall_forall. intros x Hx. apply in_map_iff in Hx.
      destruct Hx as [r [<- Hr]]. rewrite Hlosing in Hr.
      apply List.filter_In in Hr.
      destruct Hr as [Hr Hw]. rewrite List.Forall_forall in Hwr.
      destruct (Hwr r Hr) as [_ [_ [Hwin _]]].
      rewrite Hwin in Hw. unfold Qgtb in Hw. rewrite negb_involutive in Hw.
      apply Qle_bool_iff in Hw. exact Hw. }
    apply Qsum_nonneg in Hwins. apply Qsum_nonpos in Hlosses.
    rewrite !guarded_sum, !guarded_abs.
    assert (Hpos : 0 < len (trades st)) by (unfold len in *; lia).
    assert (Hw0 : 0 <= len winning) by (unfold len; lia).
    assert (Hl0 : 0 <= len losing) by (unfold len; lia).
    split; [reflexivity |]. split; [exact Hpart |].
    split.
    { replace (0 <? len (trades st)) with true by lia.
      apply percentage_bounds; lia. }
    split; [exact Hwins |].
    split; [apply Qabs_nonneg |].
    split; [apply Qeq_refl |].
    apply (max_drawdown_nonneg (eq_balance smp) (map eq_balance curve)).
Qed.

End BasicResults.

(** X6. After every run that returns, the figures of [get_results] are
    consistent: the winning and losing trades add up to the total, the win
    rate lies in [0, 100], gross profit and gross loss are not negative, the
    net profit is the gross profit minus the gross loss, and the largest
    drawdown is not negative. *)
Theorem results_figures_are_consistent
    (cfg : Backtester.Config) (df : list Bar) (s e : option Z)
    (st : Backtester.State) (res : Backtester.Results) :
  Backtester.run_state cfg df s e = Ok st ->
  Backtester.get_results cfg st = Ok res ->
  Backtester.total_trades res = len (Backtester.trades st) /\
  Backtester.winning_trades res + Backtester.losing_trades res
    = Backtester.total_trades res /\
  (0 <= Backtester.win_rate res <= 100)%Q /\
  (0 <= Backtester.total_profit res)%Q /\
  (0 <= Backtester.total_loss res)%Q /\
  (Backtester.net_profit res
     == Backtester.total_profit res - Backtester.total_loss res)%Q /\
  exists m, Backtester.max_drawdown res = Fin m /\ (0 <= m)%Q.
Proof.
  intros Hrun Hres.
  destruct (BasicFacts.run_records cfg df s e st Hrun) as [_ [_ [Hwr _]]].
  exact (BasicResults.get_results_figures cfg st res Hwr Hres).
Qed.

Lemma results_figures_are_consistent_witness :
  exists st res,
    Backtester.run_backtest (capped 2) two_signal_frame None None
      = Ok (st, res) /\
    Backtester.winning_trades res + Backtester.losing_trades res
      = Backtester.total_trades res /\
    (0 <= Backtester.win_rate res <= 100)%Q /\
    (0 <= Backtester.total_profit res)%Q.
Proof.
  destruct (Backtester.run_state (capped 2) two_signal_frame None None)
    as [st |] eqn:Hrun; [| vm_compute in Hrun; discriminate].
  destruct (Backtester.get_results (capped 2) st) as [res |] eqn:Hres.
  - exists st, res. split.
    + unfold Backtester.run_backtest. rewrite Hrun. simpl. rewrite Hres.
      reflexivity.
    + destruct (results_figures_are_consistent (capped 2) two_signal_frame
                  None None st res Hrun Hres) as [_ [H2 [H3 [H4 _]]]].
      auto.
  - exfalso. vm_compute in Hrun. injection Hrun as <-.
    vm_compute in Hres. discriminate.
Defined.

(** ** A series without movement *)

Module FlatSeries.

Import Backtester BasicStep BasicDetail.

(** When the close of the current bar lies within the box, there is no
    signal. *)
Lemma detect_breakout_inside (df : list Bar) (i : Z) (h l : Q) (b : Bar) :
  iloc df i = Ok b -> (l <= close b)%Q -> (close b <= h)%Q ->
  detect_breakout df i h l = Ok None.
Proof.
  intros Hb Hl Hh. unfold detect_breakout.
  destruct (i <? 1) eqn:Hi; [reflexivity |].
  rewrite Hb. simpl.
  destruct (iloc_pred_ok df i b Hb) as [p Hp]; [lia |].
  rewrite Hp. simpl.
  assert (H1 : Qgtb (close b) h = false).
  { unfold Qgtb. apply negb_false_iff. apply Qle_bool_iff. exact Hh. }
  assert (H2 : Qltb (close b) l = false).
  { unfold Qltb. apply negb_false_iff. apply Qle_bool_iff. exact Hl. }
  rewrite H1, H2, !andb_false_r. reflexivity.
Qed.

Lemma idle_step (cfg : Config) (df : list Bar) (c : Q) (st st' : State)
    (i : Z) (b : Bar) :
  (forall x, In x df ->
     (close x == c)%Q /\ (low x <= close x)%Q /\ (close x <= high x)%Q) ->
  iloc df i = Ok b -> consistent st -> idle cfg st ->
  loop_body cfg df st i = Ok st' -> idle cfg st'.
Proof.
  intros Hflat Hb Hc [Htr [Hin [Hcur [Hbal [Hday Hcurve]]]]] Hbody.
  destruct (BasicTransitions.loop_body_inv cfg df st st' i b Hc Hb Hbody)
    as [st1 [Hexit Hentry]].
  assert (Hst1 : st1 = st).
  { unfold exit_phase in Hexit. rewrite Hin in Hexit. congruence. }
  subst st1.
  assert (Hrec : idle cfg (record_equity st (time b))).
  { unfold idle. simpl. repeat (split; [assumption |]).
    apply Forall_app. split; [exact Hcurve |].
    constructor; [| constructor]. simpl. auto. }
  apply BasicTransitions.entry_phase_inv in Hentry.
  destruct Hentry as [-> | [sg [h [l [r [_ [_ [Hid [Hd _]]]]]]]]];
    [exact Hrec |].
  exfalso.
  destruct (BasicRecords.consolidating_box_spec cfg df i h l r Hid)
    as [w [Hne [Hw [Hub [Hlb _]]]]].
  destruct w as [| x w]; [congruence |].
  assert (Hx : In x (x :: w)) by (left; reflexivity).
  destruct (Hflat x (Hw x Hx)) as [Hcx [Hlx Hhx]].
  destruct (Hflat b (BasicLedger.iloc_In df i b Hb)) as [Hcb _].
  specialize (Hub x Hx). specialize (Hlb x Hx).
  rewrite (detect_breakout_inside df i h l b Hb) in Hd;
    [discriminate | lra | lra].
Qed.

End FlatSeries.

(** X7. On a series whose bars all close at the same price, between their
    low and their high, the engine never sees a breakout: a run that returns
    has no trade, no position, an untouched balance and daily counter, and
    an equity curve that shows the initial balance throughout; its results
    are those of a run without trades. *)
Theorem flat_series_never_trades
    (cfg : Backtester.Config) (df : list Bar) (c : Q) (s e : option Z)
    (st : Backtester.State) :
  (forall b, In b df ->
     (close b == c)%Q /\ (low b <= close b)%Q /\ (close b <= high b)%Q) ->
  Backtester.run_state cfg df s e = Ok st ->
  Backtester.trades st = [] /\
  Backtester.balance st = Backtester.initial_balance cfg /\
  Backtester.daily_trades_count st = ∅ /\
  Forall (fun smp => eq_balance smp = Backtester.initial_balance cfg /\
                     eq_in_position smp = false)
         (Backtester.equity_curve st) /\
  Backtester.run_backtest cfg df s e = Ok (st, zero_results cfg st).
Proof.
  intros Hflat Hrun.
  destruct (BasicTransitions.run_keeps cfg df s e
              (fun _ st => BasicDetail.idle cfg st) st)
    as [st_loop [be [_ [_ [HI Hcases]]]]].
  - unfold BasicDetail.idle. simpl. repeat split. constructor.
  - intros done i rest st0 b st0' _ Hb Hc0 HI Hbody.
    apply (FlatSeries.idle_step cfg df c st0 st0' i b Hflat Hb Hc0 HI Hbody).
  - exact Hrun.
  - destruct HI as [Htr [Hin [_ [Hbal [Hday Hcurve]]]]].
    destruct Hcases as [[-> _] | [t [Hin' _]]]; [| congruence].
    repeat (split; [assumption |]).
    unfold Backtester.run_backtest. rewrite Hrun. simpl.
    rewrite (BasicRun.get_results_no_trades cfg st_loop Htr). reflexivity.
Qed.

Lemma flat_series_never_trades_witness :
  exists st,
    Backtester.run_state (capped 5) short_frame None None = Ok st /\
    Backtester.trades st = [] /\
    Backtester.balance st = 10000%Q.
Proof.
  destruct (Backtester.run_state (capped 5) short_frame None None)
    as [st |] eqn:Hrun; [| vm_compute in Hrun; discriminate].
  exists st. split; [reflexivity |].
  destruct (flat_series_never_trades (capped 5) short_frame 100.4 None None st)
    as [Htr [Hbal _]].
  - intros b Hb. simpl in Hb.
    repeat (destruct Hb as [<- | Hb];
            [split; [reflexivity | split; unfold Qle; simpl; lia] |]).
    destruct Hb.
  - exact Hrun.
  - auto.
Defined.

(** ** The replay looks at no later bar *)

Module Causality.

Import Backtester.

Section Prefix.

Variables (df1 df2 : list Bar) (n : nat).
Hypothesis Hprefix : firstn n df1 = firstn n df2.
Hypothesis Hlen1 : (n <= length df1)%nat.
Hypothesis Hlen2 : (n <= length df2)%nat.

Lemma nth_error_prefix (k : nat) :
  (k < n)%nat -> nth_error df1 k = nth_error df2 k.
Proof.
  intros Hk.
  pose proof (nth_error_firstn n df1 k) as H1.
  pose proof (nth_error_firstn n df2 k) as H2.
  replace (k <? n)%nat with true in H1, H2 by (symmetry; apply Nat.ltb_lt; lia).
  rewrite <- H1, <- H2, Hprefix. reflexivity.
Qed.

Lemma iloc_prefix (i : Z) :
  0 <= i < Z.of_nat n -> iloc df1 i = iloc df2 i.
Proof.
  intros Hi. unfold iloc, len.
  replace (i <? 0) with false by lia.
  replace ((0 <=? i) && (i <? Z.of_nat (length df1))) with true by lia.
  replace ((0 <=? i) && (i <? Z.of_nat (length df2))) with true by lia.
  rewrite (nth_error_prefix (Z.to_nat i)) by lia. reflexivity.
Qed.

Lemma slice_of_prefix (df : list Bar) (a b : Z) :
  (n <= length df)%nat -> 0 <= a -> 0 <= b <= Z.of_nat n ->
  iloc_slice df a b
  = skipn (Z.to_nat a) (firstn (Z.to_nat b) (firstn n df)).
Proof.
  intros Hlen Ha Hb. unfold iloc_slice, slice_bound, len.
  replace (a <? 0) with false by lia. replace (b <? 0) with false by lia.
  rewrite firstn_firstn. replace (Nat.min (Z.to_nat b) n) with (Z.to_nat b) by lia.
  destruct (Z_lt_le_dec a b) as [Hab | Hab].
  - replace (Z.min a (Z.of_nat (length df))) with a by lia.
    replace (Z.min b (Z.of_nat (length df))) with b by lia.
    rewrite firstn_skipn_comm. f_equal. f_equal. lia.
  - replace (Z.to_nat (Z.min b (Z.of_nat (length df))
                       - Z.min a (Z.of_nat (length df)))) with 0%nat by lia.
    rewrite firstn_O. symmetry. apply skipn_all2.
    rewrite length_firstn. lia.
Qed.

Lemma iloc_slice_prefix (a b : Z) :
  0 <= a -> 0 <= b <= Z.of_nat n ->
  iloc_slice df1 a b = iloc_slice df2 a b.
Proof.
  intros Ha Hb.
  rewrite (slice_of_prefix df1 a b Hlen1 Ha Hb).
  rewrite (slice_of_prefix df2 a b Hlen2 Ha Hb).
  rewrite Hprefix. reflexivity.
Qed.

Lemma identify_consolidation_prefix (cfg : Config) (i : Z) :
  0 <= i <= Z.of_nat n ->
  identify_consolidation cfg df1 i = identify_consolidation cfg df2 i.
Proof.
  intros Hi. unfold identify_consolidation.
  destruct (i <? consolidation_periods cfg) eqn:E; [reflexivity |].
  rewrite (iloc_slice_prefix (i - consolidation_periods cfg) i) by lia.
  reflexivity.
Qed.

Lemma detect_breakout_prefix (i : Z) (h l : Q) :
  0 <= i < Z.of_nat n ->
  detect_breakout df1 i h l = detect_breakout df2 i h l.
Proof.
  intros Hi. unfold detect_breakout.
  destruct (i <? 1) eqn:E; [reflexivity |].
  rewrite (iloc_prefix i) by lia. rewrite (iloc_prefix (i - 1)) by lia.
  reflexivity.
Qed.

Lemma loop_body_prefix (cfg : Config) (st : State) (i : Z) :
  0 <= i < Z.of_nat n ->
  loop_body cfg df1 st i = loop_body cfg df2 st i.
Proof.
  intros Hi. unfold loop_body. rewrite (iloc_prefix i) by lia.
  destruct (iloc df2 i) as [b |]; [| reflexivity]. simpl.
  destruct (exit_phase cfg st b) as [st1 |]; [| reflexivity]. simpl.
  unfold entry_phase.
  rewrite (identify_consolidation_prefix cfg i) by lia.
  destruct (in_position (record_equity st1 (time b))); [reflexivity |].
  destruct (negb (can_trade_today cfg (record_equity st1 (time b)) (time b)));
    [reflexivity |].
  destruct (identify_consolidation cfg df2 i) as [[[c h] l] r].
  destruct c; [| reflexivity].
  destruct h as [[h | | |] |]; try reflexivity.
  destruct l as [[l | | |] |]; try reflexivity.
  destruct r as [[r | | |] |]; try reflexivity.
  rewrite (detect_breakout_prefix i h l) by lia. reflexivity.
Qed.

Lemma for_loop_prefix (cfg : Config) (idxs : list Z) :
  (forall i, In i idxs -> 0 <= i < Z.of_nat n) ->
  forall st, for_loop cfg df1 idxs st = for_loop cfg df2 idxs st.
Proof.
  induction idxs as [| i idxs IH]; intros Hidx st; simpl; [reflexivity |].
  rewrite (loop_body_prefix cfg st i) by (apply Hidx; left; reflexivity).
  destruct (loop_body cfg df2 st i) as [st1 |]; [| reflexivity]. simpl.
  apply IH. intros j Hj. apply Hidx. right. exact Hj.
Qed.

Lemma run_state_prefix (cfg : Config) (s e : Z) :
  0 <= s < e -> e = Z.of_nat n ->
  run_state cfg df1 (Some s) (Some e) = run_state cfg df2 (Some s) (Some e).
Proof.
  intros Hs He. unfold run_state. simpl.
  rewrite (iloc_prefix s) by lia. rewrite (iloc_prefix (e - 1)) by lia.
  destruct (iloc df2 s); [| reflexivity].
  destruct (iloc df2 (e - 1)) as [be |] eqn:Hbe; [| reflexivity]. simpl.
  rewrite (for_loop_prefix cfg (range s e));
    [| intros i Hi; apply UltraFilters.in_range in Hi; lia].
  destruct (for_loop cfg df2 (range s e) (init_state cfg)) as [st |];
    [| reflexivity].
  simpl. unfold close_remaining. rewrite (iloc_prefix (e - 1)) by lia.
  reflexivity.
Qed.

End Prefix.

End Causality.

(** X8. The replay looks at no bar at or after its end: two series that
    agree on their first [e] bars give the same final state and the same
    results when replayed from [s] to [e]. *)
Theorem replay_ignores_later_bars
    (cfg : Backtester.Config) (df1 df2 : list Bar) (s e : Z) :
  0 <= s < e -> e <= len df1 -> e <= len df2 ->
  firstn (Z.to_nat e) df1 = firstn (Z.to_nat e) df2 ->
  Backtester.run_backtest cfg df1 (Some s) (Some e)
  = Backtester.run_backtest cfg df2 (Some s) (Some e).
Proof.
  intros Hs H1 H2 Hprefix. unfold Backtester.run_backtest, len in *.
  rewrite (Causality.run_state_prefix df1 df2 (Z.to_nat e) Hprefix
             ltac:(lia) ltac:(lia) cfg s e Hs ltac:(lia)).
  reflexivity.
Qed.

Lemma replay_ignores_later_bars_witness :
  Backtester.run_backtest (capped 5) breakout_frame (Some 2) (Some 4)
  = Backtester.run_backtest (capped 5) extended_frame (Some 2) (Some 4).
Proof.
  apply (replay_ignores_later_bars (capped 5) breakout_frame extended_frame
           2 4).
  - lia.
  - vm_compute. discriminate.
  - vm_compute. discriminate.
  - reflexivity.
Defined.

(** ** The daily counter, entry by entry *)

Module DailyCounter.

Import Backtester BasicDetail.

Lemma entries_counter (n : nat) (tm : Z) (st : State) :
  default 0 (daily_trades_count (entries n tm st) !! date_str tm)
    = default 0 (daily_trades_count st !! date_str tm) + Z.of_nat n /\
  (forall d, d <> date_str tm ->
     daily_trades_count (entries n tm st) !! d = daily_trades_count st !! d) /\
  balance (entries n tm st) = balance st /\
  trades (entries n tm st) = trades st /\
  in_position (entries n tm st) = in_position st.
Proof.
  unfold entries. induction n as [| n IH].
  - simpl. repeat split; lia.
  - destruct IH as [IH1 [IH2 [IH3 [IH4 IH5]]]].
    rewrite Nat.iter_succ.
    set (st1 := Nat.iter n (fun st' => increment_daily_trades st' tm) st) in *.
    unfold increment_daily_trades. simpl.
    rewrite lookup_insert_eq. simpl. split; [lia |].
    split; [| auto].
    intros d Hd. rewrite lookup_insert_ne by congruence. apply IH2. exact Hd.
Qed.

End DailyCounter.

(** X9. The daily counter counts entries: after [n] entries on a day its
    count for that day has grown by [n] and the counts of all other days are
    as before; counted from the reset state of a run, a further entry on
    that day is allowed exactly while [n] is below [max_daily_trades]. *)
Theorem daily_counter_counts_entries
    (cfg : Backtester.Config) (n : nat) (tm : Z) (st : Backtester.State) :
  default 0 (Backtester.daily_trades_count (BasicDetail.entries n tm st)
             !! date_str tm)
    = default 0 (Backtester.daily_trades_count st !! date_str tm)
      + Z.of_nat n /\
  (forall d, d <> date_str tm ->
     Backtester.daily_trades_count (BasicDetail.entries n tm st) !! d
     = Backtester.daily_trades_count st !! d) /\
  (forall tm', date_str tm' = date_str tm ->
     Backtester.can_trade_today cfg
       (BasicDetail.entries n tm (Backtester.init_state cfg)) tm'
     = (Z.of_nat n <? Backtester.max_daily_trades cfg)).
Proof.
  destruct (DailyCounter.entries_counter n tm st) as [H1 [H2 _]].
  split; [exact H1 |]. split; [exact H2 |].
  intros tm' Hsame. unfold Backtester.can_trade_today. rewrite Hsame.
  destruct (DailyCounter.entries_counter n tm (Backtester.init_state cfg))
    as [H3 _].
  rewrite H3. simpl. rewrite lookup_empty. reflexivity.
Qed.

Lemma daily_counter_counts_entries_witness :
  Backtester.can_trade_today (capped 2)
    (BasicDetail.entries 2 60 (Backtester.init_state (capped 2))) 120
  = false.
Proof.
  destruct (daily_counter_counts_entries (capped 2) 2 60
              (Backtester.init_state (capped 2))) as [_ [_ H]].
  rewrite (H 120); reflexivity.
Defined.

(** * Further properties of the ultra engine *)

(** ** Trailing stops *)

Module UltraTrailing.

Import UltraBacktester UltraDetail.

(** What an update leaves alone. *)
Lemma update_trailing_stop_frame (cfg : Config) (st st' : State) (h l : Q) :
  update_trailing_stop cfg st h l = Ok st' ->
  balance st' = balance st /\ in_position st' = in_position st /\
  trades st' = trades st /\ equity_curve st' = equity_curve st /\
  daily_trades_count st' = daily_trades_count st /\
  rejected_trades st' = rejected_trades st.
Proof.
  unfold update_trailing_stop. intros H. UltraCurve.branch_on H;
    injection H as <-; repeat split; reflexivity.
Qed.

Lemma update_trailing_stop_trade (cfg : Config) (st st' : State) (h l : Q)
    (t : OpenTrade) (ts : Q) :
  update_trailing_stop cfg st h l = Ok st' ->
  current_trade st = Some t -> ot_trailing_stop t = Some (Fin ts) ->
  exists t' ts',
    current_trade st' = Some t' /\ ot_trailing_stop t' = Some (Fin ts') /\
    match ot_type t with
    | BUY => (ts <= ts')%Q
    | SELL => (ts' <= ts)%Q
    end /\
    ot_type t' = ot_type t /\ ot_entry_price t' = ot_entry_price t /\
    ot_entry_time t' = ot_entry_time t /\
    ot_take_profit t' = ot_take_profit t /\
    ot_stop_loss t' = ot_stop_loss t.
Proof.
  intros H Ht Hts.
  assert (Hsame : exists t' ts',
             Some t = Some t' /\ ot_trailing_stop t' = Some (Fin ts') /\
             match ot_type t with
             | BUY => (ts <= ts')%Q
             | SELL => (ts' <= ts)%Q
             end /\
             ot_type t' = ot_type t /\ ot_entry_price t' = ot_entry_price t /\
             ot_entry_time t' = ot_entry_time t /\
             ot_take_profit t' = ot_take_profit t /\
             ot_stop_loss t' = ot_stop_loss t).
  { exists t, ts. repeat split; try assumption.
    destruct (ot_type t); apply Qle_refl. }
  unfold update_trailing_stop in H. rewrite Ht in H.
  destruct (negb (use_trailing_stop cfg) || negb (in_position st)).
  { injection H as <-. rewrite Ht. exact Hsame. }
  rewrite Hts in H.
  destruct (ot_type t) eqn:Hty.
  - destruct (highest_price_in_trade st) as [hi |]; [| discriminate].
    destruct (Qgtb h hi); [| injection H as <-; rewrite Ht; exact Hsame].
    injection H as <-. simpl.
    destruct (Qltb ts (h - ot_entry_price t * (trailing_stop_pct cfg / 100)))
      eqn:Hlt.
    + eexists. eexists. split; [reflexivity |]. simpl.
      split; [reflexivity |]. apply Qltb_lt in Hlt.
      rewrite Hty. repeat split; try reflexivity. lra.
    + exists t, ts. rewrite Hty. repeat split; try assumption. apply Qle_refl.
  - destruct (lowest_price_in_trade st) as [lo |]; [| discriminate].
    destruct (Qltb l lo); [| injection H as <-; rewrite Ht; exact Hsame].
    injection H as <-. simpl.
    destruct (Qltb (l + ot_entry_price t * (trailing_stop_pct cfg / 100)) ts)
      eqn:Hlt.
    + eexists. eexists. split; [reflexivity |]. simpl.
      split; [reflexivity |]. apply Qltb_lt in Hlt.
      rewrite Hty. repeat split; try reflexivity. lra.
    + exists t, ts. rewrite Hty. repeat split; try assumption. apply Qle_refl.
Qed.

End UltraTrailing.

(** X10. A trailing-stop update only tightens: after it the open trade has a
    trailing stop that is no lower (long) or no higher (short) than before,
    its side, entry, target and initial stop are as they were, and balance,
    position flag, trade list and equity curve are untouched. *)
Theorem trailing_stop_only_tightens
    (cfg : UltraBacktester.Config) (st st' : UltraBacktester.State)
    (h l : Q) (t : UltraBacktester.OpenTrade) (ts : Q) :
  UltraBacktester.update_trailing_stop cfg st h l = Ok st' ->
  UltraBacktester.current_trade st = Some t ->
  UltraBacktester.ot_trailing_stop t = Some (Fin ts) ->
  (exists t' ts',
     UltraBacktester.current_trade st' = Some t' /\
     UltraBacktester.ot_trailing_stop t' = Some (Fin ts') /\
     match UltraBacktester.ot_type t with
     | BUY => (ts <= ts')%Q
     | SELL => (ts' <= ts)%Q
     end /\
     UltraBacktester.ot_type t' = UltraBacktester.ot_type t /\
     UltraBacktester.ot_entry_price t' = UltraBacktester.ot_entry_price t /\
     UltraBacktester.ot_take_profit t' = UltraBacktester.ot_take_profit t /\
     UltraBacktester.ot_stop_loss t' = UltraBacktester.ot_stop_loss t) /\
  UltraBacktester.balance st' = UltraBacktester.balance st /\
  UltraBacktester.in_position st' = UltraBacktester.in_position st /\
  UltraBacktester.trades st' = UltraBacktester.trades st /\
  UltraBacktester.equity_curve st' = UltraBacktester.equity_curve st.
Proof.
  intros H Ht Hts. split.
  - destruct (UltraTrailing.update_trailing_stop_trade cfg st st' h l t ts
                H Ht Hts)
      as [t' [ts' [H1 [H2 [H3 [H4 [H5 [_ [H6 H7]]]]]]]]].
    exists t', ts'. repeat split; assumption.
  - destruct (UltraTrailing.update_trailing_stop_frame cfg st st' h l H)
      as [H1 [H2 [H3 [H4 _]]]].
    repeat split; assumption.
Qed.

Lemma trailing_stop_only_tightens_witness :
  exists st',
    UltraBacktester.update_trailing_stop trailing_ultra ultra_holding 104 94
      = Ok st' /\
    exists t' ts',
      UltraBacktester.current_trade st' = Some t' /\
      UltraBacktester.ot_trailing_stop t' = Some (Fin ts') /\
      (95 <= ts')%Q.
Proof.
  eexists. split; [reflexivity |].
  destruct (trailing_stop_only_tightens trailing_ultra ultra_holding _
              104 94 ultra_long 95 eq_refl eq_refl eq_refl)
    as [[t' [ts' [H1 [H2 [H3 _]]]]] _].
  exists t', ts'. repeat split; assumption.
Defined.

(** X11. The trailing stop is moved from the high (low) of a bar before the
    low (high) of the same bar is tested against it. So a bar that sets a
    new watermark for the trade, stays short of the target and spans at
    least the trail distance closes the trade on that very bar, with reason
    [TSL], at a stop that is at most the trail distance away from the bar's
    own extreme. *)
Theorem new_extreme_can_stop_out_on_the_same_bar
    (cfg : UltraBacktester.Config) (st : UltraBacktester.State) (b : Bar)
    (t : UltraBacktester.OpenTrade) (ts : Q) :
  UltraBacktester.use_trailing_stop cfg = true ->
  UltraBacktester.in_position st = true ->
  UltraBacktester.current_trade st = Some t ->
  UltraBacktester.ot_trailing_stop t = Some (Fin ts) ->
  UltraDetail.whipsaw cfg st t b ->
  exists st1 q,
    UltraBacktester.check_trade_exit cfg st b = Ok (st1, Some (Fin q, TSL)) /\
    match UltraBacktester.ot_type t with
    | BUY => (q == Qmax ts (high b - UltraDetail.trail_distance cfg t))%Q
    | SELL => (q == Qmin ts (low b + UltraDetail.trail_distance cfg t))%Q
    end.
Proof.
  intros Huse Hpos Ht Hts Hw.
  unfold UltraBacktester.check_trade_exit,
    UltraBacktester.update_trailing_stop.
  rewrite Hpos, Ht, Huse, Hts. simpl.
  unfold UltraDetail.whipsaw, UltraDetail.trail_distance in *.
  destruct (UltraBacktester.ot_type t) eqn:Hty.
  - destruct Hw as [[hi [Hhi Hnew]] [Htp Hspan]]. rewrite Hhi.
    replace (Qgtb (high b) hi) with true
      by (symmetry; apply Qgtb_gt; exact Hnew).
    simpl.
    destruct (Qltb ts _) eqn:Hlt; simpl; rewrite Hty, Htp; simpl.
    + apply Qltb_lt in Hlt.
      replace (Qleb (low b) _) with true
        by (symmetry; apply Qleb_le; exact Hspan).
      eexists. eexists. split; [reflexivity |].
      rewrite Q.max_r by lra. apply Qeq_refl.
    + rewrite Hts. simpl.
      assert (Hge : (high b - UltraBacktester.ot_entry_price t
                      * (UltraBacktester.trailing_stop_pct cfg / 100) <= ts)%Q).
      { destruct (Qlt_le_dec ts
                    (high b - UltraBacktester.ot_entry_price t
                     * (UltraBacktester.trailing_stop_pct cfg / 100)))
          as [Hc | Hc]; [| exact Hc].
        apply Qltb_lt in Hc. congruence. }
      replace (Qleb (low b) ts) with true
        by (symmetry; apply Qleb_le; lra).
      eexists. eexists. split; [reflexivity |].
      rewrite Q.max_l by lra. apply Qeq_refl.
  - destruct Hw as [[lo [Hlo Hnew]] [Htp Hspan]]. rewrite Hlo.
    replace (Qltb (low b) lo) with true
      by (symmetry; apply Qltb_lt; exact Hnew).
    simpl. simpl in Htp.
    destruct (Qltb _ ts) eqn:Hlt; simpl; rewrite Hty, Htp; simpl.
    + apply Qltb_lt in Hlt.
      replace (Qleb _ (high b)) with true
        by (symmetry; apply Qleb_le; exact Hspan).
      eexists. eexists. split; [reflexivity |].
      rewrite Q.min_r by lra. apply Qeq_refl.
    + rewrite Hts. simpl.
      assert (Hge : (ts <= low b + UltraBacktester.ot_entry_price t
                      * (UltraBacktester.trailing_stop_pct cfg / 100))%Q).
      { destruct (Qlt_le_dec
                    (low b + UltraBacktester.ot_entry_price t
                     * (UltraBacktester.trailing_stop_pct cfg / 100)) ts)
          as [Hc | Hc]; [| exact Hc].
        apply Qltb_lt in Hc. congruence. }
      replace (Qleb ts (high b)) with true
        by (symmetry; apply Qleb_le; lra).
      eexists. eexists. split; [reflexivity |].
      rewrite Q.min_l by lra. apply Qeq_refl.
Qed.

Lemma new_extreme_can_stop_out_on_the_same_bar_witness :
  exists st1 q,
    UltraBacktester.check_trade_exit trailing_ultra ultra_holding falling_bar
      = Ok (st1, Some (Fin q, TSL)) /\
    (q == Qmax 95 (104 - UltraDetail.trail_distance trailing_ultra ultra_long))%Q.
Proof.
  apply (new_extreme_can_stop_out_on_the_same_bar trailing_ultra
           ultra_holding falling_bar ultra_long 95);
    try reflexivity.
  split; [exists 100%Q; split; [reflexivity | reflexivity] |].
  split; [reflexivity |]. vm_compute. discriminate.
Defined.

(** ** The filtered signal *)

Module UltraSignals.

Import UltraBacktester UltraDetail.

Lemma total_rejected_reject (k : FilterName) (st : State) :
  total_rejected (reject k st) = total_rejected st + 1.
Proof. destruct k; unfold total_rejected; simpl; lia. Qed.

(** A veto, or none: the outcomes of the filter chain. *)
Lemma detect_breakout_cases (cfg : Config) (df : list Bar) (st st' : State)
    (i : Z) (h l : Q) (sig : option Side) :
  detect_breakout cfg df st i h l = Ok (st', sig) ->
  exists raw,
    Backtester.detect_breakout df i h l = Ok raw /\
    match raw, sig with
    | None, None => st' = st
    | Some s, Some s' => s' = s /\ st' = st
    | Some s, None => exists k, st' = reject k st
    | None, Some _ => False
    end.
Proof.
  unfold detect_breakout, Backtester.detect_breakout. intros H.
  destruct (i <? 1); [injection H as <- <-; exists None; auto |].
  destruct (iloc df i) as [cur |]; [| discriminate].
  destruct (iloc df (i - 1)) as [prev |]; [| discriminate].
  simpl in *.
  destruct (Qleb (close prev) h && Qgtb (close cur) h).
  - exists (Some BUY). split; [reflexivity |].
    unfold bind in H. UltraCurve.branch_on H; injection H as <- <-;
      first [ split; reflexivity | eexists; reflexivity ].
  - destruct (Qgeb (close prev) l && Qltb (close cur) l).
    + exists (Some SELL). split; [reflexivity |].
      unfold bind in H. UltraCurve.branch_on H; injection H as <- <-;
        first [ split; reflexivity | eexists; reflexivity ].
    + injection H as <- <-. exists None. auto.
Qed.

End UltraSignals.

(** X12. Every raw breakout is either taken or counted: the filtered
    detector signals only where the detector of the basic engine does, and
    then the same side, leaving the state as it is; when it withholds a raw
    breakout, exactly one rejection counter has gone up by one, so the total
    of the counters grows by one; without a raw breakout nothing changes. *)
Theorem raw_breakout_is_taken_or_counted
    (cfg : UltraBacktester.Config) (df : list Bar)
    (st st' : UltraBacktester.State) (i : Z) (h l : Q) (sig : option Side) :
  UltraBacktester.detect_breakout cfg df st i h l = Ok (st', sig) ->
  exists raw,
    Backtester.detect_breakout df i h l = Ok raw /\
    match raw, sig with
    | None, None => st' = st
    | Some s, Some s' => s' = s /\ st' = st
    | Some s, None => exists k, st' = UltraBacktester.reject k st
    | None, Some _ => False
    end /\
    UltraDetail.total_rejected st'
    = UltraDetail.total_rejected st
      + match raw, sig with
        | Some _, None => 1
        | _, _ => 0
        end.
Proof.
  intros H.
  destruct (UltraSignals.detect_breakout_cases cfg df st st' i h l sig H)
    as [raw [Hraw Hcases]].
  exists raw. split; [exact Hraw |]. split; [exact Hcases |].
  destruct raw as [s |], sig as [s' |].
  - destruct Hcases as [_ ->]. lia.
  - destruct Hcases as [k ->]. apply UltraSignals.total_rejected_reject.
  - destruct Hcases.
  - rewrite Hcases. lia.
Qed.

Lemma raw_breakout_is_taken_or_counted_witness :
  exists st',
    UltraBacktester.detect_breakout quick_ultra breakout_frame
      (UltraBacktester.init_state quick_ultra) 2 100.5 100 = Ok (st', None) /\
    UltraDetail.total_rejected st' = 1.
Proof.
  eexists. split; [reflexivity |].
  destruct (raw_breakout_is_taken_or_counted quick_ultra breakout_frame
              (UltraBacktester.init_state quick_ultra) _ 2 100.5 100 None
              eq_refl) as [raw [Hraw [_ Htotal]]].
  vm_compute in Hraw. injection Hraw as <-. exact Htotal.
Defined.

(** ** The confirmation of a breakout *)

Module UltraConfirmation.

Import UltraBacktester UltraDetail.

Lemma range_shift (idx n : Z) :
  range (idx + 1) (idx + n + 1) = map (fun i => idx + i) (range 1 (n + 1)).
Proof.
  unfold range. rewrite map_map.
  replace (idx + n + 1 - (idx + 1)) with (n + 1 - 1) by lia.
  apply map_ext. intros k. lia.
Qed.

Lemma confirm_scan_spec (df : list Bar) (idx : Z) (h l : Q) (s : Side)
    (offs : list Z) :
  (forall i, In i offs -> 0 <= idx + i < len df) ->
  exists ok,
    snd (confirm_scan df idx h l s offs) = Ok ok /\
    (ok = true <->
     Forall (confirms h l s)
       (flat_map (fun j => match iloc df j with Ok x => [x] | Raise _ => [] end)
                 (map (fun i => idx + i) offs))).
Proof.
  induction offs as [| i offs IH]; intros Hoffs; simpl.
  - exists true. split; [reflexivity |]. split; [constructor | reflexivity].
  - destruct (iloc_nonneg df (idx + i)) as [bar [Hbar _]];
      [apply Hoffs; left; reflexivity |].
    rewrite Hbar. simpl.
    destruct (match s with
              | BUY => Qltb (close bar) h
              | SELL => Qgtb (close bar) l
              end) eqn:Hfails.
    + exists false. split; [reflexivity |].
      split; [discriminate |]. intros Hall.
      apply List.Forall_inv in Hall. unfold confirms in Hall.
      destruct s.
      * apply Qltb_lt in Hfails. lra.
      * apply Qgtb_gt in Hfails. lra.
    + destruct IH as [ok [Hok Hiff]];
        [intros j Hj; apply Hoffs; right; exact Hj |].
      destruct (confirm_scan df idx h l s offs) as [reads r]. simpl in *.
      exists ok. split; [exact Hok |]. rewrite Hiff. split.
      * intros Hall. constructor; [| exact Hall]. unfold confirms.
        destruct s.
        -- destruct (Qlt_le_dec (close bar) h) as [Hc | Hc]; [| exact Hc].
           apply Qltb_lt in Hc. congruence.
        -- destruct (Qlt_le_dec l (close bar)) as [Hc | Hc]; [| exact Hc].
           apply Qgtb_gt in Hc. congruence.
      * intros Hall. apply List.Forall_inv_tail in Hall. exact Hall.
Qed.

(** With the filter on and sensible arguments the check returns, and says
    whether every confirmation bar kept to the far side of the level. *)
Lemma check_false_breakout_spec (cfg : Config) (df : list Bar) (idx : Z)
    (h l : Q) (s : Side) :
  use_false_breakout_filter cfg = true ->
  0 <= idx -> 0 <= confirmation_bars cfg ->
  exists ok,
    snd (check_false_breakout cfg df idx h l s) = Ok ok /\
    (ok = true <->
     idx + confirmation_bars cfg < len df /\
     Forall (confirms h l s)
       (iloc_slice df (idx + 1) (idx + confirmation_bars cfg + 1))).
Proof.
  intros Hon Hidx Hcb. unfold check_false_breakout. rewrite Hon. simpl.
  destruct (len df <=? idx + confirmation_bars cfg) eqn:Hlen.
  - exists false. split; [reflexivity |]. split; [discriminate | lia].
  - destruct (confirm_scan_spec df idx h l s
                (range 1 (confirmation_bars cfg + 1))) as [ok [Hok Hiff]].
    { intros i Hi. apply UltraFilters.in_range in Hi. lia. }
    exists ok. split; [exact Hok |]. rewrite Hiff.
    rewrite Windows.iloc_slice_bars_between by lia.
    unfold bars_between. rewrite range_shift.
    split; [intros Hall; split; [lia | exact Hall] | intros [_ Hall]; exact Hall].
Qed.

End UltraConfirmation.

(** X13. With the false-breakout filter on, a position [idx >= 0] and
    [confirmation_bars >= 0], the check returns without raising, and it
    passes exactly when the frame holds [confirmation_bars] bars after
    [idx] and each of them closes at or beyond the broken level: at or
    above [high_level] for a long signal, at or below [low_level] for a
    short one. The decision at [idx] therefore rests on the bars after
    it. *)
Theorem false_breakout_filter_waits_for_confirmation
    (cfg : UltraBacktester.Config) (df : list Bar) (idx : Z) (h l : Q)
    (s : Side) :
  UltraBacktester.use_false_breakout_filter cfg = true ->
  0 <= idx -> 0 <= UltraBacktester.confirmation_bars cfg ->
  exists ok,
    snd (UltraBacktester.check_false_breakout cfg df idx h l s) = Ok ok /\
    (ok = true <->
     idx + UltraBacktester.confirmation_bars cfg < len df /\
     Forall (UltraDetail.confirms h l s)
       (iloc_slice df (idx + 1)
          (idx + UltraBacktester.confirmation_bars cfg + 1))).
Proof.
  exact (UltraConfirmation.check_false_breakout_spec cfg df idx h l s).
Qed.

Lemma false_breakout_filter_waits_for_confirmation_witness :
  snd (UltraBacktester.check_false_breakout quick_ultra breakout_frame 2
         100.5 100 BUY) = Ok true.
Proof.
  destruct (false_breakout_filter_waits_for_confirmation quick_ultra
              breakout_frame 2 100.5 100 BUY eq_refl ltac:(lia) ltac:(simpl; lia))
    as [ok [Hok [_ Hback]]].
  rewrite Hok. f_equal. apply Hback. split.
  - vm_compute. reflexivity.
  - vm_compute. constructor; [| constructor]. discriminate.
Defined.

(** ** The replay of the ultra engine returns *)

Module UltraRun.

Import UltraBacktester UltraDetail.

Lemma armed_init (cfg : Config) : armed cfg (init_state cfg).
Proof. reflexivity. Qed.

Lemma update_trailing_stop_armed (cfg : Config) (st : State) (h l : Q) :
  armed cfg st -> in_position st = true ->
  exists st', update_trailing_stop cfg st h l = Ok st' /\
              armed cfg st' /\ in_position st' = true.
Proof.
  intros Harmed Hpos. pose proof Harmed as Harmed'.
  unfold armed in Harmed. rewrite Hpos in Harmed.
  destruct Harmed as [t [hi [lo [Ht [Hhi [Hlo Hts]]]]]].
  unfold update_trailing_stop. rewrite Hpos, Ht, Hhi, Hlo.
  destruct (use_trailing_stop cfg) eqn:Huse; simpl;
    [| exists st; auto].
  destruct (Hts eq_refl) as [ts Hts']. rewrite Hts'.
  destruct (ot_type t).
  - destruct (Qgtb h hi); [| exists st; auto].
    eexists. split; [reflexivity |]. split; [| exact Hpos].
    unfold armed. simpl. rewrite Hpos.
    eexists. exists h, lo. split; [reflexivity |].
    split; [reflexivity |]. split; [reflexivity |]. intros _.
    match goal with
    | |- context [if ?c then _ else _] => destruct c
    end; simpl; eauto.
  - destruct (Qltb l lo); [| exists st; auto].
    eexists. split; [reflexivity |]. split; [| exact Hpos].
    unfold armed. simpl. rewrite Hpos.
    eexists. exists hi, l. split; [reflexivity |].
    split; [reflexivity |]. split; [reflexivity |]. intros _.
    match goal with
    | |- context [if ?c then _ else _] => destruct c
    end; simpl; eauto.
Qed.

Lemma check_trade_exit_armed (cfg : Config) (st : State) (b : Bar) :
  armed cfg st -> in_position st = true ->
  exists st1 x, check_trade_exit cfg st b = Ok (st1, x) /\
                armed cfg st1 /\ in_position st1 = true.
Proof.
  intros Harmed Hpos.
  destruct (update_trailing_stop_armed cfg st (high b) (low b) Harmed Hpos)
    as [st1 [Hup [Harmed1 Hpos1]]].
  unfold check_trade_exit. rewrite Hpos.
  pose proof Harmed as H0. unfold armed in H0. rewrite Hpos in H0.
  destruct H0 as [t0 [_ [_ [Ht0 _]]]]. rewrite Ht0, Hup. simpl.
  pose proof Harmed1 as H1. unfold armed in H1. rewrite Hpos1 in H1.
  destruct H1 as [t [hi [lo [Ht [_ [_ Hts]]]]]]. rewrite Ht.
  destruct (use_trailing_stop cfg) eqn:Huse.
  - destruct (Hts eq_refl) as [ts Hts']. rewrite Hts'.
    destruct (ot_type t);
      repeat match goal with
        | |- context [if ?c then _ else _] => destruct c
        end; eauto.
  - destruct (ot_type t);
      repeat match goal with
        | |- context [if ?c then _ else _] => destruct c
        end; eauto.
Qed.

Lemma close_trade_armed (cfg : Config) (st : State) (p : fl) (tm : Z)
    (reason : ExitReason) :
  armed cfg st ->
  exists st', close_trade cfg st p tm reason = Ok st' /\
              in_position st' = false /\ current_trade st' = None.
Proof.
  intros Harmed. unfold close_trade, armed in *.
  destruct (in_position st) eqn:Hpos; simpl.
  - destruct Harmed as [t [_ [_ [Ht _]]]]. rewrite Ht.
    eexists. split; [reflexivity |]. split; reflexivity.
  - exists st. auto.
Qed.

Lemma flat_armed (cfg : Config) (st : State) :
  in_position st = false -> current_trade st = None -> armed cfg st.
Proof. intros Hpos Hcur. unfold armed. rewrite Hpos. exact Hcur. Qed.

Lemma exit_phase_armed (cfg : Config) (st : State) (b : Bar) :
  armed cfg st ->
  exists st', exit_phase cfg st b = Ok st' /\ armed cfg st'.
Proof.
  intros Harmed. unfold exit_phase.
  destruct (in_position st) eqn:Hpos; [| exists st; auto].
  destruct (check_trade_exit_armed cfg st b Harmed Hpos)
    as [st1 [x [Hx [Harmed1 Hpos1]]]].
  rewrite Hx. simpl. destruct x as [[p reason] |].
  - destruct (close_trade_armed cfg st1 p (time b) reason Harmed1)
      as [st' [Hclose [Hflat Hnone]]].
    exists st'. split; [exact Hclose | apply flat_armed; assumption].
  - exists st1. auto.
Qed.

Lemma record_equity_armed (cfg : Config) (st : State) (tm : Z) :
  armed cfg st -> armed cfg (record_equity st tm).
Proof. intros H. exact H. Qed.

Lemma reject_armed (cfg : Config) (k : FilterName) (st : State) :
  armed cfg st -> armed cfg (reject k st).
Proof. intros H. exact H. Qed.

Lemma check_false_breakout_returns (cfg : Config) (df : list Bar) (i : Z)
    (h l : Q) (s : Side) :
  0 <= i -> exists ok, snd (check_false_breakout cfg df i h l s) = Ok ok.
Proof.
  intros Hi. unfold check_false_breakout.
  destruct (negb (use_false_breakout_filter cfg)); [eexists; reflexivity |].
  destruct (len df <=? i + confirmation_bars cfg) eqn:Hlen;
    [eexists; reflexivity |].
  apply (UltraFilters.confirm_scan_reads df i h l s).
  intros j Hj. apply UltraFilters.in_range in Hj. lia.
Qed.

Lemma detect_breakout_returns (cfg : Config) (df : list Bar) (st : State)
    (i : Z) (h l : Q) :
  0 <= i < len df ->
  exists st' sig, detect_breakout cfg df st i h l = Ok (st', sig) /\
                  (st' = st \/ exists k, st' = reject k st).
Proof.
  intros Hi. unfold detect_breakout.
  destruct (i <? 1) eqn:Hi1; [exists st, None; auto |].
  destruct (iloc_nonneg df i) as [cur [Hcur _]]; [lia |].
  destruct (iloc_nonneg df (i - 1)) as [prev [Hprev _]]; [lia |].
  rewrite Hcur, Hprev. simpl.
  destruct (if Qleb (close prev) h && Qgtb (close cur) h then Some BUY
            else if Qgeb (close prev) l && Qltb (close cur) l then Some SELL
            else None) as [s |]; [| exists st, None; auto].
  assert (Hvol : exists v, check_volume cfg df i = Ok v).
  { unfold check_volume. destruct (i <? 20); [eauto |].
    rewrite Hcur. simpl. eauto. }
  destruct Hvol as [v ->]. simpl.
  destruct v; simpl; [| eauto 6].
  assert (Htrend : exists v, check_trend cfg df i s = Ok v).
  { unfold check_trend. destruct (negb (use_trend_filter cfg)); [eauto |].
    destruct (calculate_sma df 20 i); [| eauto].
    destruct (calculate_sma df (trend_period cfg) i); [| eauto].
    rewrite Hcur. simpl. destruct s; eauto. }
  destruct Htrend as [v ->]. simpl.
  destruct v; simpl; [| eauto 6].
  destruct (check_breakout_strength cfg (close cur) h l s); simpl;
    [| eauto 6].
  destruct (check_rsi_filter cfg df i s); simpl; [| eauto 6].
  destruct (check_consolidation_quality cfg df h l i); simpl; [| eauto 6].
  destruct (check_time_filter cfg (time cur)); simpl; [| eauto 6].
  destruct (check_false_breakout_returns cfg df i h l s) as [v ->]; [lia |].
  simpl. destruct v; simpl; [| eauto 6].
  assert (Hmtf : exists v, check_mtf_confirmation cfg df i s = Ok v).
  { unfold check_mtf_confirmation.
    destruct (negb (use_mtf_confirmation cfg)); [eauto |].
    destruct (calculate_sma df (higher_tf_period cfg) i); [| eauto].
    rewrite Hcur. simpl. destruct s; eauto. }
  destruct Hmtf as [v ->]. simpl.
  destruct v; simpl; eauto 6.
Qed.

Lemma entry_phase_armed (cfg : Config) (df : list Bar) (i : Z) (st : State)
    (b : Bar) :
  0 <= i < len df -> armed cfg st ->
  exists st', entry_phase cfg df i st b = Ok st' /\ armed cfg st'.
Proof.
  intros Hi Harmed. unfold entry_phase.
  destruct (in_position st) eqn:Hpos; [exists st; auto |].
  destruct (negb (can_trade_today cfg st (time b))); [exists st; auto |].
  destruct (identify_consolidation cfg df i) as [[[c hl] ll] r].
  destruct c; [| exists st; auto].
  destruct hl as [[hl | | |] |]; try (exists st; auto; fail).
  destruct ll as [[ll | | |] |]; try (exists st; auto; fail).
  destruct r as [[r | | |] |]; try (exists st; auto; fail).
  destruct (detect_breakout_returns cfg df st i hl ll Hi)
    as [st1 [sig [Hd Hst1]]].
  rewrite Hd. simpl.
  assert (Harmed1 : armed cfg st1).
  { destruct Hst1 as [-> | [k ->]]; [exact Harmed |].
    apply reject_armed. exact Harmed. }
  destruct sig as [s |]; [| exists st1; auto].
  destruct (calculate_tp_sl cfg df i (close b) s r) as [tp sl].
  eexists. split; [reflexivity |].
  unfold armed. simpl. eexists. exists (close b), (close b).
  split; [reflexivity |]. split; [reflexivity |]. split; [reflexivity |].
  simpl. intros ->. eauto.
Qed.

Lemma loop_body_armed (cfg : Config) (df : list Bar) (st : State) (i : Z) :
  0 <= i < len df -> armed cfg st ->
  exists st', loop_body cfg df st i = Ok st' /\ armed cfg st'.
Proof.
  intros Hi Harmed. unfold loop_body.
  destruct (iloc_nonneg df i Hi) as [b [Hb _]]. rewrite Hb. simpl.
  destruct (exit_phase_armed cfg st b Harmed) as [st1 [Hexit Harmed1]].
  rewrite Hexit. simpl.
  apply entry_phase_armed; [exact Hi |].
  apply record_equity_armed. exact Harmed1.
Qed.

Lemma for_loop_armed (cfg : Config) (df : list Bar) (idxs : list Z) :
  (forall i, In i idxs -> 0 <= i < len df) ->
  forall st, armed cfg st ->
    exists st', for_loop cfg df idxs st = Ok st' /\ armed cfg st' /\
                (idxs = [] -> st' = st).
Proof.
  induction idxs as [| i idxs IH]; intros Hidx st Harmed; simpl.
  - exists st. auto.
  - destruct (loop_body_armed cfg df st i) as [st1 [Hbody Harmed1]];
      [apply Hidx; left; reflexivity | exact Harmed |].
    rewrite Hbody. simpl.
    destruct (IH (fun j Hj => Hidx j (or_intror Hj)) st1 Harmed1)
      as [st' [Hloop [Harmed' _]]].
    exists st'. split; [exact Hloop |]. split; [exact Harmed' | discriminate].
Qed.

(** A replay over positions of the frame returns, with no position left
    open. The header of a verbose run reads the first and the last bar of
    the range, so it needs the range to hold a bar. *)
Lemma run_state_returns (cfg : Config) (df : list Bar)
    (start_idx end_idx : option Z) (verbose : bool) :
  let s := default (default_start_idx cfg) start_idx in
  let e := default (default_end_idx cfg df) end_idx in
  0 <= s -> e <= len df -> (verbose = true -> s < e) ->
  exists st, run_state cfg df start_idx end_idx verbose = Ok st /\
             in_position st = false /\ current_trade st = None.
Proof.
  intros s e Hs He Hverbose. unfold run_state, loop_indices.
  fold s. fold e.
  assert (Hheader :
            (if verbose
             then let! _first := iloc df s in
                  let! _last := iloc df (e - 1) in Ok tt
             else Ok tt) = Ok tt).
  { destruct verbose; [| reflexivity].
    specialize (Hverbose eq_refl).
    destruct (iloc_nonneg df s) as [b1 [-> _]]; [lia |].
    destruct (iloc_nonneg df (e - 1)) as [b2 [-> _]]; [lia |].
    reflexivity. }
  rewrite Hheader. simpl.
  destruct (for_loop_armed cfg df (range s e)) with (st := init_state cfg)
    as [st [Hloop [Harmed Hempty]]].
  { intros i Hi. apply UltraFilters.in_range in Hi. lia. }
  { apply armed_init. }
  rewrite Hloop. simpl. unfold close_remaining.
  destruct (in_position st) eqn:Hpos.
  - assert (Hse : s < e).
    { destruct (Z_lt_le_dec s e) as [H | H]; [exact H |].
      assert (Hnil : range s e = []).
      { unfold range. replace (Z.to_nat (e - s)) with 0%nat by lia.
        reflexivity. }
      rewrite (Hempty Hnil) in Hpos. discriminate. }
    destruct (iloc_nonneg df (e - 1)) as [b [-> _]]; [lia |]. simpl.
    apply close_trade_armed. exact Harmed.
  - exists st. split; [reflexivity |]. split; [exact Hpos |].
    unfold armed in Harmed. rewrite Hpos in Harmed. exact Harmed.
Qed.

End UltraRun.

(** X14. A replay of the ultra engine over positions of the frame raises
    nothing and ends flat: when the first index is not negative and the end
    index is at most the length of the frame, [run_backtest] gets through
    its loop and its final close with no position and no trade left open,
    whatever the bars and the parameters are. A verbose run prints the
    times of the first and the last bar of the range and so needs the range
    to hold a bar. *)
Theorem ultra_replay_returns_flat
    (cfg : UltraBacktester.Config) (df : list Bar)
    (start_idx end_idx : option Z) (verbose : bool) :
  0 <= default (UltraBacktester.default_start_idx cfg) start_idx ->
  default (UltraBacktester.default_end_idx cfg df) end_idx <= len df ->
  (verbose = true ->
   default (UltraBacktester.default_start_idx cfg) start_idx
   < default (UltraBacktester.default_end_idx cfg df) end_idx) ->
  exists st,
    UltraBacktester.run_state cfg df start_idx end_idx verbose = Ok st /\
    UltraBacktester.in_position st = false /\
    UltraBacktester.current_trade st = None.
Proof.
  exact (UltraRun.run_state_returns cfg df start_idx end_idx verbose).
Qed.

Lemma ultra_replay_returns_flat_witness :
  exists st,
    UltraBacktester.run_state quick_ultra breakout_frame None None true
      = Ok st /\
    UltraBacktester.in_position st = false /\
    UltraBacktester.current_trade st = None.
Proof.
  apply (ultra_replay_returns_flat quick_ultra breakout_frame None None true).
  - vm_compute. discriminate.
  - vm_compute. discriminate.
  - intros _. vm_compute. reflexivity.
Defined.

(** ** The indicators *)

Module UltraIndicators.

Import UltraBacktester.

Lemma fold_add_Fin (qs : list Q) :
  fold_right fl_add (Fin 0) (map Fin qs) = Fin (Qsum qs).
Proof.
  unfold Qsum. induction qs as [| q qs IH]; simpl; [reflexivity |].
  rewrite IH. reflexivity.
Qed.

Lemma filter_not_nan_Fin (qs : list Q) :
  List.filter (fun x => negb (fl_is_nan x)) (map Fin qs) = map Fin qs.
Proof.
  induction qs as [| q qs IH]; simpl; [reflexivity |]. rewrite IH. reflexivity.
Qed.

(** On a Series without missing or infinite entries the NaN-skipping mean is
    the plain one. *)
Lemma fl_series_mean_Fin (qs : list Q) :
  fl_series_mean (map Fin qs) = series_mean qs.
Proof.
  unfold fl_series_mean. rewrite filter_not_nan_Fin.
  destruct qs as [| q qs]; [reflexivity |].
  rewrite fold_add_Fin. unfold series_mean, fl_div.
  replace (len (map Fin (q :: qs))) with (len (q :: qs))
    by (unfold len; rewrite length_map; reflexivity).
  apply Windows.np_div_nonzero.
  intros H. unfold len in H. simpl length in H.
  assert (Hpos : (0 < inject_Z (Z.of_nat (S (length qs))))%Q).
  { change 0%Q with (inject_Z 0). rewrite <- Zlt_Qlt. lia. }
  rewrite H in Hpos. apply (Qlt_irrefl 0). exact Hpos.
Qed.

Lemma all_Fin (P : Q -> Prop) (l : list fl) :
  Forall (fun x => exists q, x = Fin q /\ P q) l ->
  exists qs, l = map Fin qs /\ Forall P qs.
Proof.
  induction 1 as [| x l [q [-> Hq]] _ [qs [-> Hqs]]].
  - exists []. split; [reflexivity | constructor].
  - exists (q :: qs). split; [reflexivity | constructor; assumption].
Qed.

(** The mean of a non-empty Series of finite entries of one sign is finite
    and has that sign. *)
Lemma mean_nonneg (l : list fl) :
  l <> [] ->
  Forall (fun x => exists q, x = Fin q /\ (0 <= q)%Q) l ->
  exists m, fl_series_mean l = Fin m /\ (0 <= m)%Q.
Proof.
  intros Hne Hall. destruct (all_Fin _ l Hall) as [qs [-> Hqs]].
  rewrite fl_series_mean_Fin.
  destruct qs as [| q qs]; [exfalso; apply Hne; reflexivity |].
  unfold series_mean. eexists. split; [reflexivity |].
  apply Qle_shift_div_l.
  - unfold len. change 0%Q with (inject_Z 0). rewrite <- Zlt_Qlt.
    simpl length. lia.
  - rewrite Qmult_0_l. apply BasicResults.Qsum_nonneg. exact Hqs.
Qed.

Lemma mean_nonpos (l : list fl) :
  l <> [] ->
  Forall (fun x => exists q, x = Fin q /\ (q <= 0)%Q) l ->
  exists m, fl_series_mean l = Fin m /\ (m <= 0)%Q.
Proof.
  intros Hne Hall. destruct (all_Fin _ l Hall) as [qs [-> Hqs]].
  rewrite fl_series_mean_Fin.
  destruct qs as [| q qs]; [exfalso; apply Hne; reflexivity |].
  unfold series_mean. eexists. split; [reflexivity |].
  apply Qle_shift_div_r.
  - unfold len. change 0%Q with (inject_Z 0). rewrite <- Zlt_Qlt.
    simpl length. lia.
  - rewrite Qmult_0_l. apply BasicResults.Qsum_nonpos. exact Hqs.
Qed.

Lemma zip_with_Forall {A B C : Type} (f : A -> B -> C) (P : C -> Prop)
    (l1 : list A) :
  forall l2, (forall a b, In a l1 -> In b l2 -> P (f a b)) ->
             Forall P (zip_with f l1 l2).
Proof.
  induction l1 as [| a l1 IH]; intros l2 H; simpl; [constructor |].
  destruct l2 as [| b l2]; [constructor |].
  constructor; [apply H; left; reflexivity |].
  apply IH. intros a' b' Ha' Hb'. apply H; right; assumption.
Qed.

Lemma zip_with_length {A B C : Type} (f : A -> B -> C) (l1 : list A) :
  forall l2, length (zip_with f l1 l2) = Nat.min (length l1) (length l2).
Proof.
  induction l1 as [| a l1 IH]; intros l2; simpl; [reflexivity |].
  destruct l2 as [| b l2]; simpl; [reflexivity |]. rewrite IH. reflexivity.
Qed.

Lemma shift1_length (l : list Q) : length (shift1 l) = length l.
Proof.
  unfold shift1. rewrite length_firstn. simpl. rewrite length_map. lia.
Qed.

Lemma shift1_entries (l : list Q) (c : fl) :
  In c (shift1 l) -> c = NaN \/ exists q, c = Fin q.
Proof.
  unfold shift1. intros H. apply BasicRecords.In_firstn in H.
  destruct H as [<- | H]; [left; reflexivity |].
  apply in_map_iff in H. destruct H as [q [<- _]]. right. eauto.
Qed.

Lemma diff_length (l : list Q) : length (diff l) = length l.
Proof. unfold diff. rewrite zip_with_length, shift1_length. lia. Qed.

Lemma diff_entries (l : list Q) :
  Forall (fun d => d = NaN \/ exists q, d = Fin q) (diff l).
Proof.
  unfold diff. apply zip_with_Forall. intros a b _ Hb.
  destruct (shift1_entries l b Hb) as [-> | [q ->]]; simpl; eauto.
Qed.

Lemma gains_nonneg (l : list fl) :
  Forall (fun d => d = NaN \/ exists q, d = Fin q) l ->
  Forall (fun x => exists q, x = Fin q /\ (0 <= q)%Q)
         (where_or_zero (fun d => fl_ltb (Fin 0) d) l).
Proof.
  unfold where_or_zero. induction 1 as [| d l Hd _ IH]; simpl; constructor;
    try exact IH.
  destruct Hd as [-> | [q ->]]; simpl.
  - exists 0%Q. split; [reflexivity | apply Qle_refl].
  - destruct (Qltb 0 q) eqn:E.
    + apply Qltb_lt in E. exists q. split; [reflexivity | lra].
    + exists 0%Q. split; [reflexivity | apply Qle_refl].
Qed.

Lemma losses_nonpos (l : list fl) :
  Forall (fun d => d = NaN \/ exists q, d = Fin q) l ->
  Forall (fun x => exists q, x = Fin q /\ (q <= 0)%Q)
         (where_or_zero (fun d => fl_ltb d (Fin 0)) l).
Proof.
  unfold where_or_zero. induction 1 as [| d l Hd _ IH]; simpl; constructor;
    try exact IH.
  destruct Hd as [-> | [q ->]]; simpl.
  - exists 0%Q. split; [reflexivity | apply Qle_refl].
  - destruct (Qltb q 0) eqn:E.
    + apply Qltb_lt in E. exists q. split; [reflexivity | lra].
    + exists 0%Q. split; [reflexivity | apply Qle_refl].
Qed.

Lemma where_or_zero_nonempty (cond : fl -> bool) (l : list fl) :
  l <> [] -> where_or_zero cond l <> [].
Proof. destruct l; [congruence | discriminate]. Qed.

Lemma diff_nonempty (l : list Q) : l <> [] -> diff l <> [].
Proof.
  intros H Hd. apply (f_equal (@length fl)) in Hd.
  rewrite diff_length in Hd. destruct l; [congruence | discriminate].
Qed.

(** The strength index of a window of prices. *)
Lemma rsi_of_prices (prices : list Q) :
  prices <> [] ->
  forall gain loss,
    gain = fl_series_mean (where_or_zero (fun d => fl_ltb (Fin 0) d)
                             (diff prices)) ->
    loss = fl_neg (fl_series_mean
                     (where_or_zero (fun d => fl_ltb d (Fin 0))
                        (diff prices))) ->
    exists q,
      (if fl_eqb loss (Fin 0) then Fin 100
       else fl_sub (Fin 100)
              (fl_div (Fin 100) (fl_add (Fin 1) (fl_div gain loss))))
      = Fin q /\ (0 <= q <= 100)%Q.
Proof.
  intros Hne gain loss Hgain Hloss.
  destruct (mean_nonneg (where_or_zero (fun d => fl_ltb (Fin 0) d)
                           (diff prices)))
    as [g [Hg Hg0]].
  { apply where_or_zero_nonempty, diff_nonempty, Hne. }
  { apply gains_nonneg, diff_entries. }
  destruct (mean_nonpos (where_or_zero (fun d => fl_ltb d (Fin 0))
                           (diff prices)))
    as [m [Hm Hm0]].
  { apply where_or_zero_nonempty, diff_nonempty, Hne. }
  { apply losses_nonpos, diff_entries. }
  rewrite Hg in Hgain. rewrite Hm in Hloss. subst gain loss. simpl.
  destruct (Qeq_bool (- m) 0) eqn:Hzero.
  - exists 100%Q. split; [reflexivity | lra].
  - assert (Hneq : ~ (- m == 0)%Q).
    { intros H. apply Qeq_bool_iff in H. congruence. }
    assert (Hpos : (0 < - m)%Q).
    { destruct (Qlt_le_dec 0 (- m)) as [H | H]; [exact H |].
      exfalso. apply Hneq. lra. }
    rewrite (Windows.np_div_nonzero g (- m) Hneq). simpl.
    assert (Hrs : (0 <= g / - m)%Q).
    { apply Qle_shift_div_l; [exact Hpos | lra]. }
    assert (Hden : ~ (1 + g / - m == 0)%Q) by lra.
    rewrite (Windows.np_div_nonzero 100 (1 + g / - m) Hden).
    eexists. split; [reflexivity |].
    assert (H1 : (0 <= 100 / (1 + g / - m))%Q).
    { apply Qle_shift_div_l; lra. }
    assert (H2 : (100 / (1 + g / - m) <= 100)%Q).
    { apply Qle_shift_div_r; lra. }
    lra.
Qed.

Lemma calculate_rsi_cases (df : list Bar) (period idx : Z) (r : fl) :
  calculate_rsi df period idx = Some r ->
  period + 1 <= idx /\
  match iloc_slice df (idx - period) idx with
  | [] => r = NaN
  | _ :: _ => exists q, r = Fin q /\ (0 <= q <= 100)%Q
  end.
Proof.
  unfold calculate_rsi. destruct (idx <? period + 1) eqn:Hidx; [discriminate |].
  intros H. split; [lia |].
  destruct (iloc_slice df (idx - period) idx) as [| b w] eqn:Hw.
  - simpl in H. injection H as <-. reflexivity.
  - destruct (rsi_of_prices (map close (b :: w))) with
      (gain := fl_series_mean (where_or_zero (fun d => fl_ltb (Fin 0) d)
                                 (diff (map close (b :: w)))))
      (loss := fl_neg (fl_series_mean
                         (where_or_zero (fun d => fl_ltb d (Fin 0))
                            (diff (map close (b :: w))))))
      as [q [Hq Hrange]]; try reflexivity; [discriminate |].
    exists q. split; [| exact Hrange].
    destruct (fl_eqb _ (Fin 0)); injection H as <-; exact Hq.
Qed.

Lemma fl_max2_Fin (a b : Q) :
  exists m, fl_max2 (Fin a) (Fin b) = Fin m /\ (a <= m)%Q /\ (b <= m)%Q.
Proof.
  unfold fl_max2, fl_leb. destruct (Qleb a b) eqn:E.
  - apply Qleb_le in E. exists b. split; [reflexivity | lra].
  - exists a. split; [reflexivity |]. split; [apply Qle_refl |].
    destruct (Qlt_le_dec b a) as [H | H]; [lra |].
    apply Qleb_le in H. congruence.
Qed.

(** A row of the true range: the largest of the bar's range and its
    distances to the previous close, the latter skipped where there is no
    previous close. *)
Lemma true_range_row (b : Bar) (c : fl) :
  c = NaN \/ (exists q, c = Fin q) ->
  (low b <= high b)%Q ->
  exists q,
    fl_max2 (Fin (high b - low b))
      (fl_max2 (fl_abs (fl_sub (Fin (high b)) c))
               (fl_abs (fl_sub (Fin (low b)) c))) = Fin q /\
    (0 <= q)%Q.
Proof.
  intros [-> | [pc ->]] Hb.
  - exists (high b - low b)%Q. split; [reflexivity | lra].
  - change (fl_abs (fl_sub (Fin (high b)) (Fin pc)))
      with (Fin (Qabs (high b - pc))).
    change (fl_abs (fl_sub (Fin (low b)) (Fin pc)))
      with (Fin (Qabs (low b - pc))).
    destruct (fl_max2_Fin (Qabs (high b - pc)) (Qabs (low b - pc)))
      as [m [-> [Hm _]]].
    destruct (fl_max2_Fin (high b - low b) m) as [q [-> [_ Hq]]].
    exists q. split; [reflexivity |].
    pose proof (Qabs_nonneg (high b - pc)). lra.
Qed.

Lemma true_range_rows (w : list Bar) :
  forall prev,
    (forall c, In c prev -> c = NaN \/ exists q, c = Fin q) ->
    Forall (fun b => (low b <= high b)%Q) w ->
    Forall (fun x => exists q, x = Fin q /\ (0 <= q)%Q)
      (zip_with (fun hl hc_lc => fl_max2 hl (fl_max2 (fst hc_lc) (snd hc_lc)))
         (map (fun b => Fin (high b - low b)) w)
         (zip_with pair
            (zip_with (fun b c => fl_abs (fl_sub (Fin (high b)) c)) w prev)
            (zip_with (fun b c => fl_abs (fl_sub (Fin (low b)) c)) w prev))).
Proof.
  induction w as [| b w IH]; intros prev Hprev Hbars; [constructor |].
  destruct prev as [| c prev]; [constructor |].
  apply List.Forall_cons_iff in Hbars. destruct Hbars as [Hb Hbars].
  cbn [zip_with map fst snd]. constructor.
  - apply true_range_row; [| exact Hb]. apply Hprev. left. reflexivity.
  - apply IH; [| exact Hbars]. intros c' Hc'. apply Hprev. right. exact Hc'.
Qed.

Lemma true_range_length (w : list Bar) (prev : list fl) :
  length prev = length w ->
  length
    (zip_with (fun hl hc_lc => fl_max2 hl (fl_max2 (fst hc_lc) (snd hc_lc)))
       (map (fun b => Fin (high b - low b)) w)
       (zip_with pair
          (zip_with (fun b c => fl_abs (fl_sub (Fin (high b)) c)) w prev)
          (zip_with (fun b c => fl_abs (fl_sub (Fin (low b)) c)) w prev)))
  = length w.
Proof.
  intros H. rewrite !zip_with_length, length_map, H. lia.
Qed.

(** With enough history inside the frame and bars whose low is not above
    their high, the average true range is finite and not negative. *)
Lemma calculate_atr_nonneg (df : list Bar) (period idx : Z) :
  0 < period -> period < idx <= len df ->
  Forall (fun b => (low b <= high b)%Q) df ->
  exists atr, calculate_atr df period idx = Some (Fin atr) /\ (0 <= atr)%Q.
Proof.
  intros Hperiod Hidx Hbars. unfold calculate_atr.
  replace (idx <? period + 1) with false by lia.
  set (w := iloc_slice df (idx - period) idx).
  assert (Hlen : len w = period).
  { unfold w. rewrite Windows.len_iloc_slice by lia. lia. }
  destruct (mean_nonneg
              (zip_with (fun hl hc_lc =>
                           fl_max2 hl (fl_max2 (fst hc_lc) (snd hc_lc)))
                 (map (fun b => Fin (high b - low b)) w)
                 (zip_with pair
                    (zip_with (fun b c => fl_abs (fl_sub (Fin (high b)) c))
                       w (shift1 (map close w)))
                    (zip_with (fun b c => fl_abs (fl_sub (Fin (low b)) c))
                       w (shift1 (map close w))))))
    as [atr [Hatr Hpos]].
  - intros Hnil. apply (f_equal (@length fl)) in Hnil.
    rewrite true_range_length in Hnil
      by (rewrite shift1_length, length_map; reflexivity).
    unfold len in Hlen. simpl in Hnil. lia.
  - apply true_range_rows; [apply shift1_entries |].
    apply List.Forall_forall. intros b Hb.
    apply BasicRecords.iloc_slice_In in Hb.
    rewrite List.Forall_forall in Hbars. apply Hbars. exact Hb.
  - exists atr. rewrite Hatr. split; [reflexivity | exact Hpos].
Qed.

End UltraIndicators.

(** X15. The strength index is a percentage: [calculate_rsi] answers only
    from [period + 1] bars of history on, and then with a finite value
    between 0 and 100, unless its window of the frame is empty, in which
    case the value is NaN. *)
Theorem rsi_is_a_percentage (df : list Bar) (period idx : Z) (r : fl) :
  UltraBacktester.calculate_rsi df period idx = Some r ->
  period + 1 <= idx /\
  match iloc_slice df (idx - period) idx with
  | [] => r = NaN
  | _ :: _ => exists q, r = Fin q /\ (0 <= q <= 100)%Q
  end.
Proof.
  exact (UltraIndicators.calculate_rsi_cases df period idx r).
Qed.

Lemma rsi_is_a_percentage_witness :
  exists q,
    UltraBacktester.calculate_rsi falling_frame 2 3 = Some (Fin q) /\
    (0 <= q <= 100)%Q.
Proof.
  destruct (UltraBacktester.calculate_rsi falling_frame 2 3) as [r |] eqn:Hr;
    [| vm_compute in Hr; discriminate].
  destruct (rsi_is_a_percentage falling_frame 2 3 r Hr) as [_ H].
  set (w := iloc_slice falling_frame (3 - 2) 3) in H.
  vm_compute in w. subst w. cbv iota in H.
  destruct H as [q [-> Hq]]. exists q. split; [reflexivity | exact Hq].
Defined.

(** X16. Stops from the average true range bracket the entry: with ATR
    stops on, at least [atr_period + 1] bars of history inside the frame and
    no bar whose low is above its high, the average true range is finite and
    not negative, the stop lies the distance [atr * atr_multiplier] from
    the entry and the target [risk_reward_ratio] times that distance on the
    other side; so with a multiplier and a ratio that are not negative the
    stop is never on the winning side of the entry, nor the target on the
    losing side. The box range plays no part. *)
Theorem atr_levels_bracket_the_entry
    (cfg : UltraBacktester.Config) (df : list Bar) (idx : Z) (entry : Q)
    (side : Side) (box_range : Q) :
  UltraBacktester.use_atr_stops cfg = true ->
  0 < UltraBacktester.atr_period cfg ->
  UltraBacktester.atr_period cfg < idx <= len df ->
  Forall (fun b => (low b <= high b)%Q) df ->
  exists atr,
    UltraBacktester.calculate_atr df (UltraBacktester.atr_period cfg) idx
      = Some (Fin atr) /\
    (0 <= atr)%Q /\
    let d := (atr * UltraBacktester.atr_multiplier cfg)%Q in
    let reward := (d * UltraBacktester.risk_reward_ratio cfg)%Q in
    UltraBacktester.calculate_tp_sl cfg df idx entry side box_range
      = match side with
        | BUY => (Fin (entry + reward), Fin (entry - d))
        | SELL => (Fin (entry - reward), Fin (entry + d))
        end /\
    ((0 <= UltraBacktester.atr_multiplier cfg)%Q ->
     (0 <= UltraBacktester.risk_reward_ratio cfg)%Q ->
     (0 <= d)%Q /\ (0 <= reward)%Q).
Proof.
  intros Huse Hperiod Hidx Hbars.
  destruct (UltraIndicators.calculate_atr_nonneg df
              (UltraBacktester.atr_period cfg) idx Hperiod Hidx Hbars)
    as [atr [Hatr Hpos]].
  exists atr. split; [exact Hatr |]. split; [exact Hpos |].
  cbv zeta. split.
  - unfold UltraBacktester.calculate_tp_sl. rewrite Huse, Hatr.
    destruct side; reflexivity.
  - intros Hm Hr.
    assert (Hd : (0 <= atr * UltraBacktester.atr_multiplier cfg)%Q)
      by (apply Qmult_le_0_compat; assumption).
    split; [exact Hd |]. apply Qmult_le_0_compat; assumption.
Qed.

Lemma atr_levels_bracket_the_entry_witness :
  exists atr,
    (0 <= atr)%Q /\
    UltraBacktester.calculate_tp_sl quick_ultra still_frame 15 100.4 BUY 0.5
    = (Fin (100.4 + atr * 2 * 2), Fin (100.4 - atr * 2)).
Proof.
  destruct (atr_levels_bracket_the_entry quick_ultra still_frame 15 100.4
              BUY 0.5) as [atr [_ [Hpos [Hlevels _]]]].
  - reflexivity.
  - reflexivity.
  - split; [reflexivity | vm_compute; discriminate].
  - apply List.Forall_forall. intros b Hb. apply repeat_spec in Hb.
    subst b. vm_compute. discriminate.
  - exists atr. split; [exact Hpos | exact Hlevels].
Defined.

(** ** The quality of a box *)

Module UltraQuality.

Import UltraBacktester.

Lemma count_at_least_one {A : Type} (p : A -> bool) (l : list A) (x : A) :
  In x l -> p x = true -> 1 <= len (List.filter p l).
Proof.
  intros Hin Hp.
  assert (H : In x (List.filter p l)) by (apply filter_In; auto).
  unfold len. destruct (List.filter p l); [destruct H | simpl; lia].
Qed.

Lemma filter_none {A : Type} (p : A -> bool) (l : list A) :
  (forall x, p x = false) -> List.filter p l = [].
Proof.
  intros Hp. induction l as [| x l IH]; simpl; [reflexivity |].
  rewrite Hp. exact IH.
Qed.

(** The levels the detector reports are the high of one bar of its window
    and the low of one. *)
Lemma identify_consolidation_levels (cfg : Config) (df : list Bar) (i : Z)
    (c : bool) (h l : Q) (r : option fl) :
  identify_consolidation cfg df i = (c, Some (Fin h), Some (Fin l), r) ->
  consolidation_periods cfg <= i /\
  (exists b, In b (iloc_slice df (i - consolidation_periods cfg) i) /\
             high b = h) /\
  (exists b, In b (iloc_slice df (i - consolidation_periods cfg) i) /\
             low b = l).
Proof.
  unfold identify_consolidation.
  destruct (i <? consolidation_periods cfg) eqn:Hi; [discriminate |].
  intros H. injection H as _ Hh Hl _. split; [lia |].
  destruct (iloc_slice df (i - consolidation_periods cfg) i) as [| b w] eqn:Hw;
    [discriminate |].
  destruct (Windows.series_max_spec high (b :: w)) as [m [Hm [_ Hex]]];
    [discriminate |].
  destruct (Windows.series_min_spec low (b :: w)) as [m' [Hm' [_ Hex']]];
    [discriminate |].
  rewrite Hm in Hh. rewrite Hm' in Hl.
  injection Hh as ->. injection Hl as ->. split; assumption.
Qed.

Lemma quality_of_detected_box (cfg : Config) (df : list Bar) (i : Z)
    (c : bool) (h l : Q) (r : option fl) :
  identify_consolidation cfg df i = (c, Some (Fin h), Some (Fin l), r) ->
  use_consolidation_quality cfg = true ->
  ((l < h)%Q -> min_touches cfg <= 2 ->
   check_consolidation_quality cfg df h l i = true) /\
  ((h <= l)%Q ->
   check_consolidation_quality cfg df h l i = (min_touches cfg <=? 0)).
Proof.
  intros Hbox Huse.
  destruct (identify_consolidation_levels cfg df i c h l r Hbox)
    as [Hi [[bh [Hbh Hhigh]] [bl [Hbl Hlow]]]].
  unfold check_consolidation_quality. rewrite Huse. simpl negb. cbv iota.
  replace (Z.max 0 (i - consolidation_periods cfg))
    with (i - consolidation_periods cfg) by lia.
  split.
  - intros Hpos Hmin. apply Z.leb_le.
    assert (Hup : 1 <= len (List.filter
                   (fun b => Qltb (Qabs (high b - h)) ((h - l) * 0.1))
                   (iloc_slice df (i - consolidation_periods cfg) i))).
    { apply (count_at_least_one _ _ bh Hbh). apply Qltb_lt. rewrite Hhigh.
      assert (Hz : (Qabs (h - h) == h - h)%Q) by (apply Qabs_pos; lra).
      lra. }
    assert (Hdown : 1 <= len (List.filter
                     (fun b => Qltb (Qabs (low b - l)) ((h - l) * 0.1))
                     (iloc_slice df (i - consolidation_periods cfg) i))).
    { apply (count_at_least_one _ _ bl Hbl). apply Qltb_lt. rewrite Hlow.
      assert (Hz : (Qabs (l - l) == l - l)%Q) by (apply Qabs_pos; lra).
      lra. }
    lia.
  - intros Hflat.
    rewrite !filter_none; [reflexivity | |].
    + intros b. destruct (Qltb _ _) eqn:E; [| reflexivity].
      apply Qltb_lt in E. pose proof (Qabs_nonneg (low b - l)). lra.
    + intros b. destruct (Qltb _ _) eqn:E; [| reflexivity].
      apply Qltb_lt in E. pose proof (Qabs_nonneg (high b - h)). lra.
Qed.

End UltraQuality.

(** X17. The quality filter on the box the detector found. The levels of
    the box are the high of one bar of the window and the low of one, and
    both bars count as touches when the box has a height; so with
    [min_touches] of 2 or less the filter passes every box of positive
    height. A box without height has no touch at all: it passes only when
    [min_touches] is zero or less. *)
Theorem quality_filter_on_a_detected_box
    (cfg : UltraBacktester.Config) (df : list Bar) (i : Z) (c : bool)
    (h l : Q) (r : option fl) :
  UltraBacktester.identify_consolidation cfg df i
    = (c, Some (Fin h), Some (Fin l), r) ->
  UltraBacktester.use_consolidation_quality cfg = true ->
  ((l < h)%Q -> UltraBacktester.min_touches cfg <= 2 ->
   UltraBacktester.check_consolidation_quality cfg df h l i = true) /\
  ((h <= l)%Q ->
   UltraBacktester.check_consolidation_quality cfg df h l i
   = (UltraBacktester.min_touches cfg <=? 0)).
Proof.
  exact (UltraQuality.quality_of_detected_box cfg df i c h l r).
Qed.

Lemma quality_filter_on_a_detected_box_witness :
  UltraBacktester.check_consolidation_quality quick_ultra flat_frame 100 100 2
  = false.
Proof.
  destruct (quality_filter_on_a_detected_box quick_ultra flat_frame 2 true
              100 100 (Some (Fin 0))) as [_ Hflat].
  - vm_compute. reflexivity.
  - reflexivity.
  - rewrite Hflat; [reflexivity | apply Qle_refl].
Defined.

(** ** How far the ultra engine looks ahead *)

Module UltraCausality.

Import UltraBacktester UltraDetail.

Section Prefix.

Variables (df1 df2 : list Bar) (n : nat).
Hypothesis Hprefix : firstn n df1 = firstn n df2.
Hypothesis Hlen1 : (n <= length df1)%nat.
Hypothesis Hlen2 : (n <= length df2)%nat.

Lemma iloc_agree (i : Z) :
  0 <= i < Z.of_nat n -> iloc df1 i = iloc df2 i.
Proof. exact (Causality.iloc_prefix df1 df2 n Hprefix Hlen1 Hlen2 i). Qed.

Lemma slice_agree (a b : Z) :
  0 <= a -> 0 <= b <= Z.of_nat n ->
  iloc_slice df1 a b = iloc_slice df2 a b.
Proof.
  exact (Causality.iloc_slice_prefix df1 df2 n Hprefix Hlen1 Hlen2 a b).
Qed.

Lemma calculate_rsi_agree (period i : Z) :
  0 <= i <= Z.of_nat n ->
  calculate_rsi df1 period i = calculate_rsi df2 period i.
Proof.
  intros Hi. unfold calculate_rsi.
  destruct (i <? period + 1) eqn:E; [reflexivity |].
  rewrite (slice_agree (i - period) i) by lia. reflexivity.
Qed.

Lemma calculate_sma_agree (period i : Z) :
  0 <= i <= Z.of_nat n ->
  calculate_sma df1 period i = calculate_sma df2 period i.
Proof.
  intros Hi. unfold calculate_sma.
  destruct (i <? period) eqn:E; [reflexivity |].
  rewrite (slice_agree (i - period) i) by lia. reflexivity.
Qed.

Lemma calculate_atr_agree (period i : Z) :
  0 <= i <= Z.of_nat n ->
  calculate_atr df1 period i = calculate_atr df2 period i.
Proof.
  intros Hi. unfold calculate_atr.
  destruct (i <? period + 1) eqn:E; [reflexivity |].
  rewrite (slice_agree (i - period) i) by lia. reflexivity.
Qed.

Lemma check_rsi_filter_agree (cfg : Config) (i : Z) (s : Side) :
  0 <= i <= Z.of_nat n ->
  check_rsi_filter cfg df1 i s = check_rsi_filter cfg df2 i s.
Proof.
  intros Hi. unfold check_rsi_filter.
  rewrite (calculate_rsi_agree (rsi_period cfg) i Hi). reflexivity.
Qed.

Lemma check_consolidation_quality_agree (cfg : Config) (h l : Q) (i : Z) :
  0 <= i <= Z.of_nat n ->
  check_consolidation_quality cfg df1 h l i
  = check_consolidation_quality cfg df2 h l i.
Proof.
  intros Hi. unfold check_consolidation_quality.
  rewrite (slice_agree (Z.max 0 (i - consolidation_periods cfg)) i) by lia.
  reflexivity.
Qed.

Lemma check_volume_agree (cfg : Config) (i : Z) :
  0 <= i < Z.of_nat n -> check_volume cfg df1 i = check_volume cfg df2 i.
Proof.
  intros Hi. unfold check_volume.
  destruct (i <? 20) eqn:E; [reflexivity |].
  rewrite (iloc_agree i Hi), (slice_agree (i - 20) i) by lia. reflexivity.
Qed.

Lemma check_trend_agree (cfg : Config) (i : Z) (s : Side) :
  0 <= i < Z.of_nat n -> check_trend cfg df1 i s = check_trend cfg df2 i s.
Proof.
  intros Hi. unfold check_trend.
  rewrite (calculate_sma_agree 20 i), (calculate_sma_agree (trend_period cfg) i),
    (iloc_agree i Hi) by lia.
  reflexivity.
Qed.

Lemma check_mtf_confirmation_agree (cfg : Config) (i : Z) (s : Side) :
  0 <= i < Z.of_nat n ->
  check_mtf_confirmation cfg df1 i s = check_mtf_confirmation cfg df2 i s.
Proof.
  intros Hi. unfold check_mtf_confirmation.
  rewrite (calculate_sma_agree (higher_tf_period cfg) i), (iloc_agree i Hi)
    by lia.
  reflexivity.
Qed.

Lemma confirm_scan_agree (idx : Z) (h l : Q) (s : Side) (offs : list Z) :
  (forall i, In i offs -> 0 <= idx + i < Z.of_nat n) ->
  confirm_scan df1 idx h l s offs = confirm_scan df2 idx h l s offs.
Proof.
  induction offs as [| i offs IH]; intros Hoffs; simpl; [reflexivity |].
  rewrite (iloc_agree (idx + i)) by (apply Hoffs; left; reflexivity).
  rewrite IH by (intros j Hj; apply Hoffs; right; exact Hj).
  reflexivity.
Qed.

(** The confirmation reads [confirmation_bars] bars past [i]: the two
    frames have to agree that far. *)
Lemma check_false_breakout_agree (cfg : Config) (i : Z) (h l : Q) (s : Side) :
  0 <= i -> i + lookahead cfg < Z.of_nat n ->
  check_false_breakout cfg df1 i h l s = check_false_breakout cfg df2 i h l s.
Proof.
  intros Hi Hahead. unfold check_false_breakout, lookahead in *.
  destruct (use_false_breakout_filter cfg); [| reflexivity]. simpl.
  unfold len.
  replace (Z.of_nat (length df1) <=? i + confirmation_bars cfg) with false
    by lia.
  replace (Z.of_nat (length df2) <=? i + confirmation_bars cfg) with false
    by lia.
  apply confirm_scan_agree. intros j Hj.
  apply UltraFilters.in_range in Hj. lia.
Qed.

Lemma identify_consolidation_agree (cfg : Config) (i : Z) :
  0 <= i <= Z.of_nat n ->
  identify_consolidation cfg df1 i = identify_consolidation cfg df2 i.
Proof.
  intros Hi. unfold identify_consolidation.
  destruct (i <? consolidation_periods cfg) eqn:E; [reflexivity |].
  rewrite (slice_agree (i - consolidation_periods cfg) i) by lia.
  reflexivity.
Qed.

Lemma detect_breakout_agree (cfg : Config) (st : State) (i : Z) (h l : Q) :
  0 <= i -> i + lookahead cfg < Z.of_nat n -> 0 <= lookahead cfg ->
  detect_breakout cfg df1 st i h l = detect_breakout cfg df2 st i h l.
Proof.
  intros Hi Hahead Hla. unfold detect_breakout.
  destruct (i <? 1) eqn:E; [reflexivity |].
  rewrite (iloc_agree i), (iloc_agree (i - 1)) by lia.
  destruct (iloc df2 i) as [cur |]; [| reflexivity].
  destruct (iloc df2 (i - 1)) as [prev |]; [| reflexivity]. simpl.
  destruct (if Qleb (close prev) h && Qgtb (close cur) h then Some BUY
            else if Qgeb (close prev) l && Qltb (close cur) l then Some SELL
            else None) as [s |]; [| reflexivity].
  rewrite (check_volume_agree cfg i), (check_trend_agree cfg i s),
    (check_rsi_filter_agree cfg i s),
    (check_consolidation_quality_agree cfg h l i),
    (check_false_breakout_agree cfg i h l s Hi Hahead),
    (check_mtf_confirmation_agree cfg i s) by lia.
  reflexivity.
Qed.

Lemma calculate_tp_sl_agree (cfg : Config) (i : Z) (entry : Q) (s : Side)
    (r : Q) :
  0 <= i <= Z.of_nat n ->
  calculate_tp_sl cfg df1 i entry s r = calculate_tp_sl cfg df2 i entry s r.
Proof.
  intros Hi. unfold calculate_tp_sl.
  rewrite (calculate_atr_agree (atr_period cfg) i Hi). reflexivity.
Qed.

Lemma loop_body_agree (cfg : Config) (st : State) (i : Z) :
  0 <= i -> i + lookahead cfg < Z.of_nat n -> 0 <= lookahead cfg ->
  loop_body cfg df1 st i = loop_body cfg df2 st i.
Proof.
  intros Hi Hahead Hla. unfold loop_body. rewrite (iloc_agree i) by lia.
  destruct (iloc df2 i) as [b |]; [| reflexivity]. simpl.
  destruct (exit_phase cfg st b) as [st1 |]; [| reflexivity]. simpl.
  unfold entry_phase.
  rewrite (identify_consolidation_agree cfg i) by lia.
  destruct (in_position (record_equity st1 (time b))); [reflexivity |].
  destruct (negb (can_trade_today cfg (record_equity st1 (time b)) (time b)));
    [reflexivity |].
  destruct (identify_consolidation cfg df2 i) as [[[c h] l] r].
  destruct c; [| reflexivity].
  destruct h as [[h | | |] |]; try reflexivity.
  destruct l as [[l | | |] |]; try reflexivity.
  destruct r as [[r | | |] |]; try reflexivity.
  rewrite (detect_breakout_agree cfg _ i h l Hi Hahead Hla).
  destruct (detect_breakout cfg df2 _ i h l) as [[st2 sig] |]; [| reflexivity].
  simpl. destruct sig as [s |]; [| reflexivity].
  rewrite (calculate_tp_sl_agree cfg i (close b) s r) by lia. reflexivity.
Qed.

Lemma for_loop_agree (cfg : Config) (idxs : list Z) :
  0 <= lookahead cfg ->
  (forall i, In i idxs -> 0 <= i /\ i + lookahead cfg < Z.of_nat n) ->
  forall st, for_loop cfg df1 idxs st = for_loop cfg df2 idxs st.
Proof.
  intros Hla. induction idxs as [| i idxs IH]; intros Hidx st; simpl;
    [reflexivity |].
  destruct (Hidx i (or_introl eq_refl)) as [Hi Hahead].
  rewrite (loop_body_agree cfg st i Hi Hahead Hla).
  destruct (loop_body cfg df2 st i) as [st1 |]; [| reflexivity]. simpl.
  apply IH. intros j Hj. apply Hidx. right. exact Hj.
Qed.

Lemma run_state_agree (cfg : Config) (s e : Z) (verbose : bool) :
  0 <= s < e -> e + lookahead cfg = Z.of_nat n ->
  run_state cfg df1 (Some s) (Some e) verbose
  = run_state cfg df2 (Some s) (Some e) verbose.
Proof.
  intros Hs He.
  assert (Hla : 0 <= lookahead cfg).
  { unfold lookahead. destruct (use_false_breakout_filter cfg); lia. }
  unfold run_state, loop_indices. simpl.
  rewrite (iloc_agree s), (iloc_agree (e - 1)) by lia.
  destruct (if verbose then _ else _); [| reflexivity]. simpl.
  rewrite (for_loop_agree cfg (range s e) Hla);
    [| intros i Hi; apply UltraFilters.in_range in Hi; lia].
  destruct (for_loop cfg df2 (range s e) (init_state cfg)) as [st |];
    [| reflexivity].
  simpl. unfold close_remaining. rewrite (iloc_agree (e - 1)) by lia.
  reflexivity.
Qed.

End Prefix.

End UltraCausality.

(** X18. The ultra engine looks ahead, and no further than its
    confirmation: a replay from [s] to [e] depends on the bars before [e]
    and, with the false-breakout filter on, on the [confirmation_bars] bars
    that follow. Two series that agree that far are replayed to the same
    state. *)
Theorem ultra_replay_looks_ahead_by_confirmation_only
    (cfg : UltraBacktester.Config) (df1 df2 : list Bar) (s e : Z)
    (verbose : bool) :
  0 <= s < e ->
  e + UltraDetail.lookahead cfg <= len df1 ->
  e + UltraDetail.lookahead cfg <= len df2 ->
  firstn (Z.to_nat (e + UltraDetail.lookahead cfg)) df1
  = firstn (Z.to_nat (e + UltraDetail.lookahead cfg)) df2 ->
  UltraBacktester.run_state cfg df1 (Some s) (Some e) verbose
  = UltraBacktester.run_state cfg df2 (Some s) (Some e) verbose.
Proof.
  intros Hs H1 H2 Hprefix. unfold len in *.
  assert (Hla : 0 <= UltraDetail.lookahead cfg).
  { unfold UltraDetail.lookahead.
    destruct (UltraBacktester.use_false_breakout_filter cfg); lia. }
  apply (UltraCausality.run_state_agree df1 df2
           (Z.to_nat (e + UltraDetail.lookahead cfg)) Hprefix);
    lia.
Qed.

Lemma ultra_replay_looks_ahead_by_confirmation_only_witness :
  UltraBacktester.run_state quick_ultra breakout_frame (Some 2) (Some 3) false
  = UltraBacktester.run_state quick_ultra extended_frame (Some 2) (Some 3)
      false.
Proof.
  apply (ultra_replay_looks_ahead_by_confirmation_only quick_ultra
           breakout_frame extended_frame 2 3 false).
  - lia.
  - vm_compute. discriminate.
  - vm_compute. discriminate.
  - reflexivity.
Defined.

(** ** The transitions of the ultra engine *)

Module UltraTransitions.

Import UltraBacktester UltraDetail.

Lemma close_trade_inv (cfg : Config) (st st' : State) (p : fl) (tm : Z)
    (reason : ExitReason) (t : OpenTrade) :
  close_trade cfg st p tm reason = Ok st' ->
  in_position st = true -> current_trade st = Some t ->
  st' = closed_state cfg st t p tm reason.
Proof.
  unfold close_trade. intros H Hpos Ht. rewrite Hpos, Ht in H. simpl in H.
  injection H as <-. reflexivity.
Qed.

(** What an update of the trailing stop can have done to the open trade. *)
Lemma update_trailing_stop_inv (cfg : Config) (st st' : State) (h l : Q)
    (t : OpenTrade) :
  update_trailing_stop cfg st h l = Ok st' ->
  current_trade st = Some t ->
  exists t',
    current_trade st' = Some t' /\
    ot_type t' = ot_type t /\ ot_entry_price t' = ot_entry_price t /\
    ot_entry_time t' = ot_entry_time t /\
    ot_take_profit t' = ot_take_profit t /\
    ot_stop_loss t' = ot_stop_loss t /\
    (ot_trailing_stop t' = ot_trailing_stop t \/
     exists ts new,
       ot_trailing_stop t = Some ts /\
       ot_trailing_stop t' = Some (Fin new) /\
       match ot_type t with
       | BUY => fl_ltb ts (Fin new) = true
       | SELL => fl_ltb (Fin new) ts = true
       end).
Proof.
  intros H Ht.
  assert (Hsame : exists t',
              current_trade st = Some t' /\
              ot_type t' = ot_type t /\ ot_entry_price t' = ot_entry_price t /\
              ot_entry_time t' = ot_entry_time t /\
              ot_take_profit t' = ot_take_profit t /\
              ot_stop_loss t' = ot_stop_loss t /\
              (ot_trailing_stop t' = ot_trailing_stop t \/
               exists ts new,
                 ot_trailing_stop t = Some ts /\
                 ot_trailing_stop t' = Some (Fin new) /\
                 match ot_type t with
                 | BUY => fl_ltb ts (Fin new) = true
                 | SELL => fl_ltb (Fin new) ts = true
                 end)).
  { exists t. repeat split; auto. }
  unfold update_trailing_stop in H. rewrite Ht in H.
  destruct (negb (use_trailing_stop cfg) || negb (in_position st));
    [injection H as <-; exact Hsame |].
  destruct (ot_type t) eqn:Hty.
  - destruct (highest_price_in_trade st) as [hi |]; [| discriminate].
    destruct (Qgtb h hi); [| injection H as <-; exact Hsame].
    destruct (ot_trailing_stop t) as [ts |] eqn:Hts; [| discriminate].
    match type of H with
    | context [if ?c then with_trailing_stop _ _ else _] =>
        destruct c eqn:Hlt
    end; injection H as <-.
    + eexists. split; [reflexivity |]. simpl. repeat split; try assumption.
      right. exists ts. eexists. repeat split. exact Hlt.
    + exists t. simpl. repeat split; auto.
  - destruct (lowest_price_in_trade st) as [lo |]; [| discriminate].
    destruct (Qltb l lo); [| injection H as <-; exact Hsame].
    destruct (ot_trailing_stop t) as [ts |] eqn:Hts; [| discriminate].
    match type of H with
    | context [if ?c then with_trailing_stop _ _ else _] =>
        destruct c eqn:Hlt
    end; injection H as <-.
    + eexists. split; [reflexivity |]. simpl. repeat split; try assumption.
      right. exists ts. eexists. repeat split. exact Hlt.
    + exists t. simpl. repeat split; auto.
Qed.

(** What the exit check reports: the target, or the stop of the mode. *)
Lemma check_trade_exit_inv (cfg : Config) (st st1 : State) (b : Bar)
    (x : option (fl * ExitReason)) (t0 : OpenTrade) :
  check_trade_exit cfg st b = Ok (st1, x) ->
  in_position st = true -> current_trade st = Some t0 ->
  update_trailing_stop cfg st (high b) (low b) = Ok st1 /\
  exists t,
    current_trade st1 = Some t /\
    match x with
    | None => True
    | Some (p, reason) => exit_kind cfg t p reason
    end.
Proof.
  unfold check_trade_exit, exit_kind. intros H Hpos Ht0.
  rewrite Hpos, Ht0 in H.
  destruct (update_trailing_stop cfg st (high b) (low b)) as [st2 |] eqn:Hup;
    [| discriminate].
  unfold bind in H.
  destruct (current_trade st2) as [t |] eqn:Ht; [| discriminate].
  destruct (use_trailing_stop cfg) eqn:Huse.
  - destruct (ot_type t).
    + destruct (fl_leb (ot_take_profit t) (Fin (high b)));
        [injection H as <- <-; split; [reflexivity |]; exists t; auto 10 |].
      destruct (ot_trailing_stop t) as [ts |] eqn:Hts; [| discriminate].
      destruct (fl_leb (Fin (low b)) ts); injection H as <- <-;
        (split; [reflexivity |]); exists t; auto 10.
    + destruct (fl_leb (Fin (low b)) (ot_take_profit t));
        [injection H as <- <-; split; [reflexivity |]; exists t; auto 10 |].
      destruct (ot_trailing_stop t) as [ts |] eqn:Hts; [| discriminate].
      destruct (fl_leb ts (Fin (high b))); injection H as <- <-;
        (split; [reflexivity |]); exists t; auto 10.
  - destruct (ot_type t).
    + destruct (fl_leb (ot_take_profit t) (Fin (high b)));
        [injection H as <- <-; split; [reflexivity |]; exists t; auto 10 |].
      destruct (fl_leb (Fin (low b)) (ot_stop_loss t)); injection H as <- <-;
        (split; [reflexivity |]); exists t; auto 10.
    + destruct (fl_leb (Fin (low b)) (ot_take_profit t));
        [injection H as <- <-; split; [reflexivity |]; exists t; auto 10 |].
      destruct (fl_leb (ot_stop_loss t) (Fin (high b))); injection H as <- <-;
        (split; [reflexivity |]); exists t; auto 10.
Qed.

Lemma ultra_exit_phase_inv (cfg : Config) (st st' : State) (b : Bar) :
  armed cfg st -> exit_phase cfg st b = Ok st' -> exit_step cfg st b st'.
Proof.
  intros Harmed. unfold exit_phase, exit_step, armed in *.
  destruct (in_position st) eqn:Hpos; [| intros [= <-]; left; auto].
  destruct Harmed as [t0 [_ [_ [Ht0 _]]]].
  destruct (check_trade_exit cfg st b) as [[st1 x] |] eqn:Hx; [| discriminate].
  destruct (check_trade_exit_inv cfg st st1 b x t0 Hx Hpos Ht0)
    as [Hup [t [Ht Hkind]]].
  simpl. intros H. right. split; [reflexivity |].
  exists st1, t. split; [exact Hup |]. split; [exact Ht |].
  destruct x as [[p reason] |].
  - right. exists p, reason. split; [exact Hkind |].
    apply (close_trade_inv cfg st1 st' p (time b) reason t H); [| exact Ht].
    destruct (UltraTrailing.update_trailing_stop_frame cfg st st1 _ _ Hup)
      as [_ [Hpos1 _]].
    congruence.
  - injection H as <-. left. reflexivity.
Qed.

Lemma ultra_entry_phase_inv (cfg : Config) (df : list Bar) (i : Z)
    (st st' : State) (b : Bar) :
  entry_phase cfg df i st b = Ok st' -> entry_step cfg st b st'.
Proof.
  unfold entry_phase, entry_step.
  destruct (in_position st) eqn:Hpos; [intros [= <-]; auto |].
  destruct (can_trade_today cfg st (time b)) eqn:Hcan; simpl;
    [| intros [= <-]; auto].
  destruct (identify_consolidation cfg df i) as [[[c h] l] r].
  destruct c; [| intros [= <-]; auto].
  destruct h as [[h | | |] |]; try (intros [= <-]; auto; fail).
  destruct l as [[l | | |] |]; try (intros [= <-]; auto; fail).
  destruct r as [[r | | |] |]; try (intros [= <-]; auto; fail).
  destruct (detect_breakout cfg df st i h l) as [[st1 sig] |] eqn:Hd;
    [| discriminate].
  destruct (UltraSignals.detect_breakout_cases cfg df st st1 i h l sig Hd)
    as [raw [_ Hcases]].
  simpl. destruct sig as [s |].
  - destruct raw as [s0 |]; [| destruct Hcases].
    destruct Hcases as [_ ->].
    destruct (calculate_tp_sl cfg df i (close b) s r) as [tp sl].
    intros [= <-]. right. split; [reflexivity |]. right.
    split; [reflexivity |]. exists s, tp, sl. reflexivity.
  - intros [= <-]. destruct raw as [s0 |].
    + destruct Hcases as [k ->]. right. split; [reflexivity |]. left. eauto.
    + left. exact Hcases.
Qed.

(** An iteration that returns is an exit step, the equity sample, and an
    entry step. *)
Lemma ultra_loop_body_inv (cfg : Config) (df : list Bar) (st st' : State) (i : Z) :
  armed cfg st -> loop_body cfg df st i = Ok st' ->
  exists b st1,
    iloc df i = Ok b /\ exit_step cfg st b st1 /\
    entry_step cfg (record_equity st1 (time b)) b st'.
Proof.
  intros Harmed. unfold loop_body.
  destruct (iloc df i) as [b |]; [| discriminate]. simpl.
  destruct (exit_phase cfg st b) as [st1 |] eqn:Hexit; [| discriminate].
  simpl. intros Hentry. exists b, st1. split; [reflexivity |].
  split; [apply ultra_exit_phase_inv; assumption |].
  apply (ultra_entry_phase_inv cfg df i). exact Hentry.
Qed.

Lemma exit_step_armed (cfg : Config) (st st' : State) (b : Bar) :
  armed cfg st -> exit_step cfg st b st' -> armed cfg st'.
Proof.
  intros Harmed [[_ ->] | [Hpos [st1 [t [Hup [Ht Hnext]]]]]]; [exact Harmed |].
  destruct (UltraRun.update_trailing_stop_armed cfg st (high b) (low b)
              Harmed Hpos) as [st1' [Hup' [Harmed1 _]]].
  rewrite Hup in Hup'. injection Hup' as <-.
  destruct Hnext as [-> | [p [reason [_ ->]]]]; [exact Harmed1 |].
  apply UltraRun.flat_armed; reflexivity.
Qed.

Lemma entry_step_armed (cfg : Config) (st st' : State) (b : Bar) :
  armed cfg st -> entry_step cfg st b st' -> armed cfg st'.
Proof.
  intros Harmed [-> | [_ [[k ->] | [_ [s [tp [sl ->]]]]]]].
  - exact Harmed.
  - exact Harmed.
  - unfold armed. simpl. eexists. exists (close b), (close b).
    split; [reflexivity |]. split; [reflexivity |]. split; [reflexivity |].
    simpl. intros ->. eauto.
Qed.

Lemma loop_body_keeps_armed (cfg : Config) (df : list Bar) (st st' : State)
    (i : Z) :
  armed cfg st -> loop_body cfg df st i = Ok st' -> armed cfg st'.
Proof.
  intros Harmed Hbody.
  destruct (ultra_loop_body_inv cfg df st st' i Harmed Hbody)
    as [b [st1 [_ [Hexit Hentry]]]].
  apply (entry_step_armed cfg (record_equity st1 (time b)) st' b);
    [| exact Hentry].
  apply UltraRun.record_equity_armed.
  apply (exit_step_armed cfg st st1 b); assumption.
Qed.

(** An invariant of the iterations holds for the state the loop returns. *)
Lemma ultra_for_loop_keeps (cfg : Config) (df : list Bar)
    (I : list Z -> State -> Prop) :
  (forall done i st st',
     armed cfg st -> I done st -> loop_body cfg df st i = Ok st' ->
     I (done ++ [i]) st') ->
  forall rest done st st',
    armed cfg st -> I done st -> for_loop cfg df rest st = Ok st' ->
    armed cfg st' /\ I (done ++ rest) st'.
Proof.
  intros Hstep rest.
  induction rest as [| i rest IH]; intros done st st' Harmed HI Hloop;
    simpl in Hloop.
  - injection Hloop as <-. rewrite app_nil_r. auto.
  - destruct (loop_body cfg df st i) as [st1 |] eqn:Hbody; [| discriminate].
    simpl in Hloop.
    replace (done ++ i :: rest) with ((done ++ [i]) ++ rest)
      by (rewrite <- app_assoc; reflexivity).
    apply (IH (done ++ [i]) st1 st').
    + apply (loop_body_keeps_armed cfg df st st1 i); assumption.
    + apply (Hstep done i st st1); assumption.
    + exact Hloop.
Qed.

(** What a run that returns went through: the loop, then the forced close
    of a trade that is still open. *)
Lemma ultra_run_keeps (cfg : Config) (df : list Bar) (s e : option Z)
    (verbose : bool) (I : list Z -> State -> Prop) (st : State) :
  I [] (init_state cfg) ->
  (forall done i st st',
     armed cfg st -> I done st -> loop_body cfg df st i = Ok st' ->
     I (done ++ [i]) st') ->
  run_state cfg df s e verbose = Ok st ->
  exists st_loop,
    armed cfg st_loop /\ I (loop_indices cfg df s e) st_loop /\
    ((in_position st_loop = false /\ st = st_loop) \/
     (in_position st_loop = true /\
      exists t b,
        current_trade st_loop = Some t /\
        st = closed_state cfg st_loop t (Fin (close b)) (time b)
               END_OF_DATA)).
Proof.
  intros H0 Hstep. unfold run_state.
  destruct (if verbose then _ else _); [| discriminate]. simpl.
  destruct (for_loop cfg df (loop_indices cfg df s e) (init_state cfg))
    as [st_loop |] eqn:Hloop; [| discriminate].
  simpl. intros Hclose.
  destruct (ultra_for_loop_keeps cfg df I Hstep (loop_indices cfg df s e) []
              (init_state cfg) st_loop (UltraRun.armed_init cfg) H0 Hloop)
    as [Harmed HI].
  exists st_loop. split; [exact Harmed |]. split; [exact HI |].
  unfold close_remaining in Hclose.
  destruct (in_position st_loop) eqn:Hpos; [| injection Hclose as <-; auto].
  destruct (iloc df _) as [b |]; [| discriminate]. simpl in Hclose.
  pose proof Harmed as Ht. unfold armed in Ht. rewrite Hpos in Ht.
  destruct Ht as [t [_ [_ [Ht _]]]].
  right. split; [reflexivity |]. exists t, b. split; [exact Ht |].
  apply (close_trade_inv cfg st_loop st _ _ _ t Hclose Hpos Ht).
Qed.

End UltraTransitions.

(** ** One decision per bar *)

Module UltraTally.

Import UltraBacktester UltraDetail.

Lemma decisions_exit (cfg : Config) (st st1 : State) (b : Bar) :
  exit_step cfg st b st1 ->
  decisions st1 = decisions st /\ rejected_trades st1 = rejected_trades st.
Proof.
  intros [[_ ->] | [Hpos [st0 [t [Hup [Ht Hnext]]]]]]; [auto |].
  destruct (UltraTrailing.update_trailing_stop_frame cfg st st0 _ _ Hup)
    as [_ [Hpos0 [Htr [_ [_ Hrej]]]]].
  assert (H0 : decisions st0 = decisions st).
  { unfold decisions, total_rejected. rewrite Hpos0, Htr, Hrej. reflexivity. }
  destruct Hnext as [-> | [p [reason [_ ->]]]]; [auto |].
  split; [| exact Hrej]. rewrite <- H0.
  unfold decisions, total_rejected, closed_state, len. simpl.
  rewrite Hpos0, Hpos, length_app. simpl. lia.
Qed.

Lemma decisions_entry (cfg : Config) (st st' : State) (b : Bar) :
  entry_step cfg st b st' ->
  decisions st <= decisions st' <= decisions st + 1 /\
  forall k, rejected_trades st k <= rejected_trades st' k.
Proof.
  intros [-> | [Hpos [[k ->] | [_ [s [tp [sl ->]]]]]]].
  - split; [lia | intros k; lia].
  - split.
    + unfold decisions. rewrite UltraSignals.total_rejected_reject.
      simpl. lia.
    + intros k'. simpl. destruct (FilterName_eqb k k'); lia.
  - split; [| intros k; simpl; lia].
    unfold decisions, total_rejected. simpl. rewrite Hpos. lia.
Qed.

Lemma loop_body_decisions (cfg : Config) (df : list Bar) (st st' : State)
    (i : Z) :
  armed cfg st -> loop_body cfg df st i = Ok st' ->
  decisions st' <= decisions st + 1 /\
  forall k, rejected_trades st k <= rejected_trades st' k.
Proof.
  intros Harmed Hbody.
  destruct (UltraTransitions.ultra_loop_body_inv cfg df st st' i Harmed Hbody)
    as [b [st1 [_ [Hexit Hentry]]]].
  destruct (decisions_exit cfg st st1 b Hexit) as [H1 Hrej1].
  destruct (decisions_entry cfg _ st' b Hentry) as [H2 Hrej2].
  change (decisions (record_equity st1 (time b))) with (decisions st1) in H2.
  split; [lia |]. intros k. specialize (Hrej2 k). simpl in Hrej2.
  rewrite Hrej1 in Hrej2. exact Hrej2.
Qed.

(** An iteration opens a trade, or counts a rejection, or does neither. *)
Lemma loop_body_counts (cfg : Config) (df : list Bar) (st st' : State)
    (i : Z) :
  armed cfg st -> loop_body cfg df st i = Ok st' ->
  (opened st' = opened st /\ total_rejected st' = total_rejected st) \/
  (opened st' = opened st + 1 /\ total_rejected st' = total_rejected st) \/
  (opened st' = opened st /\ total_rejected st' = total_rejected st + 1).
Proof.
  intros Harmed Hbody.
  destruct (UltraTransitions.ultra_loop_body_inv cfg df st st' i Harmed Hbody)
    as [b [st1 [_ [Hexit Hentry]]]].
  destruct (decisions_exit cfg st st1 b Hexit) as [H1 Hrej1].
  assert (Hopen1 : opened st1 = opened st /\
                   total_rejected st1 = total_rejected st).
  { unfold decisions, total_rejected in H1. unfold opened, total_rejected.
    rewrite Hrej1 in *. split; [lia | reflexivity]. }
  destruct Hopen1 as [Ho1 Hr1]. rewrite <- Ho1, <- Hr1.
  destruct Hentry as [-> | [Hpos [[k ->] | [_ [s [tp [sl ->]]]]]]].
  - left. split; reflexivity.
  - right. right. split; [reflexivity |].
    exact (UltraSignals.total_rejected_reject k (record_equity st1 (time b))).
  - right. left. simpl in Hpos. split; [| reflexivity].
    unfold opened. simpl. rewrite Hpos. lia.
Qed.

(** The states a run passes through are armed. *)
Lemma for_loop_armed_prefix (cfg : Config) (df : list Bar) (done : list Z)
    (st : State) :
  for_loop cfg df done (init_state cfg) = Ok st -> armed cfg st.
Proof.
  intros Hloop.
  destruct (UltraTransitions.ultra_for_loop_keeps cfg df (fun _ _ => True)
              (fun _ _ _ _ _ _ _ => I) done [] (init_state cfg) st
              (UltraRun.armed_init cfg) I Hloop) as [Harmed _].
  exact Harmed.
Qed.

Lemma run_decisions (cfg : Config) (df : list Bar) (s e : option Z)
    (verbose : bool) (st : State) :
  run_state cfg df s e verbose = Ok st ->
  len (trades st) + total_rejected st <= len (loop_indices cfg df s e) /\
  forall k, 0 <= rejected_trades st k.
Proof.
  intros Hrun.
  destruct (UltraTransitions.ultra_run_keeps cfg df s e verbose
              (fun done st => decisions st <= len done /\
                              forall k, 0 <= rejected_trades st k) st)
    as [st_loop [_ [[Hdec Hrej] Hend]]].
  - split; [unfold decisions, total_rejected, len; simpl; lia |].
    intros k. simpl. lia.
  - intros done i st0 st0' Harmed [Hdec Hrej] Hbody.
    destruct (loop_body_decisions cfg df st0 st0' i Harmed Hbody)
      as [Hd Hr].
    split.
    + unfold len in *. rewrite length_app. simpl. lia.
    + intros k. specialize (Hrej k). specialize (Hr k). lia.
  - exact Hrun.
  - destruct Hend as [[Hpos ->] | [Hpos [t [b [_ ->]]]]].
    + split; [| exact Hrej]. unfold decisions in Hdec. rewrite Hpos in Hdec.
      lia.
    + split; [| exact Hrej]. unfold decisions in Hdec. rewrite Hpos in Hdec.
      unfold closed_state, total_rejected, len in *. simpl.
      rewrite length_app. simpl in *. lia.
Qed.

End UltraTally.

(** X19. The ultra engine decides at most once per bar. Whatever bars the
    loop has been through, its next iteration either opens one trade, or
    raises one rejection counter by one, or does neither: the number of
    trades opened so far (closed or still open) and the total of the
    rejection counters never go down, and at most one of them goes up, by
    one. So after a run the number of recorded trades plus the total of the
    rejection counters is at most the number of bars replayed, and no
    counter is negative. *)
Theorem ultra_decides_at_most_once_per_bar
    (cfg : UltraBacktester.Config) (df : list Bar) :
  (forall (done : list Z) (i : Z) (st st' : UltraBacktester.State),
     UltraBacktester.for_loop cfg df done (UltraBacktester.init_state cfg)
       = Ok st ->
     UltraBacktester.loop_body cfg df st i = Ok st' ->
     (UltraDetail.opened st' = UltraDetail.opened st /\
      UltraDetail.total_rejected st' = UltraDetail.total_rejected st) \/
     (UltraDetail.opened st' = UltraDetail.opened st + 1 /\
      UltraDetail.total_rejected st' = UltraDetail.total_rejected st) \/
     (UltraDetail.opened st' = UltraDetail.opened st /\
      UltraDetail.total_rejected st' = UltraDetail.total_rejected st + 1)) /\
  (forall (s e : option Z) (verbose : bool) (st : UltraBacktester.State),
     UltraBacktester.run_state cfg df s e verbose = Ok st ->
     len (UltraBacktester.trades st) + UltraDetail.total_rejected st
       <= len (UltraBacktester.loop_indices cfg df s e) /\
     forall k, 0 <= UltraBacktester.rejected_trades st k).
Proof.
  split.
  - intros done i st st' Hloop Hbody.
    apply (UltraTally.loop_body_counts cfg df st st' i); [| exact Hbody].
    apply (UltraTally.for_loop_armed_prefix cfg df done st Hloop).
  - intros s e verbose st.
    exact (UltraTally.run_decisions cfg df s e verbose st).
Qed.

Lemma ultra_decides_at_most_once_per_bar_witness :
  (exists st',
     UltraBacktester.loop_body quick_ultra breakout_frame
       (UltraBacktester.init_state quick_ultra) 2 = Ok st' /\
     UltraDetail.opened st' = 0 /\ UltraDetail.total_rejected st' = 1) /\
  exists st,
    UltraBacktester.run_state quick_ultra breakout_frame None None false
      = Ok st /\
    len (UltraBacktester.trades st) + UltraDetail.total_rejected st <= 1.
Proof.
  destruct (ultra_decides_at_most_once_per_bar quick_ultra breakout_frame)
    as [Hstep Hrun].
  split.
  - destruct (UltraBacktester.loop_body quick_ultra breakout_frame
                (UltraBacktester.init_state quick_ultra) 2) as [st' |] eqn:Hb;
      [| vm_compute in Hb; discriminate].
    exists st'. split; [reflexivity |].
    destruct (Hstep [] 2 (UltraBacktester.init_state quick_ultra) st'
                eq_refl Hb) as [[H1 H2] | [[H1 H2] | [H1 H2]]].
    + exfalso. vm_compute in Hb. injection Hb as <-. vm_compute in H2.
      discriminate.
    + exfalso. vm_compute in Hb. injection Hb as <-. vm_compute in H2.
      discriminate.
    + split; [exact H1 | exact H2].
  - destruct (UltraBacktester.run_state quick_ultra breakout_frame None None
                false) as [st |] eqn:Hr; [| vm_compute in Hr; discriminate].
    exists st. split; [reflexivity |].
    destruct (Hrun None None false st Hr) as [H _]. exact H.
Defined.

(** ** The daily cap of the ultra engine *)

Module UltraDailyCap.

Import UltraBacktester UltraDetail.

Lemma ultra_opened_on_app (d : Z) (l : list TradeRecord) (r : TradeRecord) :
  opened_on d (l ++ [r])
  = opened_on d l + (if date_str (tr_entry_time r) =? d then 1 else 0).
Proof.
  unfold opened_on, len. rewrite List.filter_app, length_app. simpl.
  destruct (date_str (tr_entry_time r) =? d); simpl; lia.
Qed.

Lemma ultra_counted_closed (cfg : Config) (st : State) (t : OpenTrade) (p : fl)
    (tm : Z) (reason : ExitReason) :
  current_trade st = Some t -> counted cfg st ->
  counted cfg (closed_state cfg st t p tm reason).
Proof.
  intros Ht HK d. destruct (HK d) as [H1 H2].
  unfold closed_state, current_on in *. simpl.
  rewrite ultra_opened_on_app. simpl. rewrite Ht in H1. split; [lia | exact H2].
Qed.

Lemma counted_exit (cfg : Config) (st st1 : State) (b : Bar) :
  armed cfg st -> exit_step cfg st b st1 -> counted cfg st ->
  counted cfg st1.
Proof.
  intros Harmed [[_ ->] | [Hpos [st0 [t [Hup [Ht Hnext]]]]]] HK; [exact HK |].
  assert (HK0 : counted cfg st0).
  { unfold armed in Harmed. rewrite Hpos in Harmed.
    destruct Harmed as [t0 [_ [_ [Ht0 _]]]].
    destruct (UltraTransitions.update_trailing_stop_inv cfg st st0 _ _ t0
                Hup Ht0) as [t' [Ht' [_ [_ [Htime _]]]]].
    destruct (UltraTrailing.update_trailing_stop_frame cfg st st0 _ _ Hup)
      as [_ [_ [Htr [_ [Hday _]]]]].
    intros d. destruct (HK d) as [H1 H2].
    unfold current_on in *. rewrite Ht', Htime, Htr, Hday.
    rewrite Ht0 in H1. auto. }
  destruct Hnext as [-> | [p [reason [_ ->]]]]; [exact HK0 |].
  apply ultra_counted_closed; assumption.
Qed.

Lemma counted_entry (cfg : Config) (st st' : State) (b : Bar) :
  armed cfg st -> entry_step cfg st b st' -> counted cfg st ->
  counted cfg st'.
Proof.
  intros Harmed [-> | [Hpos [[k ->] | [Hcan [s [tp [sl ->]]]]]]] HK;
    [exact HK | exact HK |].
  unfold armed in Harmed. rewrite Hpos in Harmed.
  unfold can_trade_today in Hcan. apply Z.ltb_lt in Hcan.
  intros d. destruct (HK d) as [H1 H2].
  unfold current_on in *. rewrite Harmed in H1.
  unfold entered_state. simpl.
  destruct (Z.eqb_spec (date_str (time b)) d) as [Heq | Hne].
  - subst d. rewrite lookup_insert_eq. simpl. split; lia.
  - rewrite lookup_insert_ne by exact Hne. split; [lia | exact H2].
Qed.

Lemma ultra_run_counted (cfg : Config) (df : list Bar) (s e : option Z)
    (verbose : bool) (st : State) :
  run_state cfg df s e verbose = Ok st ->
  forall d,
    opened_on d (trades st) = default 0 (daily_trades_count st !! d) /\
    opened_on d (trades st) <= Z.max 0 (max_daily_trades cfg).
Proof.
  intros Hrun.
  destruct (UltraTransitions.ultra_run_keeps cfg df s e verbose
              (fun _ st => counted cfg st) st)
    as [st_loop [Harmed [HK Hend]]].
  - intros d. unfold opened_on, current_on, len. simpl.
    rewrite lookup_empty. simpl. lia.
  - intros done i st0 st0' Harmed HK Hbody.
    destruct (UltraTransitions.ultra_loop_body_inv cfg df st0 st0' i Harmed Hbody)
      as [b [st1 [_ [Hexit Hentry]]]].
    apply (counted_entry cfg (record_equity st1 (time b)) st0' b).
    + apply UltraRun.record_equity_armed.
      apply (UltraTransitions.exit_step_armed cfg st0 st1 b); assumption.
    + exact Hentry.
    + apply (counted_exit cfg st0 st1 b Harmed Hexit HK).
  - exact Hrun.
  - assert (HKf : counted cfg st /\ current_trade st = None).
    { destruct Hend as [[Hpos ->] | [Hpos [t [b [Ht ->]]]]].
      - split; [exact HK |]. unfold armed in Harmed.
        rewrite Hpos in Harmed. exact Harmed.
      - split; [apply ultra_counted_closed; assumption | reflexivity]. }
    destruct HKf as [HKf Hnone]. intros d. destruct (HKf d) as [H1 H2].
    unfold current_on in H1. rewrite Hnone in H1. lia.
Qed.

End UltraDailyCap.

(** X20. The daily cap holds in the ultra engine too: after a run every
    day's counter is the number of recorded trades entered that day, and
    that number is at most [max_daily_trades] (none when the cap is not
    positive), whatever the filters and the stop mode are. *)
Theorem ultra_daily_cap_limits_entries
    (cfg : UltraBacktester.Config) (df : list Bar) (s e : option Z)
    (verbose : bool) (st : UltraBacktester.State) :
  UltraBacktester.run_state cfg df s e verbose = Ok st ->
  forall d,
    UltraDetail.opened_on d (UltraBacktester.trades st)
      = default 0 (UltraBacktester.daily_trades_count st !! d) /\
    UltraDetail.opened_on d (UltraBacktester.trades st)
      <= Z.max 0 (UltraBacktester.max_daily_trades cfg).
Proof.
  exact (UltraDailyCap.ultra_run_counted cfg df s e verbose st).
Qed.

Lemma ultra_daily_cap_limits_entries_witness :
  exists st,
    UltraBacktester.run_state (open_ultra true false) two_signal_frame None None
      false = Ok st /\
    UltraDetail.opened_on 0 (UltraBacktester.trades st) <= 5.
Proof.
  destruct (UltraBacktester.run_state (open_ultra true false) two_signal_frame
              None None false) as [st |] eqn:Hrun;
    [| vm_compute in Hrun; discriminate].
  exists st. split; [reflexivity |].
  destruct (ultra_daily_cap_limits_entries (open_ultra true false)
              two_signal_frame None None false st Hrun 0) as [_ H].
  exact H.
Defined.

(** ** The records of the ultra engine *)

Module UltraRecords.

Import UltraBacktester UltraDetail.

Lemma fl_ltb_trans (a b c : fl) :
  fl_ltb a b = true -> fl_ltb b c = true -> fl_ltb a c = true.
Proof.
  destruct a as [x | | |], b as [y | | |], c as [z | | |]; simpl;
    try discriminate; try reflexivity.
  intros H1 H2. apply Qltb_lt in H1, H2. apply Qltb_lt. lra.
Qed.

Lemma trailing_update (cfg : Config) (st st1 : State) (h l : Q)
    (t0 : OpenTrade) :
  update_trailing_stop cfg st h l = Ok st1 -> current_trade st = Some t0 ->
  trailing st -> trailing st1.
Proof.
  intros Hup Ht0 Htrail t ts Ht Hts.
  destruct (UltraTransitions.update_trailing_stop_inv cfg st st1 h l t0
              Hup Ht0)
    as [t' [Ht' [Hty [_ [_ [_ [Hsl Hstop]]]]]]].
  rewrite Ht in Ht'. injection Ht' as <-. rewrite Hty, Hsl.
  destruct Hstop as [Hsame | [ts0 [new [Hts0 [Hnew Hlt]]]]].
  - apply (Htrail t0 ts Ht0). congruence.
  - rewrite Hts in Hnew. injection Hnew as ->.
    destruct (Htrail t0 ts0 Ht0 Hts0) as [-> | Hbetter].
    + right. exact Hlt.
    + right. destruct (ot_type t0).
      * exact (fl_ltb_trans _ _ _ Hbetter Hlt).
      * exact (fl_ltb_trans _ _ _ Hlt Hbetter).
Qed.

Lemma record_of_well_recorded_by_kind (cfg : Config) (st : State)
    (t : OpenTrade) (p : fl) (tm : Z) (reason : ExitReason) :
  current_trade st = Some t -> trailing st ->
  exit_kind cfg t p reason \/ (reason = END_OF_DATA /\ exists q, p = Fin q) ->
  well_recorded cfg (record_of cfg (balance st) t p tm reason).
Proof.
  intros Ht Htrail Hkind. unfold well_recorded, record_of. simpl.
  split; [reflexivity |]. split; [reflexivity |]. split; [reflexivity |].
  destruct Hkind as [[[-> ->] | [[Huse [-> ->]] | [Huse [-> Hts]]]] | [-> Hq]].
  - reflexivity.
  - auto.
  - split; [exact Huse |]. exact (Htrail t p Ht Hts).
  - exact Hq.
Qed.

Lemma records_exit (cfg : Config) (st st1 : State) (b : Bar) :
  armed cfg st -> exit_step cfg st b st1 ->
  Forall (well_recorded cfg) (trades st) /\ trailing st ->
  Forall (well_recorded cfg) (trades st1) /\ trailing st1.
Proof.
  intros Harmed [[_ ->] | [Hpos [st0 [t [Hup [Ht Hnext]]]]]] [Hrec Htrail];
    [auto |].
  unfold armed in Harmed. rewrite Hpos in Harmed.
  destruct Harmed as [t0 [_ [_ [Ht0 _]]]].
  pose proof (trailing_update cfg st st0 _ _ t0 Hup Ht0 Htrail) as Htrail0.
  destruct (UltraTrailing.update_trailing_stop_frame cfg st st0 _ _ Hup)
    as [_ [_ [Htr _]]].
  destruct Hnext as [-> | [p [reason [Hkind ->]]]].
  - rewrite Htr. auto.
  - split.
    + unfold closed_state. simpl. apply Forall_app. split.
      * rewrite Htr. exact Hrec.
      * constructor; [| constructor].
        apply (record_of_well_recorded_by_kind cfg st0 t p (time b) reason
                 Ht Htrail0).
        left. exact Hkind.
    + intros t' ts' Ht'. discriminate Ht'.
Qed.

Lemma records_entry (cfg : Config) (st st' : State) (b : Bar) :
  entry_step cfg st b st' ->
  Forall (well_recorded cfg) (trades st) /\ trailing st ->
  Forall (well_recorded cfg) (trades st') /\ trailing st'.
Proof.
  intros [-> | [Hpos [[k ->] | [_ [s [tp [sl ->]]]]]]] [Hrec Htrail];
    [auto | auto |].
  split; [exact Hrec |].
  intros t ts Ht Hts. unfold entered_state in Ht. simpl in Ht.
  injection Ht as <-. simpl in *.
  destruct (use_trailing_stop cfg); [| discriminate].
  injection Hts as <-. left. reflexivity.
Qed.

Lemma ultra_run_records (cfg : Config) (df : list Bar) (s e : option Z)
    (verbose : bool) (st : State) :
  run_state cfg df s e verbose = Ok st ->
  Forall (well_recorded cfg) (trades st).
Proof.
  intros Hrun.
  destruct (UltraTransitions.ultra_run_keeps cfg df s e verbose
              (fun _ st => Forall (well_recorded cfg) (trades st) /\
                           trailing st) st)
    as [st_loop [Harmed [[Hrec Htrail] Hend]]].
  - split; [constructor |]. intros t ts Ht. discriminate Ht.
  - intros done i st0 st0' Harmed HI Hbody.
    destruct (UltraTransitions.ultra_loop_body_inv cfg df st0 st0' i Harmed Hbody)
      as [b [st1 [_ [Hexit Hentry]]]].
    apply (records_entry cfg (record_equity st1 (time b)) st0' b Hentry).
    apply (records_exit cfg st0 st1 b Harmed Hexit HI).
  - exact Hrun.
  - destruct Hend as [[_ ->] | [_ [t [b [Ht ->]]]]]; [exact Hrec |].
    unfold closed_state. simpl. apply Forall_app. split; [exact Hrec |].
    constructor; [| constructor].
    apply (record_of_well_recorded_by_kind cfg st_loop t _ (time b)
             END_OF_DATA Ht Htrail).
    right. split; [reflexivity |]. eauto.
Qed.

End UltraRecords.

(** X21. The records of the ultra engine belong together: in every record
    of a run the points are the signed difference of exit and entry, the
    profit is points times lot size times 100, and the win flag says whether
    the profit is positive. A record closed at [TP] left at its target. [SL]
    occurs only with trailing stops off, at the initial stop; [TSL] only
    with trailing stops on, at a level that is the initial stop or on the
    winning side of it. A record closed at the end of the data left at a
    finite price. *)
Theorem ultra_records_are_consistent
    (cfg : UltraBacktester.Config) (df : list Bar) (s e : option Z)
    (verbose : bool) (st : UltraBacktester.State) :
  UltraBacktester.run_state cfg df s e verbose = Ok st ->
  Forall (UltraDetail.well_recorded cfg) (UltraBacktester.trades st).
Proof.
  exact (UltraRecords.ultra_run_records cfg df s e verbose st).
Qed.

Lemma ultra_records_are_consistent_witness :
  exists st r rest,
    UltraBacktester.run_state (open_ultra true false) breakout_frame None None
      false = Ok st /\
    UltraBacktester.trades st = r :: rest /\
    UltraBacktester.tr_exit_reason r = TSL /\
    UltraDetail.well_recorded (open_ultra true false) r.
Proof.
  destruct (UltraBacktester.run_state (open_ultra true false) breakout_frame None
              None false) as [st |] eqn:Hrun;
    [| vm_compute in Hrun; discriminate].
  pose proof (ultra_records_are_consistent (open_ultra true false) breakout_frame
                None None false st Hrun) as Hall.
  vm_compute in Hrun. injection Hrun as <-.
  eexists. eexists. eexists. split; [reflexivity |]. split; [reflexivity |].
  split; [reflexivity |].
  apply List.Forall_inv in Hall. exact Hall.
Defined.

(** ** The ledger of the ultra engine *)

Module UltraLedger.

Import UltraBacktester UltraDetail.

Lemma ledger_snoc (cfg : Config) (l : list TradeRecord) (r : TradeRecord) :
  ledger cfg (l ++ [r]) = fl_add (ledger cfg l) (tr_profit r).
Proof. unfold ledger. rewrite fold_left_app. reflexivity. Qed.

(** A close books the profit of its record. *)
Lemma ledger_closed (cfg : Config) (st : State) (t : OpenTrade) (p : fl)
    (tm : Z) (reason : ExitReason) :
  balance st = ledger cfg (trades st) /\
  (forall k r, nth_error (trades st) k = Some r ->
               tr_balance r = ledger cfg (firstn (S k) (trades st))) ->
  balance (closed_state cfg st t p tm reason)
  = ledger cfg (trades (closed_state cfg st t p tm reason)) /\
  (forall k r,
     nth_error (trades (closed_state cfg st t p tm reason)) k = Some r ->
     tr_balance r
     = ledger cfg (firstn (S k) (trades (closed_state cfg st t p tm reason)))).
Proof.
  intros [Hbal Hrec].
  assert (Hnew : tr_balance (record_of cfg (balance st) t p tm reason)
                 = ledger cfg (trades st
                               ++ [record_of cfg (balance st) t p tm reason])).
  { rewrite ledger_snoc. simpl. rewrite Hbal. reflexivity. }
  unfold closed_state. simpl. split; [exact Hnew |].
  intros k r Hk.
  destruct (Nat.lt_ge_cases k (length (trades st))) as [Hlt | Hge].
  - rewrite nth_error_app1 in Hk by exact Hlt.
    rewrite firstn_app.
    replace (S k - length (trades st))%nat with 0%nat by lia.
    simpl. rewrite app_nil_r. apply (Hrec k r Hk).
  - rewrite nth_error_app2 in Hk by exact Hge.
    destruct (k - length (trades st))%nat as [| j] eqn:Hj; simpl in Hk.
    + injection Hk as <-.
      rewrite firstn_all2 by (rewrite length_app; simpl; lia).
      exact Hnew.
    + destruct j; discriminate Hk.
Qed.

Lemma ledger_exit (cfg : Config) (st st1 : State) (b : Bar) :
  exit_step cfg st b st1 ->
  balance st = ledger cfg (trades st) /\
  (forall k r, nth_error (trades st) k = Some r ->
               tr_balance r = ledger cfg (firstn (S k) (trades st))) ->
  balance st1 = ledger cfg (trades st1) /\
  (forall k r, nth_error (trades st1) k = Some r ->
               tr_balance r = ledger cfg (firstn (S k) (trades st1))).
Proof.
  intros [[_ ->] | [Hpos [st0 [t [Hup [Ht Hnext]]]]]] HI; [exact HI |].
  destruct (UltraTrailing.update_trailing_stop_frame cfg st st0 _ _ Hup)
    as [Hb0 [_ [Htr _]]].
  assert (HI0 : balance st0 = ledger cfg (trades st0) /\
                (forall k r, nth_error (trades st0) k = Some r ->
                   tr_balance r = ledger cfg (firstn (S k) (trades st0)))).
  { rewrite Hb0, Htr. exact HI. }
  destruct Hnext as [-> | [p [reason [_ ->]]]]; [exact HI0 |].
  apply ledger_closed. exact HI0.
Qed.

Lemma ledger_entry (cfg : Config) (st st' : State) (b : Bar) :
  entry_step cfg st b st' ->
  balance st' = balance st /\ trades st' = trades st.
Proof.
  intros [-> | [_ [[k ->] | [_ [s [tp [sl ->]]]]]]]; auto.
Qed.

Lemma run_ledger (cfg : Config) (df : list Bar) (s e : option Z)
    (verbose : bool) (st : State) :
  run_state cfg df s e verbose = Ok st ->
  balance st = ledger cfg (trades st) /\
  forall k r,
    nth_error (trades st) k = Some r ->
    tr_balance r = ledger cfg (firstn (S k) (trades st)).
Proof.
  intros Hrun.
  destruct (UltraTransitions.ultra_run_keeps cfg df s e verbose
              (fun _ st0 =>
                 balance st0 = ledger cfg (trades st0) /\
                 forall k r,
                   nth_error (trades st0) k = Some r ->
                   tr_balance r = ledger cfg (firstn (S k) (trades st0))) st)
    as [st_loop [Harmed [HI Hend]]].
  - split; [reflexivity |]. intros k r Hk. destruct k; discriminate Hk.
  - intros done i st0 st0' Harmed HI Hbody.
    destruct (UltraTransitions.ultra_loop_body_inv cfg df st0 st0' i Harmed
                Hbody) as [b [st1 [_ [Hexit Hentry]]]].
    destruct (ledger_exit cfg st0 st1 b Hexit HI) as [H1 H2].
    destruct (ledger_entry cfg _ st0' b Hentry) as [Hb Ht].
    simpl in Hb, Ht. rewrite Hb, Ht. split; assumption.
  - exact Hrun.
  - destruct Hend as [[_ ->] | [_ [t [b [_ ->]]]]]; [exact HI |].
    apply ledger_closed. exact HI.
Qed.

End UltraLedger.

(** X22. The ledger of the ultra engine: after a run the balance is the
    initial balance with the profits of the recorded trades added one after
    the other, the forced close included, and the balance field of every
    record is the ledger up to and including that record. *)
Theorem ultra_balance_is_initial_plus_profits
    (cfg : UltraBacktester.Config) (df : list Bar) (s e : option Z)
    (verbose : bool) (st : UltraBacktester.State) :
  UltraBacktester.run_state cfg df s e verbose = Ok st ->
  UltraBacktester.balance st
    = UltraDetail.ledger cfg (UltraBacktester.trades st) /\
  forall k r,
    nth_error (UltraBacktester.trades st) k = Some r ->
    UltraBacktester.tr_balance r
    = UltraDetail.ledger cfg (firstn (S k) (UltraBacktester.trades st)).
Proof.
  exact (UltraLedger.run_ledger cfg df s e verbose st).
Qed.

Lemma ultra_balance_is_initial_plus_profits_witness :
  exists st,
    UltraBacktester.run_state (open_ultra true false) breakout_frame None None
      false = Ok st /\
    UltraBacktester.balance st
      = UltraDetail.ledger (open_ultra true false) (UltraBacktester.trades st).
Proof.
  destruct (UltraBacktester.run_state (open_ultra true false) breakout_frame None
              None false) as [st |] eqn:Hrun;
    [| vm_compute in Hrun; discriminate].
  exists st. split; [reflexivity |].
  destruct (ultra_balance_is_initial_plus_profits (open_ultra true false)
              breakout_frame None None false st Hrun) as [H _].
  exact H.
Defined.

(** ** Entries and the trading hours *)

Module UltraHours.

Import UltraBacktester UltraDetail.

(** A signal has passed the time filter at the time of its bar. *)
Lemma detect_breakout_in_hours (cfg : Config) (df : list Bar) (st st' : State)
    (i : Z) (h l : Q) (s : Side) (b : Bar) :
  iloc df i = Ok b ->
  detect_breakout cfg df st i h l = Ok (st', Some s) ->
  check_time_filter cfg (time b) = true.
Proof.
  intros Hb. unfold detect_breakout. rewrite Hb.
  destruct (i <? 1); [discriminate |].
  destruct (iloc df (i - 1)) as [prev |]; [| discriminate]. simpl.
  destruct (check_time_filter cfg (time b)); [reflexivity |].
  intros H. exfalso. unfold bind in H.
  UltraCurve.branch_on H; discriminate H.
Qed.

Lemma entry_phase_in_hours (cfg : Config) (df : list Bar) (i : Z)
    (st st' : State) (b : Bar) :
  iloc df i = Ok b ->
  entry_phase cfg df i st b = Ok st' ->
  entered_in_hours cfg st -> entered_in_hours cfg st'.
Proof.
  intros Hb. unfold entry_phase.
  destruct (in_position st) eqn:Hpos; [intros [= <-]; auto |].
  destruct (negb (can_trade_today cfg st (time b)));
    [intros [= <-]; auto |].
  destruct (identify_consolidation cfg df i) as [[[c h] l] r].
  destruct c; [| intros [= <-]; auto].
  destruct h as [[h | | |] |]; try (intros [= <-]; auto; fail).
  destruct l as [[l | | |] |]; try (intros [= <-]; auto; fail).
  destruct r as [[r | | |] |]; try (intros [= <-]; auto; fail).
  destruct (detect_breakout cfg df st i h l) as [[st1 sig] |] eqn:Hd;
    [| discriminate].
  destruct (UltraSignals.detect_breakout_cases cfg df st st1 i h l sig Hd)
    as [raw [_ Hcases]].
  simpl. destruct sig as [s |].
  - pose proof (detect_breakout_in_hours cfg df st st1 i h l s b Hb Hd)
      as Hhours.
    destruct (calculate_tp_sl cfg df i (close b) s r) as [tp sl].
    intros [= <-] [Hrec _]. split.
    + simpl. destruct raw as [s0 |]; [| destruct Hcases].
      destruct Hcases as [_ ->]. exact Hrec.
    + simpl. intros t [= <-]. exact Hhours.
  - intros [= <-] HI. destruct raw as [s0 |].
    + destruct Hcases as [k ->]. exact HI.
    + rewrite Hcases. exact HI.
Qed.

Lemma closed_in_hours (cfg : Config) (st : State) (t : OpenTrade) (p : fl)
    (tm : Z) (reason : ExitReason) :
  current_trade st = Some t -> entered_in_hours cfg st ->
  entered_in_hours cfg (closed_state cfg st t p tm reason).
Proof.
  intros Ht [Hrec Hcur]. split.
  - unfold closed_state. simpl. apply Forall_app. split; [exact Hrec |].
    constructor; [| constructor]. simpl. apply Hcur. exact Ht.
  - intros t' Ht'. discriminate Ht'.
Qed.

Lemma exit_step_in_hours (cfg : Config) (st st1 : State) (b : Bar) :
  armed cfg st -> exit_step cfg st b st1 ->
  entered_in_hours cfg st -> entered_in_hours cfg st1.
Proof.
  intros Harmed [[_ ->] | [Hpos [st0 [t [Hup [Ht Hnext]]]]]] HI; [exact HI |].
  assert (HI0 : entered_in_hours cfg st0).
  { unfold armed in Harmed. rewrite Hpos in Harmed.
    destruct Harmed as [t0 [_ [_ [Ht0 _]]]].
    destruct (UltraTransitions.update_trailing_stop_inv cfg st st0 _ _ t0
                Hup Ht0) as [t' [Ht' [_ [_ [Htime _]]]]].
    destruct (UltraTrailing.update_trailing_stop_frame cfg st st0 _ _ Hup)
      as [_ [_ [Htr _]]].
    destruct HI as [Hrec Hcur]. split; [rewrite Htr; exact Hrec |].
    intros t1 Ht1. rewrite Ht' in Ht1. injection Ht1 as <-.
    rewrite Htime. apply Hcur. exact Ht0. }
  destruct Hnext as [-> | [p [reason [_ ->]]]]; [exact HI0 |].
  apply closed_in_hours; assumption.
Qed.

Lemma run_in_hours (cfg : Config) (df : list Bar) (s e : option Z)
    (verbose : bool) (st : State) :
  run_state cfg df s e verbose = Ok st ->
  Forall (fun r => check_time_filter cfg (tr_entry_time r) = true)
         (trades st).
Proof.
  intros Hrun.
  destruct (UltraTransitions.ultra_run_keeps cfg df s e verbose
              (fun _ st0 => entered_in_hours cfg st0) st)
    as [st_loop [Harmed [HI Hend]]].
  - split; [constructor |]. intros t Ht. discriminate Ht.
  - intros done i st0 st0' Harmed HI Hbody.
    destruct (UltraTransitions.ultra_loop_body_inv cfg df st0 st0' i Harmed
                Hbody) as [b [st1 [Hb [Hexit _]]]].
    pose proof (exit_step_in_hours cfg st0 st1 b Harmed Hexit HI) as HI1.
    unfold loop_body in Hbody. rewrite Hb in Hbody. simpl in Hbody.
    destruct (exit_phase cfg st0 b) as [st1' |] eqn:Hx; [| discriminate].
    simpl in Hbody.
    assert (Hsame : entered_in_hours cfg st1').
    { apply (exit_step_in_hours cfg st0 st1' b Harmed); [| exact HI].
      apply UltraTransitions.ultra_exit_phase_inv; assumption. }
    apply (entry_phase_in_hours cfg df i (record_equity st1' (time b)) st0' b
             Hb Hbody).
    exact Hsame.
  - exact Hrun.
  - destruct Hend as [[_ ->] | [_ [t [b [Ht ->]]]]]; [exact (proj1 HI) |].
    exact (proj1 (closed_in_hours cfg st_loop t _ _ _ Ht HI)).
Qed.

End UltraHours.

(** X23. No entry outside the trading hours: every trade a run of the ultra
    engine records was entered at a bar time that [check_time_filter] lets
    through, so with the time filter on its hour lies within the trading
    window of the configuration. Exits are not bound by the window. *)
Theorem ultra_entries_keep_trading_hours
    (cfg : UltraBacktester.Config) (df : list Bar) (s e : option Z)
    (verbose : bool) (st : UltraBacktester.State) :
  UltraBacktester.run_state cfg df s e verbose = Ok st ->
  Forall (fun r =>
            UltraBacktester.check_time_filter cfg
              (UltraBacktester.tr_entry_time r) = true)
         (UltraBacktester.trades st).
Proof.
  exact (UltraHours.run_in_hours cfg df s e verbose st).
Qed.

Lemma ultra_entries_keep_trading_hours_witness :
  exists st r rest,
    UltraBacktester.run_state (open_ultra false true) late_frame None None
      false = Ok st /\
    UltraBacktester.trades st = r :: rest /\
    UltraBacktester.check_time_filter (open_ultra false true)
      (UltraBacktester.tr_entry_time r) = true.
Proof.
  destruct (UltraBacktester.run_state (open_ultra false true) late_frame None
              None false) as [st |] eqn:Hrun;
    [| vm_compute in Hrun; discriminate].
  pose proof (ultra_entries_keep_trading_hours (open_ultra false true)
                late_frame None None false st Hrun) as Hall.
  vm_compute in Hrun. injection Hrun as <-.
  eexists. eexists. eexists. split; [reflexivity |].
  split; [reflexivity |].
  apply List.Forall_inv in Hall. exact Hall.
Defined.

(** * Unvalidated input *)

Module RawRun.

Import Backtester RawBacktester.











End RawRun.



